(** * Stockcount: the session and count ledger, the export and the bulk import

    A shallow embedding of the handlers of the sessions page
    ([createSession], [completeSession], [deleteSession], [downloadExcel]),
    of the count page ([updateCount], [incrementCount], [decrementCount],
    [fetchItemsForShop], [loadExistingCounts], [saveCounts]) and of the
    products page ([handleFileImport]), over an explicit model of the hosted
    database.

    Conventions.
    - A handler is a computation in the monad [M]: it threads a [World]
      (the database and the trace of what the handler did that can be
      observed: requests sent, toasts shown, console lines) and finishes
      normally, by an early [return], or by a [throw].
    - A request to the database answers [Data d] or [Err e].  The failure of
      a request for reasons outside the tables (network, row-level policy) is
      an argument of the handler, named after the variable the source binds
      the error to; a failed request leaves the tables as they were.
    - React state that only drives the display (spinners, dialogs, tabs,
      the "loading" toast and its dismissal) is left out. *)

From Stdlib Require Import ZArith QArith Qround Ascii String List Permutation Lia.
From stdpp Require Import base option list gmap strings pretty fin_maps.

Local Open Scope Z_scope.
Local Open Scope string_scope.

(** ** Strings *)

Module Str.

(** [String.prototype.trim] on the ASCII white space characters (space, and
    tab to carriage return). *)
Definition is_ws (a : ascii) : bool :=
  let n := nat_of_ascii a in
  Nat.eqb n 32 || (Nat.leb 9 n && Nat.leb n 13).

Fixpoint trimStart (s : string) : string :=
  match s with
  | EmptyString => EmptyString
  | String a s' => if is_ws a then trimStart s' else s
  end.

Fixpoint trimEnd (s : string) : string :=
  match s with
  | EmptyString => EmptyString
  | String a s' =>
      match trimEnd s' with
      | EmptyString => if is_ws a then EmptyString else String a EmptyString
      | t => String a t
      end
  end.

Definition trim (s : string) : string := trimEnd (trimStart s).

(** [String.prototype.toLowerCase] on ASCII letters. *)
Definition lower (a : ascii) : ascii :=
  let n := nat_of_ascii a in
  if Nat.leb 65 n && Nat.leb n 90 then ascii_of_nat (n + 32) else a.

Fixpoint toLowerCase (s : string) : string :=
  match s with
  | EmptyString => EmptyString
  | String a s' => String (lower a) (toLowerCase s')
  end.

(** A string in a condition: the empty string is falsy. *)
Definition truthy (s : string) : bool :=
  match s with EmptyString => false | _ => true end.

End Str.

(** ** Numbers

    The [number]s the count page handles go through [Math.floor], [Math.min],
    [Math.max], [+ 1], [- 1], [> 0] and [||] only.  On doubles these are exact
    (the two additions as long as a count stays below 2^53), so a finite
    number is modelled by the rational it denotes. *)

Module Num.

Inductive number : Type :=
| NaN
| Infinity (negative : bool)
| Finite (q : Q).

Definition of_Z (z : Z) : number := Finite (inject_Z z).

(** [x || 0] : zero and NaN are falsy. *)
Definition or_zero (x : number) : number :=
  match x with
  | NaN => of_Z 0
  | Infinity _ => x
  | Finite q => if Qeq_bool q 0 then of_Z 0 else x
  end.

Definition floor (x : number) : number :=
  match x with
  | Finite q => of_Z (Qfloor q)
  | _ => x
  end.

(** [a <= b] on numbers that are not NaN. *)
Definition le (a b : number) : bool :=
  match a, b with
  | NaN, _ | _, NaN => false
  | Infinity true, _ => true
  | _, Infinity false => true
  | Infinity false, _ => false
  | _, Infinity true => false
  | Finite p, Finite q => Qle_bool p q
  end.

Definition min (a b : number) : number :=
  match a, b with
  | NaN, _ | _, NaN => NaN
  | _, _ => if le a b then a else b
  end.

Definition max (a b : number) : number :=
  match a, b with
  | NaN, _ | _, NaN => NaN
  | _, _ => if le a b then b else a
  end.

(** [x > 0] *)
Definition gt0 (x : number) : bool :=
  match x with
  | NaN => false
  | Infinity negative => negb negative
  | Finite q => negb (Qle_bool q 0)
  end.

(** [x + d] for an integer [d].  The source adds doubles, which give the
    exact sum as long as it is an integer of magnitude at most 2^53: the
    statements that depend on the sum take the counts below 2^53. *)
Definition add (x : number) (d : Z) : number :=
  match x with
  | Finite q => Finite (Qred (q + inject_Z d))
  | _ => x
  end.

(** The value an integer column accepts: a finite number without a
    fractional part. *)
Definition to_integer (x : number) : option Z :=
  match x with
  | Finite q => if Qeq_bool q (inject_Z (Qfloor q)) then Some (Qfloor q) else None
  | _ => None
  end.

(** [Math.max(0, Math.min(999999, Math.floor(x || 0)))], the expression of
    [updateCount] and [saveCounts]. *)
Definition clamp (x : number) : number :=
  max (of_Z 0) (min (of_Z 999999) (floor (or_zero x))).

End Num.

Export Num(number, NaN, Infinity, Finite).

(** ** The hosted database *)

Record PostgrestError := { code : string; message : string }.

(** What a request resolves to: [{ data, error }] with exactly one of them set. *)
Inductive response (A : Type) : Type :=
| Data (a : A)
| Err (e : PostgrestError).
Arguments Data {A} a.
Arguments Err {A} e.

(** [stock_count_sessions] *)
Record Session := {
  name : string;
  status : string;
  created_by : option string;
  completed_at : option Z;
}.

(** [stock_counts], keyed by [(session_id, shop_id, item_id)] *)
Record CountRow := {
  row_boxes : Z;
  row_singles : Z;
  counted_by : string;
}.

Record Shop := { shop_id : string; shop_name : string }.
Record Category := { cat_id : string; cat_name : string }.
Record Item := {
  item_id : string;
  item_name : string;
  pack_size : string;
  category_id : option string;
}.

Abbreviation CountKey := (string * string * string)%type.

Record Database := {
  stock_count_sessions : gmap string Session;
  session_user_assignments : list (string * string);  (* session_id, user_id *)
  stock_counts : gmap CountKey CountRow;
  user_shop_assignments : list (string * string);     (* user_id, shop_id *)
  shops : list Shop;
  categories : list Category;
  items : list Item;
  shop_items : list (string * string);                (* shop_id, item_id *)
}.

Definition set_sessions (f : gmap string Session -> gmap string Session) (d : Database) :=
  {| stock_count_sessions := f (stock_count_sessions d);
     session_user_assignments := session_user_assignments d;
     stock_counts := stock_counts d;
     user_shop_assignments := user_shop_assignments d;
     shops := shops d; categories := categories d; items := items d;
     shop_items := shop_items d |}.

Definition set_session_assignments (f : list (string * string) -> list (string * string))
    (d : Database) :=
  {| stock_count_sessions := stock_count_sessions d;
     session_user_assignments := f (session_user_assignments d);
     stock_counts := stock_counts d;
     user_shop_assignments := user_shop_assignments d;
     shops := shops d; categories := categories d; items := items d;
     shop_items := shop_items d |}.

Definition set_counts (f : gmap CountKey CountRow -> gmap CountKey CountRow) (d : Database) :=
  {| stock_count_sessions := stock_count_sessions d;
     session_user_assignments := session_user_assignments d;
     stock_counts := f (stock_counts d);
     user_shop_assignments := user_shop_assignments d;
     shops := shops d; categories := categories d; items := items d;
     shop_items := shop_items d |}.

Definition set_categories (f : list Category -> list Category) (d : Database) :=
  {| stock_count_sessions := stock_count_sessions d;
     session_user_assignments := session_user_assignments d;
     stock_counts := stock_counts d;
     user_shop_assignments := user_shop_assignments d;
     shops := shops d; categories := f (categories d); items := items d;
     shop_items := shop_items d |}.

Definition set_items (f : list Item -> list Item) (d : Database) :=
  {| stock_count_sessions := stock_count_sessions d;
     session_user_assignments := session_user_assignments d;
     stock_counts := stock_counts d;
     user_shop_assignments := user_shop_assignments d;
     shops := shops d; categories := categories d; items := f (items d);
     shop_items := shop_items d |}.

(** The object the count page keeps per item, and the object it sends. *)
Record StockCount := {
  sc_item_id : string;
  boxes : number;
  singles : number;
}.

Record CountInput := {
  in_session_id : string;
  in_shop_id : string;
  in_item_id : string;
  in_boxes : number;
  in_singles : number;
  in_counted_by : string;
}.

(** A row of [stock_counts] as a select returns it. *)
Record CountRecord := {
  rec_session_id : string;
  rec_shop_id : string;
  rec_item_id : string;
  rec_boxes : Z;
  rec_singles : Z;
}.

(** ** Requests, and what a handler lets the outside see *)

Inductive request : Type :=
| InsertSession (s_name s_status : string) (s_created_by : option string)
| InsertSessionAssignments (rows : list (string * string))
| SelectSessionStatus (id : string)
| UpdateSessionCompleted (id : string) (at_ : Z)
| DeleteStockCounts (session_id : string)
| DeleteSessionAssignments (session_id : string)
| DeleteSession (id : string)
| SelectUserShopAssignment (user_id shop : string)
| UpsertStockCounts (rows : list CountInput)
| SelectStockCounts (session_id : string) (shop : option string)
| SelectShops
| SelectCategories
| SelectShopItems (shop : option string)
| SelectItems (ids : option (list string))
| InsertCategory (c_name : string)
| InsertItem (i_name i_pack_size : string) (i_category_id : option string).

(** A cell and a row of a sheet handed to the spreadsheet library. *)
Inductive cell : Type :=
| Text (s : string)
| Number (z : Z).

Inductive event : Type :=
| Request (r : request)
| ToastSuccess (msg : string)
| ToastError (msg : string)
| ConsoleWarn (msg : string) (e : PostgrestError)
| ConsoleError (msg : string) (e : PostgrestError)
| WriteFile (file : string) (sheets : list (string * list (list cell))).

(** The database, the React state the handlers set, and the trace. *)
Record World := {
  db : Database;
  st_counts : gmap string StockCount;
  st_items : list Item;
  st_categories : list Category;
  trace : list event;
}.

(** ** The handler monad *)

Inductive completion (A : Type) : Type :=
| Normal (a : A)
| Returned
| Thrown (e : PostgrestError).
Arguments Normal {A} a.
Arguments Returned {A}.
Arguments Thrown {A} e.

Definition M (A : Type) : Type := World -> completion A * World.

Definition ret {A} (a : A) : M A := fun w => (Normal a, w).

Definition bind {A B} (m : M A) (k : A -> M B) : M B :=
  fun w =>
    match m w with
    | (Normal a, w') => k a w'
    | (Returned, w') => (Returned, w')
    | (Thrown e, w') => (Thrown e, w')
    end.

Declare Scope handler_scope.
Delimit Scope handler_scope with handler.
Notation "x <- m ;; k" := (bind m (fun x => k))
  (at level 100, m at next level, right associativity) : handler_scope.
Notation "m ;; k" := (bind m (fun _ => k))
  (at level 100, right associativity) : handler_scope.
Local Open Scope handler_scope.

(** [return] out of the handler, [throw e], and [try { body } catch (e) { h e }]. *)
Definition return_ {A} : M A := fun w => (Returned, w).
Definition throw {A} (e : PostgrestError) : M A := fun w => (Thrown e, w).

Definition try_catch {A} (body : M A) (h : PostgrestError -> M A) : M A :=
  fun w =>
    match body w with
    | (Thrown e, w') => h e w'
    | r => r
    end.

(** The world a handler leaves behind, however it finished. *)
Definition run {A} (m : M A) (w : World) : World := snd (m w).

Definition emit (e : event) : M unit :=
  fun w => (Normal tt,
            {| db := db w; st_counts := st_counts w; st_items := st_items w;
               st_categories := st_categories w; trace := (trace w ++ [e])%list |}).

Definition toast_success (msg : string) : M unit := emit (ToastSuccess msg).
Definition toast_error (msg : string) : M unit := emit (ToastError msg).
Definition console_warn (msg : string) (e : PostgrestError) : M unit := emit (ConsoleWarn msg e).
Definition console_error (msg : string) (e : PostgrestError) : M unit := emit (ConsoleError msg e).

Definition setCounts (c : gmap string StockCount) : M unit :=
  fun w => (Normal tt,
            {| db := db w; st_counts := c; st_items := st_items w;
               st_categories := st_categories w; trace := trace w |}).

Definition setItems (l : list Item) : M unit :=
  fun w => (Normal tt,
            {| db := db w; st_counts := st_counts w; st_items := l;
               st_categories := st_categories w; trace := trace w |}).

Definition setCategories (f : list Category -> list Category) : M unit :=
  fun w => (Normal tt,
            {| db := db w; st_counts := st_counts w; st_items := st_items w;
               st_categories := f (st_categories w); trace := trace w |}).

(** One request: it is recorded; when it fails from outside ([fault]) the
    tables stay as they are, otherwise [exec] answers from the tables. *)
Definition query {A} (r : request) (fault : option PostgrestError)
    (exec : Database -> response A * Database) : M (response A) :=
  fun w =>
    let res :=
      match fault with
      | Some e => (Err e, db w)
      | None => exec (db w)
      end in
    (Normal (fst res),
     {| db := snd res; st_counts := st_counts w; st_items := st_items w;
        st_categories := st_categories w; trace := (trace w ++ [Request r])%list |}).

(** [if (error) throw error] *)
Definition or_throw {A} (r : response A) : M A :=
  match r with
  | Data a => ret a
  | Err e => throw e
  end.

(** [error.message || 'Unknown error occurred'] *)
Definition message_or_unknown (e : PostgrestError) : string :=
  if Str.truthy (message e) then message e else "Unknown error occurred".

(** [.single()]: exactly one row, or the error PGRST116. *)
Definition PGRST116 : PostgrestError :=
  {| code := "PGRST116";
     message := "JSON object requested, multiple (or no) rows returned" |}.

Definition single {A} (rows : list A) : response A :=
  match rows with
  | [r] => Data r
  | _ => Err PGRST116
  end.

Definition duplicate_key : PostgrestError :=
  {| code := "23505"; message := "duplicate key value violates unique constraint" |}.

Definition invalid_integer : PostgrestError :=
  {| code := "22P02"; message := "invalid input syntax for type integer" |}.

(** ** The sessions page *)

Module Sessions.

(** Modelled from the spec: the table declaration is not part of the
    sources; a session's [completed_at] is "null until completion", so an
    insert that does not give the column stores null. *)
Definition default_completed_at : option Z := None.

(** [.from('stock_count_sessions').insert({ name, status, created_by }).select().single()];
    [new_id] is the identifier the database generates for the row. *)
Definition insert_session (fault : option PostgrestError) (new_id : string)
    (s_name s_status : string) (s_created_by : option string)
    : M (response (string * Session)) :=
  query (InsertSession s_name s_status s_created_by) fault
    (fun d =>
       match stock_count_sessions d !! new_id with
       | Some _ => (Err duplicate_key, d)
       | None =>
           let s := {| name := s_name; status := s_status;
                       created_by := s_created_by;
                       completed_at := default_completed_at |} in
           (Data (new_id, s), set_sessions (insert new_id s) d)
       end).

(** [.from('session_user_assignments').insert(assignments)] *)
Definition insert_session_assignments (fault : option PostgrestError)
    (rows : list (string * string)) : M (response unit) :=
  query (InsertSessionAssignments rows) fault
    (fun d => (Data tt, set_session_assignments (fun l => (l ++ rows)%list) d)).

(** [.from('stock_count_sessions').select('status').eq('id', id).single()] *)
Definition select_session_status (fault : option PostgrestError) (id : string)
    : M (response string) :=
  query (SelectSessionStatus id) fault
    (fun d =>
       (match stock_count_sessions d !! id with
        | Some s => Data (status s)
        | None => Err PGRST116
        end, d)).

(** The row [update({ status: 'completed', completed_at })] writes. *)
Definition completed (at_ : Z) (s : Session) : Session :=
  {| name := name s; status := "completed"; created_by := created_by s;
     completed_at := Some at_ |}.

(** [.update({ status: 'completed', completed_at }).eq('id', id).eq('status', 'active')]:
    the rows that match both filters are rewritten; matching no row is not
    an error. *)
Definition update_session_completed (fault : option PostgrestError) (id : string)
    (at_ : Z) : M (response unit) :=
  query (UpdateSessionCompleted id at_) fault
    (fun d =>
       (Data tt,
        match stock_count_sessions d !! id with
        | Some s =>
            if String.eqb (status s) "active"
            then set_sessions (insert id (completed at_ s)) d
            else d
        | None => d
        end)).

(** [.from('stock_counts').delete().eq('session_id', id)] *)
Definition delete_stock_counts (fault : option PostgrestError) (id : string)
    : M (response unit) :=
  query (DeleteStockCounts id) fault
    (fun d =>
       (Data tt,
        set_counts (filter (fun kv : CountKey * CountRow => kv.1.1.1 ≠ id)) d)).

(** [.from('session_user_assignments').delete().eq('session_id', id)] *)
Definition delete_session_assignments (fault : option PostgrestError) (id : string)
    : M (response unit) :=
  query (DeleteSessionAssignments id) fault
    (fun d =>
       (Data tt,
        set_session_assignments (filter (fun a : string * string => a.1 ≠ id)) d)).

(** [.from('stock_count_sessions').delete().eq('id', id)] *)
Definition delete_session (fault : option PostgrestError) (id : string)
    : M (response unit) :=
  query (DeleteSession id) fault
    (fun d => (Data tt, set_sessions (delete id) d)).

(** [createSession], with the page state it reads as arguments. *)
Definition createSession (sessionName : string) (selectedUserIds : list string)
    (user : option string) (new_id : string)
    (sessionError assignError : option PostgrestError) : M unit :=
  if negb (Str.truthy (Str.trim sessionName)) then
    toast_error "Please enter a session name" ;; return_
  else
    try_catch
      (r <- insert_session sessionError new_id sessionName "active" user ;;
       match r with
       | Err e =>
           toast_error ("Error creating session: " ++ message e) ;; return_
       | Data newSession =>
           (if Nat.ltb 0 (length selectedUserIds) then
              let assignments :=
                map (fun userId => (newSession.1, userId)) selectedUserIds in
              a <- insert_session_assignments assignError assignments ;;
              match a with
              | Err e => console_error "Error assigning users:" e
              | Data _ => ret tt
              end
            else ret tt) ;;
           toast_success "Session created successfully!"
       end)
      (fun err =>
         console_error "Unexpected error creating session:" err ;;
         toast_error ("Unexpected error: " ++ message_or_unknown err)).

Definition already_completed : string := "Session is already completed or archived.".
Definition completed_successfully : string := "Session completed successfully!".

(** [completeSession], first request: read the status and stop unless it
    is ['active']. *)
Definition completeSession_check (sessionId : string)
    (checkError : option PostgrestError) : M unit :=
  r <- select_session_status checkError sessionId ;;
  sessionData <- or_throw r ;;
  if negb (String.eqb sessionData "active") then
    toast_error already_completed ;; return_
  else ret tt.

(** [completeSession], second request: the conditional update and the
    toast that follows it. *)
Definition completeSession_write (sessionId : string) (now : Z)
    (error : option PostgrestError) : M unit :=
  r <- update_session_completed error sessionId now ;;
  match r with
  | Err e => toast_error ("Error completing session: " ++ message_or_unknown e)
  | Data _ => toast_success completed_successfully
  end.

Definition completeSession_catch (err : PostgrestError) : M unit :=
  console_error "Error completing session:" err ;;
  toast_error ("Error: " ++ message_or_unknown err).

Definition completeSession (sessionId : string) (now : Z)
    (checkError error : option PostgrestError) : M unit :=
  try_catch
    (completeSession_check sessionId checkError ;;
     completeSession_write sessionId now error)
    completeSession_catch.

Definition deleted_successfully : string := "Session deleted successfully!".

Definition deleteSession (sessionToDelete : option string)
    (countsError assignError error : option PostgrestError) : M unit :=
  match sessionToDelete with
  | None => return_
  | Some id =>
      if negb (Str.truthy id) then return_
      else
        try_catch
          (c <- delete_stock_counts countsError id ;;
           match c with
           | Err e => console_warn "Error deleting counts:" e
           | Data _ => ret tt
           end ;;
           a <- delete_session_assignments assignError id ;;
           match a with
           | Err e => console_warn "Error deleting assignments:" e
           | Data _ => ret tt
           end ;;
           s <- delete_session error id ;;
           match s with
           | Err e =>
               toast_error ("Error deleting session: " ++ message_or_unknown e)
           | Data _ => toast_success deleted_successfully
           end)
          (fun err =>
             console_error "Error deleting session:" err ;;
             toast_error ("Error: " ++ message_or_unknown err))
  end.

End Sessions.

(** ** The spreadsheet export of the sessions page *)

Module Excel.

(** [`${shop_id}-${item_id}`] *)
Definition count_key (shop item : string) : string := shop ++ "-" ++ item.

(** [countsMap]: a later count with the same key replaces an earlier one. *)
Definition build_countsMap (counts : list CountRecord) : gmap string (Z * Z) :=
  foldl (fun m count =>
           <[count_key (rec_shop_id count) (rec_item_id count)
               := (rec_boxes count, rec_singles count)]> m)
        ∅ counts.

(** [shopItemsMap]: shop id to the set of its item ids. *)
Definition build_shopItemsMap (shopItems : list (string * string))
    : gmap string (gset string) :=
  foldl (fun m si => <[si.1 := default ∅ (m !! si.1) ∪ {[si.2]}]> m) ∅ shopItems.

Definition header_row : list cell :=
  [Text "Item Name"; Text "Pack Size"; Text "Boxes"; Text "Singles"].

Definition item_row (countsMap : gmap string (Z * Z)) (shop : Shop) (item : Item)
    : list cell :=
  let count := default (0, 0) (countsMap !! count_key (shop_id shop) (item_id item)) in
  [Text (item_name item); Text (pack_size item); Number count.1; Number count.2].

(** The body of [shops.forEach]: the rows of the sheet of one shop. *)
Definition sheetData (categories : list Category)
    (shopItemsMap : gmap string (gset string)) (items : list Item)
    (countsMap : gmap string (Z * Z)) (shop : Shop) : list (list cell) :=
  let shopItemIds := default ∅ (shopItemsMap !! shop_id shop) in
  let shopItemsFiltered := filter (fun item => item_id item ∈ shopItemIds) items in
  let itemsByCategory : gmap string (Category * list Item) :=
    foldl (fun m cat =>
             <[cat_id cat :=
                 (cat, filter (fun item => category_id item = Some (cat_id cat))
                              shopItemsFiltered)]> m)
          ∅ categories in
  flat_map
    (fun cat =>
       match itemsByCategory !! cat_id cat with
       | None => []
       | Some categoryData =>
           if Nat.eqb (length categoryData.2) 0 then []
           else
             ([[Text (cat_name cat)]; header_row]
                ++ map (item_row countsMap shop) categoryData.2
                ++ [[]])%list
       end)
    categories.

(** The sheets the handler hands to the spreadsheet library, in the order
    of the shops: the name of the shop and the rows of its sheet. *)
Definition shop_sheets (shops : list Shop) (categories : list Category)
    (shopItems : list (string * string)) (items : list Item)
    (counts : list CountRecord) : list (string * list (list cell)) :=
  let shopItemsMap := build_shopItemsMap shopItems in
  let countsMap := build_countsMap counts in
  map (fun shop =>
         (shop_name shop, sheetData categories shopItemsMap items countsMap shop))
      shops.

(** [XLSX.utils.book_append_sheet(workbook, worksheet, name)] is code of the
    spreadsheet library, which is not part of the repository.  The handler
    depends on it in one way: the call throws for a name it refuses, and
    the export is abandoned.  It is taken as a parameter: given the names
    of the sheets the workbook holds and the name asked for, the error the
    call throws, or the name the sheet is stored under. *)
Definition SheetNames : Type := list string -> string -> response string.

(** [shops.forEach((shop) => { ... book_append_sheet(...) })] on a workbook
    that holds [sheets]: the sheets afterwards, or the error that ended
    the loop. *)
Fixpoint append_sheets (book_append_sheet : SheetNames)
    (sheets todo : list (string * list (list cell)))
    : response (list (string * list (list cell))) :=
  match todo with
  | [] => Data sheets
  | (name, data) :: rest =>
      match book_append_sheet (map fst sheets) name with
      | Err e => Err e
      | Data stored =>
          append_sheets book_append_sheet (sheets ++ [(stored, data)])%list rest
      end
  end.

(** The workbook: one sheet per shop, or the error of the first name the
    library refuses. *)
Definition workbook (book_append_sheet : SheetNames) (shops : list Shop)
    (categories : list Category) (shopItems : list (string * string))
    (items : list Item) (counts : list CountRecord)
    : response (list (string * list (list cell))) :=
  append_sheets book_append_sheet []
    (shop_sheets shops categories shopItems items counts).

(** The library as its error messages describe it: a name is refused when
    it is longer than 31 characters, when it holds one of the characters
    : \ / ? * [ ], and when the workbook has a sheet of that name; a sheet
    asked for without a name is stored as Sheet1, or the first of Sheet2,
    Sheet3, ... that is free. *)
Definition badchars : list ascii :=
  [":"; "\"; "/"; "?"; "*"; "["; "]"]%char.

Fixpoint has_badchar (n : string) : bool :=
  match n with
  | EmptyString => false
  | String a n' => existsb (Ascii.eqb a) badchars || has_badchar n'
  end.

Definition named (names : list string) (n : string) : bool :=
  existsb (String.eqb n) names.

Definition library_error (msg : string) : PostgrestError :=
  {| code := ""; message := msg |}.

Definition sheetjs : SheetNames :=
  fun names name =>
    let name :=
      if Str.truthy name then name
      else default "Sheet1"
             (List.find (fun n => negb (named names n))
                        (map (fun i => "Sheet" ++ pretty i)
                             (seq 1 (S (length names))))) in
    if Nat.ltb 31 (String.length name)
    then Err (library_error "Sheet names cannot exceed 31 chars")
    else if has_badchar name
    then Err (library_error "Sheet name cannot contain : \ / ? * [ ]")
    else if named names name
    then Err (library_error ("Worksheet with name |" ++ name ++ "| already exists!"))
    else Data name.

Definition to_record (kv : CountKey * CountRow) : CountRecord :=
  {| rec_session_id := kv.1.1.1; rec_shop_id := kv.1.1.2; rec_item_id := kv.1.2;
     rec_boxes := row_boxes kv.2; rec_singles := row_singles kv.2 |}.

(** [.from('stock_counts').select(...).eq('session_id', sessionId)] *)
Definition session_counts (d : Database) (sessionId : string) : list CountRecord :=
  map to_record
      (filter (fun kv : CountKey * CountRow => kv.1.1.1 = sessionId)
              (map_to_list (stock_counts d))).

Definition select_table {A} (r : request) (fault : option PostgrestError)
    (rows : Database -> list A) : M (response (list A)) :=
  query r fault (fun d => (Data (rows d), d)).

(** [downloadExcel]: five selects, each of which ends the export with a
    toast when it fails, then the workbook is built and written.  The
    order in which a select returns its rows is the order of the table in
    the model.  A sheet name the library refuses throws out of the loop
    over the shops, into the [catch] of the handler: no file is written. *)
Definition downloadExcel (book_append_sheet : SheetNames)
    (sessionId sessionName : string)
    (shopsError categoriesError shopItemsError itemsError countsError
       : option PostgrestError) : M unit :=
  try_catch
    (s <- select_table SelectShops shopsError shops ;;
     match s with
     | Err e => toast_error ("Error fetching shops: " ++ message e) ;; return_
     | Data shops =>
     if Nat.eqb (length shops) 0 then toast_error "No shops found" ;; return_ else
     c <- select_table SelectCategories categoriesError categories ;;
     match c with
     | Err e => toast_error ("Error fetching categories: " ++ message e) ;; return_
     | Data categories =>
     si <- select_table (SelectShopItems None) shopItemsError shop_items ;;
     match si with
     | Err e => toast_error ("Error fetching shop items: " ++ message e) ;; return_
     | Data shopItems =>
     i <- select_table (SelectItems None) itemsError items ;;
     match i with
     | Err e => toast_error ("Error fetching items: " ++ message e) ;; return_
     | Data items =>
     n <- select_table (SelectStockCounts sessionId None) countsError
            (fun d => session_counts d sessionId) ;;
     match n with
     | Err e => toast_error ("Error fetching counts: " ++ message e) ;; return_
     | Data counts =>
         sheets <- or_throw (workbook book_append_sheet shops categories shopItems
                               items counts) ;;
         emit (WriteFile (sessionName ++ ".xlsx") sheets) ;;
         toast_success "Excel file downloaded successfully!"
     end end end end end)
    (fun err =>
       console_error "Error generating Excel:" err ;;
       toast_error ("Error generating Excel file: " ++ message_or_unknown err)).

(** The sheet of one shop from the fetched rows. *)
Definition shop_sheet (categories : list Category) (shopItems : list (string * string))
    (items : list Item) (counts : list CountRecord) (shop : Shop) : list (list cell) :=
  sheetData categories (build_shopItemsMap shopItems) items (build_countsMap counts) shop.

(** The items listed under the header of a category: those with an id in
    [ids] that carry the category's id. *)
Definition block_items (ids : gset string) (items : list Item) (cat : Category)
    : list Item :=
  filter (fun item => category_id item = Some (cat_id cat))
         (filter (fun item => item_id item ∈ ids) items).

(** The items assigned to a shop by [shop_items]. *)
Definition assigned_items (shopItems : list (string * string)) (items : list Item)
    (shop : Shop) : list Item :=
  filter (fun item => (shop_id shop, item_id item) ∈ shopItems) items.

(** The boxes and singles the table holds for an item of a shop in a
    session, or [(0, 0)]. *)
Definition persisted_count (d : Database) (sessionId : string) (shop : Shop)
    (item : Item) : Z * Z :=
  match stock_counts d !! (sessionId, shop_id shop, item_id item) with
  | Some r => (row_boxes r, row_singles r)
  | None => (0, 0)
  end.

(** The keys of [countsMap] tell the counts of the session apart, and
    from the pairs of the shop: no two of them are written alike. *)
Definition keys_unambiguous (d : Database) (sessionId : string) (shop : Shop) : Prop :=
  forall sh it sh' it',
    is_Some (stock_counts d !! (sessionId, sh, it)) ->
    sh' = shop_id shop \/ is_Some (stock_counts d !! (sessionId, sh', it')) ->
    count_key sh it = count_key sh' it' -> sh = sh' /\ it = it'.

(** The row of an item with the quantities the table holds. *)
Definition persisted_row (d : Database) (sessionId : string) (shop : Shop)
    (item : Item) : list cell :=
  [Text (item_name item); Text (pack_size item);
   Number (persisted_count d sessionId shop item).1;
   Number (persisted_count d sessionId shop item).2].

(** The item data rows of a sheet: the rows of two texts and two numbers. *)
Definition is_item_row (row : list cell) : bool :=
  match row with
  | [Text _; Text _; Number _; Number _] => true
  | _ => false
  end.

Definition item_rows (sheet : list (list cell)) : list (list cell) :=
  List.filter is_item_row sheet.

End Excel.

(** ** The count page *)

Module Count.

Inductive field : Type := Boxes | Singles.

(** [prev[itemId]?.boxes || 0] and [prev[itemId]?.singles || 0] *)
Definition prev_or_zero (prev : gmap string StockCount) (itemId : string)
    (f : field) : number :=
  match prev !! itemId with
  | Some c => Num.or_zero (match f with Boxes => boxes c | Singles => singles c end)
  | None => Num.of_Z 0
  end.

(** The object the three updaters store under [itemId]. *)
Definition with_field (prev : gmap string StockCount) (itemId : string)
    (f : field) (v : number) : gmap string StockCount :=
  <[itemId :=
      {| sc_item_id := itemId;
         boxes := match f with Boxes => v | Singles => prev_or_zero prev itemId Boxes end;
         singles := match f with Singles => v | Boxes => prev_or_zero prev itemId Singles end
      |}]> prev.

Definition updateCount (itemId : string) (f : field) (value : number)
    (prev : gmap string StockCount) : gmap string StockCount :=
  let numValue := Num.clamp value in
  with_field prev itemId f numValue.

Definition incrementCount (itemId : string) (f : field)
    (prev : gmap string StockCount) : gmap string StockCount :=
  let current := prev_or_zero prev itemId f in
  let newValue := Num.add current 1 in
  with_field prev itemId f newValue.

Definition decrementCount (itemId : string) (f : field)
    (prev : gmap string StockCount) : gmap string StockCount :=
  let current := prev_or_zero prev itemId f in
  if Num.gt0 current then
    let newValue := Num.add current (-1) in
    with_field prev itemId f newValue
  else prev.

(** The rows of [stock_counts] of one session and shop. *)
Definition shop_counts (d : Database) (sessionId shopId : string) : list CountRecord :=
  map Excel.to_record
      (filter (fun kv : CountKey * CountRow => kv.1.1.1 = sessionId ∧ kv.1.1.2 = shopId)
              (map_to_list (stock_counts d))).

(** [count.boxes || 0] on a stored integer *)
Definition stored (z : Z) : number := Num.or_zero (Num.of_Z z).

Definition loadExistingCounts (sessionId shopId : string)
    (error : option PostgrestError) : M unit :=
  try_catch
    (r <- query (SelectStockCounts sessionId (Some shopId)) error
           (fun d => (Data (shop_counts d sessionId shopId), d)) ;;
     data <- or_throw r ;;
     let countsMap :=
       foldl (fun m count =>
                <[rec_item_id count :=
                    {| sc_item_id := rec_item_id count;
                       boxes := stored (rec_boxes count);
                       singles := stored (rec_singles count) |}]> m)
             (∅ : gmap string StockCount) data in
     setCounts countsMap)
    (fun err =>
       console_error "Error loading existing counts:" err ;;
       setCounts ∅).

(** [fetchItemsForShop]: the items of the shop, or every item when the
    shop has no row in [shop_items]. *)
Definition fetchItemsForShop (shopId selectedSession : string)
    (shopItemsError itemsError loadError : option PostgrestError) : M unit :=
  if negb (Str.truthy shopId) then setItems [] ;; return_
  else
    try_catch
      (r <- query (SelectShopItems (Some shopId)) shopItemsError
             (fun d => (Data (filter (fun si : string * string => si.1 = shopId)
                                     (shop_items d)), d)) ;;
       shopItems <- or_throw r ;;
       let itemIds := map snd shopItems in
       let restricted := Nat.ltb 0 (length itemIds) in
       i <- query (SelectItems (if restricted then Some itemIds else None)) itemsError
             (fun d => (Data (if restricted
                              then filter (fun it => item_id it ∈ itemIds) (items d)
                              else items d), d)) ;;
       itemsData <- or_throw i ;;
       setItems itemsData ;;
       if Str.truthy selectedSession
       then loadExistingCounts selectedSession shopId loadError
       else setCounts ∅)
      (fun err =>
         console_error "Error fetching items:" err ;;
         setItems []).

(** [.from('user_shop_assignments').select('id').eq('user_id', u).eq('shop_id', s).single()] *)
Definition select_user_shop_assignment (fault : option PostgrestError)
    (userId shopId : string) : M (response (string * string)) :=
  query (SelectUserShopAssignment userId shopId) fault
    (fun d =>
       (single (filter (fun a : string * string => a.1 = userId ∧ a.2 = shopId)
                       (user_shop_assignments d)), d)).

(** A sent row as the table stores it; [None] when a quantity is not an
    integer. *)
Definition to_row (c : CountInput) : option (CountKey * CountRow) :=
  match Num.to_integer (in_boxes c), Num.to_integer (in_singles c) with
  | Some b, Some s =>
      Some ((in_session_id c, in_shop_id c, in_item_id c),
            {| row_boxes := b; row_singles := s; counted_by := in_counted_by c |})
  | _, _ => None
  end.

(** [INSERT ... ON CONFLICT (session_id, shop_id, item_id) DO UPDATE]: the
    row with the key of a sent row becomes the sent row. *)
Definition upsert_rows (kvs : list (CountKey * CountRow))
    (t : gmap CountKey CountRow) : gmap CountKey CountRow :=
  foldl (fun t kv => <[kv.1 := kv.2]> t) t kvs.

(** [.from('stock_counts').upsert(rows, { onConflict: 'session_id,shop_id,item_id',
    ignoreDuplicates: false })] *)
Definition upsert_stock_counts (fault : option PostgrestError)
    (rows : list CountInput) : M (response unit) :=
  query (UpsertStockCounts rows) fault
    (fun d =>
       match mapM to_row rows with
       | Some kvs => (Data tt, set_counts (upsert_rows kvs) d)
       | None => (Err invalid_integer, d)
       end).

(** [Object.values(counts)].  The values come in the order of the map, not
    in the order the page inserted them; the rows built from them have
    distinct keys, so the order does not show in the table. *)
Definition Object_values (counts : gmap string StockCount) : list StockCount :=
  (map_to_list counts).*2.

(** The predicate of [countsArray]'s filter. *)
Definition has_count (c : StockCount) : bool :=
  let boxes := Num.clamp (boxes c) in
  let singles := Num.clamp (singles c) in
  Num.gt0 boxes || Num.gt0 singles.

Definition countsArray (counts : gmap string StockCount) : list StockCount :=
  List.filter has_count (Object_values counts).

Definition countsToSave (selectedSession selectedShop userId : string)
    (counts : gmap string StockCount) : list CountInput :=
  map (fun count =>
         {| in_session_id := selectedSession;
            in_shop_id := selectedShop;
            in_item_id := sc_item_id count;
            in_boxes := Num.clamp (boxes count);
            in_singles := Num.clamp (singles count);
            in_counted_by := userId |})
      (countsArray counts).

Definition not_active : string :=
  "Cannot count for a completed session. Please select an active session.".
Definition no_access : string :=
  "You do not have access to this shop. Please contact a manager.".
Definition nothing_to_save : string :=
  "No counts to save. Enter at least one count.".
Definition saved (n : nat) : string :=
  "Successfully saved " ++ pretty n ++ " item count(s)!".

(** [saveCounts], with the page state and the auth context it reads as
    arguments: [user] is [user?.id]. *)
Definition saveCounts (selectedSession selectedShop : string)
    (user : option string) (role : string) (counts : gmap string StockCount)
    (sessionError assignmentError upsertError loadError : option PostgrestError)
    : M unit :=
  if negb (Str.truthy selectedSession) || negb (Str.truthy selectedShop) then
    toast_error "Please select a session and shop" ;; return_
  else
    match user with
    | None => toast_error "You must be logged in to save counts" ;; return_
    | Some userId =>
    if negb (Str.truthy userId) then
      toast_error "You must be logged in to save counts" ;; return_
    else
      try_catch
        (r <- Sessions.select_session_status sessionError selectedSession ;;
         sessionData <- or_throw r ;;
         if negb (String.eqb sessionData "active") then
           toast_error not_active ;; return_
         else
           (if String.eqb role "employee" then
              a <- select_user_shop_assignment assignmentError userId selectedShop ;;
              match a with
              | Err e =>
                  if negb (String.eqb (code e) "PGRST116") then throw e
                  else toast_error no_access ;; return_
              | Data _ => ret tt
              end
            else ret tt) ;;
           if Nat.eqb (length (countsArray counts)) 0 then
             toast_error nothing_to_save ;; return_
           else
             u <- upsert_stock_counts upsertError
                    (countsToSave selectedSession selectedShop userId counts) ;;
             or_throw u ;;
             toast_success (saved (length (countsArray counts))) ;;
             loadExistingCounts selectedSession selectedShop loadError)
        (fun error =>
           console_error "Error saving counts:" error ;;
           toast_error ("Error saving counts: " ++ message_or_unknown error))
    end.

End Count.

(** ** The bulk import of the products page *)

Module Products.

(** A parsed line of the file: [{ name, pack_size, category }]. *)
Record ImportRow := {
  r_name : string;
  r_pack_size : string;
  r_category : string;
}.

(** What the outside decides for the requests of one row: the failure of
    each insert and the identifier the database generates. *)
Record RowEnv := {
  catError : option PostgrestError;
  new_category_id : string;
  itemError : option PostgrestError;
  new_item_id : string;
}.

(** [.from('categories').insert({ name }).select().single()].  The table
    declaration is not part of the sources: [unique_names] says whether it
    declares the name unique. *)
Definition insert_category (unique_names : bool) (fault : option PostgrestError)
    (new_id c_name : string) : M (response Category) :=
  query (InsertCategory c_name) fault
    (fun d =>
       if bool_decide (new_id ∈ map cat_id (categories d))
          || (unique_names && bool_decide (c_name ∈ map cat_name (categories d)))
       then (Err duplicate_key, d)
       else
         let c := {| cat_id := new_id; cat_name := c_name |} in
         (Data c, set_categories (fun l => (l ++ [c])%list) d)).

(** [.from('items').insert({ name, pack_size, category_id })] *)
Definition insert_item (fault : option PostgrestError) (new_id : string)
    (i_name i_pack_size : string) (i_category_id : option string)
    : M (response unit) :=
  query (InsertItem i_name i_pack_size i_category_id) fault
    (fun d =>
       if bool_decide (new_id ∈ map item_id (items d)) then (Err duplicate_key, d)
       else
         (Data tt,
          set_items (fun l => (l ++ [{| item_id := new_id; item_name := i_name;
                                        pack_size := i_pack_size;
                                        category_id := i_category_id |}])%list) d)).

(** [categories.find((c) => c.name.toLowerCase() === row.category.toLowerCase())] *)
Definition find_category (categories : list Category) (category : string)
    : option Category :=
  List.find (fun c => String.eqb (Str.toLowerCase (cat_name c))
                                 (Str.toLowerCase category))
            categories.

(** The block of the loop body that sets [categoryId]: the category of
    the row found in [categories], or a newly created one, or [''].
    [categories] is the array the handler closed over when the page was
    rendered: [setCategories] schedules the next render's array and leaves
    this one as it is. *)
Definition category_of (unique_names : bool) (categories : list Category)
    (row : ImportRow) (env : RowEnv) : M string :=
  if Str.truthy (r_category row) then
    match find_category categories (r_category row) with
    | Some category => ret (cat_id category)
    | None =>
        c <- insert_category unique_names (catError env)
               (new_category_id env) (r_category row) ;;
        match c with
        | Data newCategory =>
            setCategories (fun prev => (prev ++ [newCategory])%list) ;;
            ret (cat_id newCategory)
        | Err _ => ret ""
        end
    end
  else ret "".

(** [for (const row of rows)], with the two counters. *)
Fixpoint import_loop (unique_names : bool) (categories : list Category)
    (rows : list (ImportRow * RowEnv)) (successCount errorCount : nat)
    : M (nat * nat) :=
  match rows with
  | [] => ret (successCount, errorCount)
  | (row, env) :: rest =>
      if negb (Str.truthy (Str.trim (r_name row))) then
        import_loop unique_names categories rest successCount errorCount
      else
        categoryId <- category_of unique_names categories row env ;;
        i <- insert_item (itemError env) (new_item_id env)
               (Str.trim (r_name row)) (Str.trim (r_pack_size row))
               (if Str.truthy categoryId then Some categoryId else None) ;;
        match i with
        | Err e =>
            console_error "Error importing item:" e ;;
            import_loop unique_names categories rest successCount (S errorCount)
        | Data _ =>
            import_loop unique_names categories rest (S successCount) errorCount
        end
  end.

Definition imported (successCount errorCount : nat) : string :=
  "Imported " ++ pretty successCount ++ " product(s)"
    ++ (if Nat.ltb 0 errorCount then ", " ++ pretty errorCount ++ " failed" else "").

Definition import_failed (errorCount : nat) : string :=
  "Failed to import products. " ++ pretty errorCount ++ " error(s)".

(** [handleFileImport] from the parsed [rows] on (the loop and the report);
    the reload of the page data it starts afterwards is not awaited and is
    left out. *)
Definition handleFileImport (unique_names : bool) (categories : list Category)
    (rows : list (ImportRow * RowEnv)) : M unit :=
  try_catch
    (counts <- import_loop unique_names categories rows 0 0 ;;
     if Nat.ltb 0 counts.1 then toast_success (imported counts.1 counts.2)
     else toast_error (import_failed counts.2))
    (fun err => toast_error ("Error importing file: " ++ message err)).

End Products.

(** ** What the statements below speak about *)

Definition is_write (r : request) : bool :=
  match r with
  | InsertSession _ _ _ | InsertSessionAssignments _ | UpdateSessionCompleted _ _
  | DeleteStockCounts _ | DeleteSessionAssignments _ | DeleteSession _
  | UpsertStockCounts _ | InsertCategory _ | InsertItem _ _ _ => true
  | _ => false
  end.

(** The writing requests of a trace, in order. *)
Definition writes (tr : list event) : list request :=
  omap (fun e => match e with
                 | Request r => if is_write r then Some r else None
                 | _ => None
                 end) tr.

Definition toasts (tr : list event) : list event :=
  List.filter (fun e => match e with
                        | ToastSuccess _ | ToastError _ => true
                        | _ => false
                        end) tr.

(** A world with the given tables and nothing else. *)
Definition world (d : Database) (tr : list event) : World :=
  {| db := d; st_counts := ∅; st_items := []; st_categories := []; trace := tr |}.

Definition empty_db : Database :=
  {| stock_count_sessions := ∅; session_user_assignments := [];
     stock_counts := ∅; user_shop_assignments := [];
     shops := []; categories := []; items := []; shop_items := [] |}.

(** [completed_at] is set exactly when the status is ['completed']. *)
Definition completed_iff (d : Database) : Prop :=
  forall id s, stock_count_sessions d !! id = Some s ->
    is_Some (completed_at s) <-> status s = "completed".

(** The operations of the ledger. *)
Inductive ledger_op : Type :=
| CreateSession (sessionName : string) (selectedUserIds : list string)
    (user : option string) (new_id : string)
    (sessionError assignError : option PostgrestError)
| CompleteSession (sessionId : string) (now : Z)
    (checkError error : option PostgrestError)
| DeleteSessionOp (sessionToDelete : option string)
    (countsError assignError error : option PostgrestError)
| SaveCounts (selectedSession selectedShop : string) (user : option string)
    (role : string) (counts : gmap string StockCount)
    (sessionError assignmentError upsertError loadError : option PostgrestError).

Definition perform (op : ledger_op) : M unit :=
  match op with
  | CreateSession n us u i e1 e2 => Sessions.createSession n us u i e1 e2
  | CompleteSession i t e1 e2 => Sessions.completeSession i t e1 e2
  | DeleteSessionOp i e1 e2 e3 => Sessions.deleteSession i e1 e2 e3
  | SaveCounts s sh u r c e1 e2 e3 e4 => Count.saveCounts s sh u r c e1 e2 e3 e4
  end.

(** The page keeps each count under its own item id. *)
Definition counts_wf (counts : gmap string StockCount) : bool :=
  forallb (fun kc : string * StockCount => String.eqb (sc_item_id kc.2) kc.1)
          (map_to_list counts).

(** The integer a clamped quantity is. *)
Definition quantity (x : number) : Z := default 0 (Num.to_integer (Num.clamp x)).

(** The row [saveCounts] stores for a count of the page. *)
Definition stored_row (selectedSession selectedShop userId : string) (c : StockCount)
    : CountKey * CountRow :=
  ((selectedSession, selectedShop, sc_item_id c),
   {| row_boxes := quantity (boxes c); row_singles := quantity (singles c);
      counted_by := userId |}).

(** ** Concurrent completion

    A client of [completeSession] makes two requests; between them other
    clients' requests may reach the database.  [step] runs the next request
    of a client against the shared tables, with the client's own trace. *)

Module Race.

Inductive pc : Type := AtCheck | AtWrite | Finished.

Record Client := { at_ : pc; seen : list event }.

Definition fresh : Client := {| at_ := AtCheck; seen := [] |}.

Definition phase (m : M unit) (next : pc) (c : Client) (d : Database)
    : Client * Database :=
  match m (world d (seen c)) with
  | (Normal _, w) => ({| at_ := next; seen := trace w |}, db w)
  | (Returned, w) => ({| at_ := Finished; seen := trace w |}, db w)
  | (Thrown e, w) =>
      let w' := run (Sessions.completeSession_catch e) w in
      ({| at_ := Finished; seen := trace w' |}, db w')
  end.

Definition step (sessionId : string) (now : Z) (c : Client) (d : Database)
    : Client * Database :=
  match at_ c with
  | AtCheck => phase (Sessions.completeSession_check sessionId None) AtWrite c d
  | AtWrite => phase (Sessions.completeSession_write sessionId now None) Finished c d
  | Finished => (c, d)
  end.

Record System := { clock : Z; shared : Database; clients : list Client }.

(** Client [i] makes its next request; the clock advances. *)
Definition sched_step (sessionId : string) (s : System) (i : nat) : System :=
  match clients s !! i with
  | None => s
  | Some c =>
      let r := step sessionId (clock s) c (shared s) in
      {| clock := clock s + 1; shared := r.2; clients := <[i := r.1]> (clients s) |}
  end.

Definition run_schedule (sessionId : string) (sched : list nat) (s : System) : System :=
  foldl (sched_step sessionId) s sched.

Definition observes_success (c : Client) : bool :=
  existsb (fun e => match e with
                    | ToastSuccess m => String.eqb m Sessions.completed_successfully
                    | _ => false
                    end) (seen c).

Definition observes_already_completed (c : Client) : bool :=
  existsb (fun e => match e with
                    | ToastError m => String.eqb m Sessions.already_completed
                    | _ => false
                    end) (seen c).

End Race.

(** The employee's assignment check of [saveCounts] passes. *)
Definition authorised (role userId selectedShop : string) (d : Database) : Prop :=
  role = "employee" ->
  exists a, filter (fun a : string * string => a.1 = userId /\ a.2 = selectedShop)
                   (user_shop_assignments d) = [a].

(** ** Sample data *)

Module Sample.

Definition march : Session :=
  {| name := "March"; status := "active"; created_by := Some "manager-1";
     completed_at := None |}.

Definition february : Session :=
  {| name := "February"; status := "completed"; created_by := Some "manager-1";
     completed_at := Some 100 |}.

Definition food : Category := {| cat_id := "c-food"; cat_name := "Food" |}.
Definition drinks : Category := {| cat_id := "c-drinks"; cat_name := "Drinks" |}.

Definition item_A : Item :=
  {| item_id := "A"; item_name := "Apples"; pack_size := "12"; category_id := Some "c-food" |}.
Definition item_B : Item :=
  {| item_id := "B"; item_name := "Beans"; pack_size := "6"; category_id := Some "c-food" |}.
Definition item_C : Item :=
  {| item_id := "C"; item_name := "Cola"; pack_size := "24"; category_id := None |}.

Definition north : Shop := {| shop_id := "shop-1"; shop_name := "North" |}.
Definition south : Shop := {| shop_id := "shop-2"; shop_name := "South" |}.

Definition prior_B : CountRow :=
  {| row_boxes := 2; row_singles := 2; counted_by := "emp-2" |}.

Definition tables : Database :=
  {| stock_count_sessions := <["s1" := march]> (<["s0" := february]> ∅);
     session_user_assignments := [("s1", "emp-1")];
     stock_counts := <[("s1", "shop-1", "B") := prior_B]> ∅;
     user_shop_assignments := [("emp-1", "shop-1")];
     shops := [north; south];
     categories := [drinks; food];
     items := [item_A; item_B; item_C];
     shop_items := [("shop-1", "A"); ("shop-1", "B"); ("shop-1", "C")] |}.

Definition count (item : string) (b s : Z) : StockCount :=
  {| sc_item_id := item; boxes := Num.of_Z b; singles := Num.of_Z s |}.

(** A at (3, 0) and B at (0, 5) *)
Definition counts_AB : gmap string StockCount :=
  <["A" := count "A" 3 0]> (<["B" := count "B" 0 5]> ∅).

(** A at (-5, 1), B at (10000000, 0), C at (0, 0) and D at (2.5, 0) *)
Definition counts_out_of_range : gmap string StockCount :=
  <["A" := count "A" (-5) 1]>
    (<["B" := count "B" 10000000 0]>
       (<["C" := count "C" 0 0]>
          (<["D" := {| sc_item_id := "D"; boxes := Finite (5 # 2);
                       singles := Num.of_Z 0 |}]> ∅))).

Definition counts_zero : gmap string StockCount :=
  <["B" := count "B" 0 0]> ∅.

Definition timeout : PostgrestError := {| code := ""; message := "Failed to fetch" |}.

End Sample.

Module ImportSample.

Import Products.

Definition env (category_id item_id : string) : RowEnv :=
  {| catError := None; new_category_id := category_id;
     itemError := None; new_item_id := item_id |}.

(** Two products of the category "Snacks", which does not exist yet. *)
Definition rows : list (ImportRow * RowEnv) :=
  [({| r_name := "Crisps"; r_pack_size := "12"; r_category := "Snacks" |},
    env "c-1" "i-1");
   ({| r_name := "Nuts"; r_pack_size := "6"; r_category := "Snacks" |},
    env "c-2" "i-2")].

(** The page as rendered: its categories are those of the table. *)
Definition page : World :=
  {| db := Sample.tables; st_counts := ∅; st_items := [];
     st_categories := categories Sample.tables; trace := [] |}.

Definition has_name (r : ImportRow * RowEnv) : bool :=
  Str.truthy (Str.trim (r_name r.1)).

End ImportSample.

(** ** Tactics that unfold the handlers *)

Ltac handler_unfold :=
  unfold run, try_catch, bind, ret, return_, throw, or_throw,
    toast_success, toast_error, console_warn, console_error, emit, query,
    setCounts, setItems, setCategories.

Ltac count_unfold :=
  unfold Count.saveCounts, Count.loadExistingCounts, Count.upsert_stock_counts,
    Count.select_user_shop_assignment, Sessions.select_session_status.

Ltac sessions_unfold :=
  unfold Sessions.createSession, Sessions.completeSession, Sessions.deleteSession,
    Sessions.completeSession_check, Sessions.completeSession_write,
    Sessions.completeSession_catch,
    Sessions.insert_session, Sessions.insert_session_assignments,
    Sessions.select_session_status, Sessions.update_session_completed,
    Sessions.delete_stock_counts, Sessions.delete_session_assignments,
    Sessions.delete_session.

(** ** The count page: what it lists and what its counts are *)

Module CountView.



(** [counts[item.id] || { item_id: item.id, boxes: 0, singles: 0 }] *)
Definition shown (counts : gmap string StockCount) (item : Item) : StockCount :=
  default {| sc_item_id := item_id item; boxes := Num.of_Z 0; singles := Num.of_Z 0 |}
          (counts !! item_id item).

#[global] Instance field_eq_dec : EqDecision Count.field.
Proof. solve_decision. Defined.

(** The field of a count. *)
Definition get (f : Count.field) (c : StockCount) : number :=
  match f with Count.Boxes => boxes c | Count.Singles => singles c end.

(** The entry [loadExistingCounts] makes of a stored row. *)
Definition page_entry (item : string) (r : CountRow) : StockCount :=
  {| sc_item_id := item;
     boxes := Count.stored (row_boxes r);
     singles := Count.stored (row_singles r) |}.

(** The field of a row [saveCounts] sends. *)
Definition sent (f : Count.field) (row : CountInput) : number :=
  match f with Count.Boxes => in_boxes row | Count.Singles => in_singles row end.

(** Every count of the page is a pair of non-negative integers. *)
Definition counts_nat (counts : gmap string StockCount) : Prop :=
  forall k c, counts !! k = Some c ->
    exists b s : Z, 0 <= b /\ 0 <= s /\ boxes c = Num.of_Z b /\ singles c = Num.of_Z s.

(** Every count of the page is a non-negative integer below 2^53: the
    integers on which [+ 1] and [- 1] are exact on doubles. *)
Definition counts_safe (counts : gmap string StockCount) : Prop :=
  forall k c, counts !! k = Some c ->
    exists b s : Z, 0 <= b < 2 ^ 53 /\ 0 <= s < 2 ^ 53
                    /\ boxes c = Num.of_Z b /\ singles c = Num.of_Z s.

End CountView.

Module Sample2.

(** A at the cap. *)
Definition counts_full : gmap string StockCount :=
  <["A" := Sample.count "A" 999999 2]> ∅.

End Sample2.

(** ** The count page: what [fetchData] offers

    [fetchData] only reads.  It is modelled on the page state it sets; the
    order in which a select returns its rows is the order of the table in
    the model (the source asks for the newest session and the first name
    first). *)

Module CountData.

Record PageData := {
  pd_sessions : list (string * Session);
  pd_shops : list (string * option string);   (* id, name *)
  pd_categories : list Category;
  pd_error : option string;
}.

Definition initial : PageData :=
  {| pd_sessions := []; pd_shops := []; pd_categories := []; pd_error := None |}.

Definition setSessions (l : list (string * Session)) (st : PageData) : PageData :=
  {| pd_sessions := l; pd_shops := pd_shops st; pd_categories := pd_categories st;
     pd_error := pd_error st |}.

Definition setShops (l : list (string * option string)) (st : PageData) : PageData :=
  {| pd_sessions := pd_sessions st; pd_shops := l; pd_categories := pd_categories st;
     pd_error := pd_error st |}.

Definition setCategories (l : list Category) (st : PageData) : PageData :=
  {| pd_sessions := pd_sessions st; pd_shops := pd_shops st; pd_categories := l;
     pd_error := pd_error st |}.

Definition setError (e : option string) (st : PageData) : PageData :=
  {| pd_sessions := pd_sessions st; pd_shops := pd_shops st;
     pd_categories := pd_categories st; pd_error := e |}.

(** The [catch] block: [setError(err.message || 'Failed to load data. ...')] *)
Definition failed (err : PostgrestError) (st : PageData) : PageData :=
  setError (Some (if Str.truthy (message err) then message err
                  else "Failed to load data. Please refresh the page.")) st.

(** [.from('stock_count_sessions').select('*')] *)
Definition all_sessions (d : Database) : list (string * Session) :=
  map_to_list (stock_count_sessions d).

(** [... .eq('status', 'active')] *)
Definition active_sessions (d : Database) : list (string * Session) :=
  filter (fun p : string * Session => status p.2 = "active") (all_sessions d).

(** A select that fails from outside, or answers [rows]. *)
Definition answer {A} (fault : option PostgrestError) (rows : A) : response A :=
  match fault with
  | Some e => Err e
  | None => Data rows
  end.

(** The sessions [fetchData] passes to [setSessions], or the error it
    throws before. *)
Definition offered_sessions (role userId : string) (d : Database)
    (sessionsError allSessionsError assignedError : option PostgrestError)
    : response (list (string * Session)) :=
  if String.eqb role "manager" then
    match answer sessionsError (active_sessions d) with
    | Err e => Err e
    | Data activeSessions =>
        if Nat.eqb (length activeSessions) 0 then
          answer allSessionsError (all_sessions d)
        else Data activeSessions
    end
  else
    match answer assignedError
            (filter (fun a : string * string => a.2 = userId)
                    (session_user_assignments d)) with
    | Err e => Err e
    | Data assignedSessions =>
        let assignedSessionIds := map fst assignedSessions in
        if Nat.ltb 0 (length assignedSessionIds) then
          answer sessionsError
            (filter (fun p : string * Session => p.1 ∈ assignedSessionIds)
                    (active_sessions d))
        else
          answer sessionsError (active_sessions d)
    end.

(** [{ id: a.shop_id, name: a.shops?.name }] for the assignments of the user *)
Definition userShops (userId : string) (d : Database) : list (string * option string) :=
  map (fun a : string * string =>
         (a.2, shop_name <$> List.find (fun s => String.eqb (shop_id s) a.2) (shops d)))
      (filter (fun a : string * string => a.1 = userId) (user_shop_assignments d)).

Definition fetchData (role userId : string) (d : Database)
    (sessionsError allSessionsError assignedError assignmentsError shopsError
       categoriesError : option PostgrestError) (st : PageData) : PageData :=
  let st := setError None st in
  match offered_sessions role userId d sessionsError allSessionsError assignedError with
  | Err e => failed e st
  | Data sessions =>
      let st := setSessions sessions st in
      match answer assignmentsError (userShops userId d) with
      | Err e => failed e st
      | Data userShops =>
          match
            (if String.eqb role "manager" then
               match answer shopsError (shops d) with
               | Err e => Err e
               | Data allShops =>
                   Data (setShops (map (fun s => (shop_id s, Some (shop_name s)))
                                       allShops) st)
               end
             else Data (setShops userShops st))
          with
          | Err e => failed e st
          | Data st =>
              match answer categoriesError (categories d) with
              | Err e => failed e st
              | Data categoriesData => setCategories categoriesData st
              end
          end
      end
  end.

End CountData.

(** ** The sessions page: what it lists *)

Module SessionsView.




(** The files a trace wrote. *)
Definition files (tr : list event) : list (string * list (string * list (list cell))) :=
  omap (fun e => match e with
                 | WriteFile file sheets => Some (file, sheets)
                 | _ => None
                 end) tr.

(** Every character of a string is white space. *)
Fixpoint blank (s : string) : bool :=
  match s with
  | EmptyString => true
  | String a s' => Str.is_ws a && blank s'
  end.

End SessionsView.

(** ** The import of products: what the statements speak about *)

Module ImportView.

(** The requests of a trace that insert an item. *)
Definition item_inserts (tr : list event) : list request :=
  List.filter (fun r => match r with InsertItem _ _ _ => true | _ => false end)
              (writes tr).

(** [d'] is [d] with categories and items added at the end of their
    tables, and nothing else changed. *)
Definition extends (d d' : Database) : Prop :=
  stock_count_sessions d' = stock_count_sessions d
  /\ session_user_assignments d' = session_user_assignments d
  /\ stock_counts d' = stock_counts d
  /\ user_shop_assignments d' = user_shop_assignments d
  /\ shops d' = shops d
  /\ shop_items d' = shop_items d
  /\ (exists cs, categories d' = (categories d ++ cs)%list)
  /\ (exists is_, items d' = (items d ++ is_)%list).

(** The toast that ends an import with [s] stored rows and [e] failed ones. *)
Definition report (s e : nat) : event :=
  if Nat.ltb 0 s then ToastSuccess (Products.imported s e)
  else ToastError (Products.import_failed e).

End ImportView.

(** ** The products page: the CSV file it writes and reads

    [exportToCSV] builds the text of the file from the items of the page;
    [handleFileImport] starts by cutting the text of a file into rows.  Both
    are pure up to the download and the toasts, and are modelled on the
    text. *)

Module Csv.

Definition quote : ascii := "034"%char.
Definition comma : ascii := ","%char.
Definition newline : ascii := "010"%char.

(** [s.split(sep)] for a separator of one character. *)
Fixpoint split (sep : ascii) (s : string) : list string :=
  match s with
  | EmptyString => [EmptyString]
  | String a s' =>
      if Ascii.eqb a sep then EmptyString :: split sep s'
      else match split sep s' with
           | h :: t => String a h :: t
           | [] => [String a EmptyString]
           end
  end.

(** [l.join(sep)] *)
Fixpoint join (sep : ascii) (l : list string) : string :=
  match l with
  | [] => EmptyString
  | [x] => x
  | x :: rest => x ++ String sep (join sep rest)
  end.

(** The [replace] of [exportToCSV]: every double quote of a cell is
    doubled. *)
Fixpoint escape (cell : string) : string :=
  match cell with
  | EmptyString => EmptyString
  | String a s' =>
      if Ascii.eqb a quote then String quote (String quote (escape s'))
      else String a (escape s')
  end.

(** The template literal that puts a cell between quotes. *)
Definition quoted (cell : string) : string :=
  String quote (escape cell ++ String quote EmptyString).

(** An item of the page: the row of [items] with the category the select
    of [fetchData] embeds in it. *)
Definition PageItem : Type := Item * option Category.

(** The category a select embeds: the one the item refers to, if any. *)
Definition embed (d : Database) (item : Item) : PageItem :=
  (item,
   match category_id item with
   | Some c => List.find (fun cat => String.eqb (cat_id cat) c) (categories d)
   | None => None
   end).

(** [item.categories?.name || 'Unknown'] *)
Definition category_cell (item : PageItem) : string :=
  match item.2 with
  | Some c => if Str.truthy (cat_name c) then cat_name c else "Unknown"
  | None => "Unknown"
  end.

Definition headers : list string := ["Name"; "Pack Size"; "Category"].

(** The line [exportToCSV] writes for an item. *)
Definition line_of (item : PageItem) : string :=
  join comma (map quoted [item_name item.1; pack_size item.1; category_cell item]).

(** [csvContent] of [exportToCSV] *)
Definition csvContent (items : list PageItem) : string :=
  let rows :=
    map (fun item => [item_name item.1; pack_size item.1; category_cell item]) items in
  join newline
    (join comma headers :: map (fun row => join comma (map quoted row)) rows).

(** The [replace] of [handleFileImport], whose pattern is a double quote
    at the start or at the end of the string: a quote at the start is
    removed, and a quote at the end of what follows it. *)
Fixpoint strip_end (s : string) : string :=
  match s with
  | EmptyString => EmptyString
  | String a EmptyString => if Ascii.eqb a quote then EmptyString else s
  | String a s' => String a (strip_end s')
  end.

Definition strip (s : string) : string :=
  match s with
  | String a s' => if Ascii.eqb a quote then strip_end s' else strip_end s
  | EmptyString => EmptyString
  end.

(** [s.includes(needle)] *)
Fixpoint includes (needle s : string) : bool :=
  String.prefix needle s
  || match s with
     | EmptyString => false
     | String _ s' => includes needle s'
     end.

(** [l.findIndex(p)], [None] for [-1]. *)
Fixpoint findIndex {A} (p : A -> bool) (l : list A) : option nat :=
  match l with
  | [] => None
  | x :: rest => if p x then Some 0%nat else S <$> findIndex p rest
  end.

(** [values[index] || ''], where the index may be [-1]. *)
Definition at_or_empty (values : list string) (index : option nat) : string :=
  match index with
  | Some i => default EmptyString (values !! i)
  | None => EmptyString
  end.

(** [line.split(',').map(...)]: each value trimmed, then stripped. *)
Definition cells (line : string) : list string :=
  map (fun v => strip (Str.trim v)) (split comma line).

(** [text.split('\n').filter((line) => line.trim())] *)
Definition lines (text : string) : list string :=
  List.filter (fun line => Str.truthy (Str.trim line)) (split newline text).

Definition too_short : string :=
  "CSV file must have at least a header row and one data row".

(** The message of the second check: the column Name, between double
    quotes, is missing. *)
Definition no_name_column : string :=
  "CSV must have a " ++ String quote ("Name" ++ String quote " column").

(** [handleFileImport] from the text of the file to its [rows], or the
    error it reports before the loop. *)
Definition parse (text : string) : string + list Products.ImportRow :=
  match lines text with
  | [] | [_] => inl too_short
  | header :: data =>
      let headers := cells header in
      let nameIndex :=
        findIndex (fun h => String.eqb (Str.toLowerCase h) "name") headers in
      let packSizeIndex :=
        findIndex (fun h => includes "pack" (Str.toLowerCase h)) headers in
      let categoryIndex :=
        findIndex (fun h => String.eqb (Str.toLowerCase h) "category") headers in
      match nameIndex with
      | None => inl no_name_column
      | Some _ =>
          inr (map (fun line =>
                      let values := cells line in
                      {| Products.r_name := at_or_empty values nameIndex;
                         Products.r_pack_size := at_or_empty values packSizeIndex;
                         Products.r_category := at_or_empty values categoryIndex |})
                   data)
      end
  end.

(** A text without the character [sep]. *)
Fixpoint free (sep : ascii) (s : string) : bool :=
  match s with
  | EmptyString => true
  | String a s' => negb (Ascii.eqb a sep) && free sep s'
  end.

(** A text without the two characters that cut a file into cells. *)
Definition uncut (s : string) : bool := free comma s && free newline s.

Definition unquoted (s : string) : bool := free quote s.

(** The row an item is expected to come back as. *)
Definition row_of (item : PageItem) : Products.ImportRow :=
  {| Products.r_name := item_name item.1;
     Products.r_pack_size := pack_size item.1;
     Products.r_category := category_cell item |}.

(** The row with its quotes doubled, as the export wrote them. *)
Definition escaped_row_of (item : PageItem) : Products.ImportRow :=
  {| Products.r_name := escape (item_name item.1);
     Products.r_pack_size := escape (pack_size item.1);
     Products.r_category := escape (category_cell item) |}.

Definition uncut_item (item : PageItem) : bool :=
  uncut (item_name item.1) && uncut (pack_size item.1) && uncut (category_cell item).

Definition unquoted_item (item : PageItem) : bool :=
  unquoted (item_name item.1) && unquoted (pack_size item.1)
  && unquoted (category_cell item).

(** [handleFileImport] from the text of the file on; [envs] gives what
    the outside decides for the requests of each row, by the place of the
    row in the file. *)
Definition handleFileImport (unique_names : bool) (categories : list Category)
    (text : string) (envs : nat -> Products.RowEnv) : M unit :=
  match parse text with
  | inl msg => toast_error msg ;; return_
  | inr rows =>
      Products.handleFileImport unique_names categories
        (imap (fun i row => (row, envs i)) rows)
  end.

End Csv.

(** ** The products page: the items of a shop, and the form of an item

    The handlers below ask for one request each.  They are modelled on the
    table they write and on the page state they set; [error] is the error
    the request comes back with from outside.  The table declarations are
    not part of the sources: [unique_rows] says whether [shop_items]
    refuses a row it already holds. *)

Module ProductsPage.

Record ShopPage := {
  table : list (string * string);   (* shop_items: shop_id, item_id *)
  shopItems : gset string;
  shown : list event;
}.

Definition setShopItems (f : gset string -> gset string) (p : ShopPage) : ShopPage :=
  {| table := table p; shopItems := f (shopItems p); shown := shown p |}.

Definition toast (e : event) (p : ShopPage) : ShopPage :=
  {| table := table p; shopItems := shopItems p; shown := (shown p ++ [e])%list |}.

Definition setTable (f : list (string * string) -> list (string * string))
    (p : ShopPage) : ShopPage :=
  {| table := f (table p); shopItems := shopItems p; shown := shown p |}.

(** [.from('shop_items').select('item_id').eq('shop_id', shopId)] *)
Definition select_item_ids (shopId : string) (t : list (string * string))
    : list string :=
  map snd (filter (fun si : string * string => si.1 = shopId) t).

(** [fetchShopItems], and [fetchAssignedItems] of the shop items page,
    which differs in the text of its toast and is only called with a
    shop. *)
Definition fetchShopItems (shopId : string) (error : option PostgrestError)
    (p : ShopPage) : ShopPage :=
  if negb (Str.truthy shopId) then setShopItems (fun _ => ∅) p
  else
    match error with
    | Some e =>
        setShopItems (fun _ => ∅)
          (toast (ToastError ("Error loading shop items: " ++ message e))
             (toast (ConsoleError "Error fetching shop items:" e) p))
    | None => setShopItems (fun _ => list_to_set (select_item_ids shopId (table p))) p
    end.

(** [.delete().eq('shop_id', shop).eq('item_id', item)] *)
Definition delete_row (shop item : string) (t : list (string * string))
    : list (string * string) :=
  filter (fun si : string * string => ¬ (si.1 = shop /\ si.2 = item)) t.

(** [.insert({ shop_id, item_id })] *)
Definition insert_row (unique_rows : bool) (error : option PostgrestError)
    (shop item : string) (t : list (string * string))
    : response (list (string * string)) :=
  match error with
  | Some e => Err e
  | None =>
      if unique_rows && bool_decide ((shop, item) ∈ t) then Err duplicate_key
      else Data (t ++ [(shop, item)])%list
  end.

(** The body the two handlers share up to the text of their toasts;
    [shopItems] is the set the handler closed over. *)
Definition toggle (removing adding removed added : string) (unique_rows : bool)
    (selectedShop : string) (shopItems : gset string) (itemId : string)
    (error : option PostgrestError) (p : ShopPage) : ShopPage :=
  if negb (Str.truthy selectedShop) then p
  else if bool_decide (itemId ∈ shopItems) then
    match error with
    | Some e => toast (ToastError (removing ++ message e)) p
    | None =>
        toast (ToastSuccess removed)
          (setShopItems (fun prev => prev ∖ {[itemId]})
             (setTable (delete_row selectedShop itemId) p))
    end
  else
    match insert_row unique_rows error selectedShop itemId (table p) with
    | Err e => toast (ToastError (adding ++ message e)) p
    | Data t =>
        toast (ToastSuccess added)
          (setShopItems (fun prev => prev ∪ {[itemId]}) (setTable (fun _ => t) p))
    end.

(** [toggleItemInShop] of the products page *)
Definition toggleItemInShop : bool -> string -> gset string -> string ->
    option PostgrestError -> ShopPage -> ShopPage :=
  toggle "Error removing item: " "Error adding item: "
         "Item removed from shop" "Item added to shop".

(** [toggleItemAssignment] of the shop items page, on [assignedItems] *)
Definition toggleItemAssignment : bool -> string -> gset string -> string ->
    option PostgrestError -> ShopPage -> ShopPage :=
  toggle "Error removing item: " "Error assigning item: "
         "Item removed from shop" "Item assigned to shop".

(** The set of the page holds the items the table gives the shop. *)
Definition mirrors (shop : string) (p : ShopPage) : Prop :=
  forall item, item ∈ shopItems p <-> (shop, item) ∈ table p.

(** The form of an item. *)
Record ItemForm := {
  itemName : string;
  itemPackSize : string;
  itemCategoryId : string;
  editingItem : option Item;
}.

Definition of_form (id : string) (f : ItemForm) : Item :=
  {| item_id := id; item_name := itemName f; pack_size := itemPackSize f;
     category_id := Some (itemCategoryId f) |}.

(** [.update({ name, pack_size, category_id }).eq('id', id)] *)
Definition update_item (f : ItemForm) (id : string) (t : list Item) : list Item :=
  map (fun i => if String.eqb (item_id i) id then of_form id f else i) t.

(** [saveItem]: the items table afterwards and the toast; [new_id] is the
    identifier the database generates for an inserted row. *)
Definition saveItem (f : ItemForm) (error : option PostgrestError) (new_id : string)
    (t : list Item) : list Item * event :=
  if negb (Str.truthy (Str.trim (itemName f)))
     || negb (Str.truthy (Str.trim (itemPackSize f)))
     || negb (Str.truthy (itemCategoryId f))
  then (t, ToastError "Please fill in all fields")
  else
    match editingItem f with
    | Some item =>
        match error with
        | Some e => (t, ToastError ("Error updating item: " ++ message e))
        | None => (update_item f (item_id item) t,
                   ToastSuccess "Product updated successfully!")
        end
    | None =>
        match error with
        | Some e => (t, ToastError ("Error creating item: " ++ message e))
        | None =>
            if bool_decide (new_id ∈ map item_id t)
            then (t, ToastError ("Error creating item: " ++ message duplicate_key))
            else ((t ++ [of_form new_id f])%list,
                  ToastSuccess "Product created successfully!")
        end
    end.

(** An item with a name, a pack size and a category. *)
Definition filled_in (i : Item) : Prop :=
  Str.truthy (Str.trim (item_name i)) = true
  /\ Str.truthy (Str.trim (pack_size i)) = true
  /\ exists c, category_id i = Some c /\ Str.truthy c = true.

End ProductsPage.

(** ** Saving while another client writes

    [saveCounts] awaits its requests one after the other; between two of
    them the requests of other clients may reach the database.  The handler
    is cut where it sends the upsert: [checks] is what it does before,
    [write] the upsert and what follows, [catch] its [catch] block. *)

Module SaveRace.

Definition checks (selectedSession selectedShop userId role : string)
    (counts : gmap string StockCount)
    (sessionError assignmentError : option PostgrestError) : M unit :=
  r <- Sessions.select_session_status sessionError selectedSession ;;
  sessionData <- or_throw r ;;
  if negb (String.eqb sessionData "active") then
    toast_error Count.not_active ;; return_
  else
    (if String.eqb role "employee" then
       a <- Count.select_user_shop_assignment assignmentError userId selectedShop ;;
       match a with
       | Err e =>
           if negb (String.eqb (code e) "PGRST116") then throw e
           else toast_error Count.no_access ;; return_
       | Data _ => ret tt
       end
     else ret tt) ;;
    if Nat.eqb (length (Count.countsArray counts)) 0 then
      toast_error Count.nothing_to_save ;; return_
    else ret tt.

Definition write (selectedSession selectedShop userId : string)
    (counts : gmap string StockCount)
    (upsertError loadError : option PostgrestError) : M unit :=
  u <- Count.upsert_stock_counts upsertError
         (Count.countsToSave selectedSession selectedShop userId counts) ;;
  or_throw u ;;
  toast_success (Count.saved (length (Count.countsArray counts))) ;;
  Count.loadExistingCounts selectedSession selectedShop loadError.

Definition catch (error : PostgrestError) : M unit :=
  console_error "Error saving counts:" error ;;
  toast_error ("Error saving counts: " ++ message_or_unknown error).

(** The requests of another client reach the database: its tables
    change, the page and the trace of this client do not. *)
Definition meanwhile (other : M unit) : M unit :=
  fun w =>
    (Normal tt,
     {| db := db (run other (world (db w) []));
        st_counts := st_counts w; st_items := st_items w;
        st_categories := st_categories w; trace := trace w |}).

(** [saveCounts] of a logged-in user with a session and a shop, while
    [other] reaches the database between the checks and the upsert. *)
Definition saveCounts (other : M unit) (selectedSession selectedShop userId role : string)
    (counts : gmap string StockCount)
    (sessionError assignmentError upsertError loadError : option PostgrestError)
    : M unit :=
  try_catch
    (checks selectedSession selectedShop userId role counts sessionError
       assignmentError ;;
     meanwhile other ;;
     write selectedSession selectedShop userId counts upsertError loadError)
    catch.

(** The tables at the moment the upsert is sent. *)
Definition at_write_time (other : M unit)
    (selectedSession selectedShop userId role : string)
    (counts : gmap string StockCount) (w : World) : Database :=
  db (run (checks selectedSession selectedShop userId role counts None None ;;
           meanwhile other) w).

End SaveRace.

(** ** Sample data for the corner cases *)

Module Corner.

(** Two shops and two items whose ids, joined by a dash, are written
    alike: a and b-c, a-b and c; and a second item of the name Tea. *)
Definition left : Shop := {| shop_id := "a"; shop_name := "Left" |}.
Definition right : Shop := {| shop_id := "a-b"; shop_name := "Right" |}.

Definition rice : Item :=
  {| item_id := "c"; item_name := "Rice"; pack_size := "5";
     category_id := Some "c-food" |}.
Definition tea : Item :=
  {| item_id := "b-c"; item_name := "Tea"; pack_size := "20";
     category_id := Some "c-drinks" |}.
Definition tea_bags : Item :=
  {| item_id := "t"; item_name := "Tea"; pack_size := "100";
     category_id := Some "c-drinks" |}.

(** The three items in the shop Left, Rice in the shop Right; the one
    count of the session is Rice at (1, 1) in the shop Right.  Shops,
    categories and items are in the order of their names. *)
Definition tables : Database :=
  {| stock_count_sessions := <["s1" := Sample.march]> ∅;
     session_user_assignments := [];
     stock_counts :=
       <[("s1", "a-b", "c") := {| row_boxes := 1; row_singles := 1;
                                  counted_by := "emp-1" |}]> ∅;
     user_shop_assignments := [];
     shops := [left; right];
     categories := [Sample.drinks; Sample.food];
     items := [rice; tea; tea_bags];
     shop_items := [("a", "b-c"); ("a", "c"); ("a", "t"); ("a-b", "c")] |}.

(** A shop without items whose name has 40 characters. *)
Definition depot : Shop :=
  {| shop_id := "shop-3"; shop_name := "Central Warehouse and Distribution Depot" |}.

Definition with_depot : Database :=
  {| stock_count_sessions := stock_count_sessions Sample.tables;
     session_user_assignments := session_user_assignments Sample.tables;
     stock_counts := stock_counts Sample.tables;
     user_shop_assignments := user_shop_assignments Sample.tables;
     shops := [Sample.north; depot];
     categories := categories Sample.tables;
     items := items Sample.tables;
     shop_items := shop_items Sample.tables |}.

End Corner.

(** * Properties *)
(** ** Numbers *)

Section NumFacts.

Local Open Scope Z_scope.

Lemma Qle_bool_inject (a b : Z) : Qle_bool (inject_Z a) (inject_Z b) = (a <=? b)%Z.
Proof. unfold Qle_bool, inject_Z. simpl. by rewrite !Z.mul_1_r. Qed.

Lemma Qfloor_inject (z : Z) : Qfloor (inject_Z z) = z.
Proof. apply Qfloor_Z. Qed.

Lemma to_integer_of_Z (z : Z) : Num.to_integer (Num.of_Z z) = Some z.
Proof.
  unfold Num.to_integer, Num.of_Z. rewrite Qfloor_inject.
  assert (Qeq_bool (inject_Z z) (inject_Z z) = true) as ->; [|done].
  apply Qeq_bool_iff. reflexivity.
Qed.

(** Clamping an integer. *)
Lemma clamp_floor (z : Z) :
  Num.max (Num.of_Z 0) (Num.min (Num.of_Z 999999) (Num.of_Z z))
  = Num.of_Z (Z.max 0 (Z.min 999999 z)).
Proof.
  unfold Num.max, Num.min, Num.of_Z, Num.le. rewrite Qle_bool_inject.
  destruct (Z.leb_spec 999999 z); rewrite Qle_bool_inject.
  - rewrite Z.min_l, Z.max_r by lia. done.
  - rewrite Z.min_r by lia.
    destruct (Z.leb_spec 0 z); [rewrite Z.max_r by lia|rewrite Z.max_l by lia]; done.
Qed.

Lemma clamp_Finite (q : Q) :
  Num.clamp (Finite q) = Num.of_Z (Z.max 0 (Z.min 999999 (Qfloor q))).
Proof.
  unfold Num.clamp, Num.or_zero.
  destruct (Qeq_bool q 0) eqn:E; unfold Num.floor; [|apply clamp_floor].
  apply Qeq_bool_iff in E. unfold Num.of_Z at 3. rewrite Qfloor_inject.
  rewrite clamp_floor. rewrite (Qfloor_comp _ _ E). done.
Qed.

Lemma clamp_quantity (x : number) : Num.clamp x = Num.of_Z (quantity x).
Proof.
  assert (exists z, Num.clamp x = Num.of_Z z) as [z Hz].
  { destruct x as [|[]|q]; [by eexists..|]. eexists. apply clamp_Finite. }
  unfold quantity. by rewrite Hz, to_integer_of_Z.
Qed.

Lemma quantity_Finite (q : Q) :
  quantity (Finite q) = Z.max 0 (Z.min 999999 (Qfloor q)).
Proof. unfold quantity. by rewrite clamp_Finite, to_integer_of_Z. Qed.

Lemma quantity_range (x : number) : 0 <= quantity x <= 999999.
Proof.
  destruct x as [|[]|q]; [by vm_compute..|]. rewrite quantity_Finite. lia.
Qed.

Lemma gt0_of_Z (z : Z) : Num.gt0 (Num.of_Z z) = (0 <? z)%Z.
Proof.
  unfold Num.gt0, Num.of_Z. change 0%Q with (inject_Z 0).
  rewrite Qle_bool_inject. rewrite Z.ltb_antisym. done.
Qed.

End NumFacts.

(** ** Running handlers *)

Lemma app_cons_assoc {A} (l : list A) (x : A) (l' : list A) :
  ((l ++ [x]) ++ l' = l ++ x :: l')%list.
Proof. by rewrite <- app_assoc. Qed.


(** ** Session deletion *)

(** C9: [deleteSession] sends the three deletes in the order counts,
    assignments, session, whatever fails; a failure of one of the first two
    is written to the console and the next delete is still sent; the toast
    the caller sees is decided by the delete of the session row alone. *)
Theorem deleteSession_cascade (id : string)
    (countsError assignError error : option PostgrestError) (w : World) :
  Str.truthy id = true ->
  let w' := run (Sessions.deleteSession (Some id) countsError assignError error) w in
  trace w' =
    (trace w
       ++ Request (DeleteStockCounts id)
          :: from_option (fun e => [ConsoleWarn "Error deleting counts:" e]) [] countsError
       ++ Request (DeleteSessionAssignments id)
          :: from_option (fun e => [ConsoleWarn "Error deleting assignments:" e]) [] assignError
       ++ [Request (DeleteSession id);
           match error with
           | Some e => ToastError ("Error deleting session: " ++ message_or_unknown e)
           | None => ToastSuccess Sessions.deleted_successfully
           end])%list
  /\ stock_counts (db w') =
       match countsError with
       | Some _ => stock_counts (db w)
       | None => filter (fun kv : CountKey * CountRow => kv.1.1.1 ≠ id) (stock_counts (db w))
       end
  /\ session_user_assignments (db w') =
       match assignError with
       | Some _ => session_user_assignments (db w)
       | None => filter (fun a : string * string => a.1 ≠ id) (session_user_assignments (db w))
       end
  /\ stock_count_sessions (db w') =
       match error with
       | Some _ => stock_count_sessions (db w)
       | None => delete id (stock_count_sessions (db w))
       end.
Proof.
  intros Hid. unfold Sessions.deleteSession. rewrite Hid. simpl negb. cbv iota.
  unfold Sessions.delete_stock_counts, Sessions.delete_session_assignments,
    Sessions.delete_session.
  destruct countsError, assignError, error; handler_unfold; simpl;
    rewrite ?app_cons_assoc; simpl; repeat split; try reflexivity.
Qed.

Lemma deleteSession_cascade_witness :
  let w := world Sample.tables [] in
  let w' := run (Sessions.deleteSession (Some "s0") (Some Sample.timeout) None None) w in
  trace w' = [Request (DeleteStockCounts "s0");
              ConsoleWarn "Error deleting counts:" Sample.timeout;
              Request (DeleteSessionAssignments "s0");
              Request (DeleteSession "s0");
              ToastSuccess Sessions.deleted_successfully]
  /\ stock_counts (db w') = stock_counts (db w)
  /\ stock_count_sessions (db w') = delete "s0" (stock_count_sessions (db w)).
Proof.
  intros w w'.
  destruct (deleteSession_cascade "s0" (Some Sample.timeout) None None w eq_refl)
    as (Htrace & Hcounts & _ & Hsessions).
  repeat split; assumption.
Defined.

(** ** Folding inserts into a map *)

Section FoldInsert.
Context {K : Type} `{Countable K} {V : Type}.

Local Abbreviation insert_all kvs t := (foldl (fun m kv => <[kv.1 := kv.2]> m) t kvs).

Lemma insert_all_notin (kvs : list (K * V)) (t : gmap K V) (k : K) :
  k ∉ kvs.*1 -> insert_all kvs t !! k = t !! k.
Proof.
  revert t. induction kvs as [|[k' v'] kvs IH]; intros t Hk; [done|].
  simpl in *. apply not_elem_of_cons in Hk as [Hne Hk].
  simpl. rewrite IH by done. by rewrite lookup_insert_ne.
Qed.

Lemma insert_all_in (kvs : list (K * V)) (t : gmap K V) (k : K) (v : V) :
  NoDup kvs.*1 -> (k, v) ∈ kvs -> insert_all kvs t !! k = Some v.
Proof.
  revert t. induction kvs as [|[k' v'] kvs IH]; intros t Hnd Hin.
  { by apply elem_of_nil in Hin. }
  simpl in Hnd. apply NoDup_cons in Hnd as [Hk' Hnd].
  apply elem_of_cons in Hin as [Heq|Hin].
  - inversion Heq; subst. simpl.
    rewrite insert_all_notin by done. apply lookup_insert_eq.
  - simpl. by apply IH.
Qed.

Lemma insert_all_list_to_map (kvs : list (K * V)) :
  NoDup kvs.*1 -> insert_all kvs (∅ : gmap K V) = list_to_map kvs.
Proof.
  intros Hnd. apply map_eq. intros k.
  destruct ((list_to_map kvs : gmap K V) !! k) as [v|] eqn:E.
  - apply elem_of_list_to_map in E; [|done]. by apply insert_all_in.
  - apply not_elem_of_list_to_map in E. by rewrite insert_all_notin.
Qed.

Lemma insert_all_Permutation (kvs kvs' : list (K * V)) :
  NoDup kvs.*1 -> kvs ≡ₚ kvs' ->
  insert_all kvs (∅ : gmap K V) = insert_all kvs' (∅ : gmap K V).
Proof.
  intros Hnd Hp. rewrite !insert_all_list_to_map; [|by rewrite <- Hp|done].
  by apply list_to_map_proper.
Qed.

End FoldInsert.

(** ** Saving counts *)

Section SaveCounts.

Variables (selectedSession selectedShop userId role : string).
Variable counts : gmap string StockCount.

Lemma to_row_countsToSave :
  mapM Count.to_row (Count.countsToSave selectedSession selectedShop userId counts)
  = Some (map (stored_row selectedSession selectedShop userId) (Count.countsArray counts)).
Proof.
  unfold Count.countsToSave. induction (Count.countsArray counts) as [|c l IH]; [done|].
  simpl. rewrite IH. unfold Count.to_row. simpl.
  by rewrite !clamp_quantity, !to_integer_of_Z.
Qed.

Lemma has_count_quantity (c : StockCount) :
  Count.has_count c = false <-> quantity (boxes c) = 0 /\ quantity (singles c) = 0.
Proof.
  unfold Count.has_count. rewrite !clamp_quantity, !gt0_of_Z.
  pose proof (quantity_range (boxes c)). pose proof (quantity_range (singles c)).
  rewrite orb_false_iff, !Z.ltb_ge. lia.
Qed.

Lemma countsArray_elem (c : StockCount) :
  c ∈ Count.countsArray counts <->
  (exists k, counts !! k = Some c) /\ Count.has_count c = true.
Proof.
  unfold Count.countsArray, Count.Object_values.
  rewrite list_elem_of_In, filter_In, <- list_elem_of_In, list_elem_of_fmap.
  split; intros [Hc ?]; split; try done.
  - destruct Hc as ([k c'] & -> & Hin). exists k. by apply elem_of_map_to_list.
  - destruct Hc as [k Hk]. exists (k, c). split; [done|]. by apply elem_of_map_to_list.
Qed.

Hypothesis wf : counts_wf counts = true.

Lemma wf_lookup (k : string) (c : StockCount) :
  counts !! k = Some c -> sc_item_id c = k.
Proof.
  intros Hk. unfold counts_wf in wf. rewrite forallb_forall in wf.
  apply elem_of_map_to_list, list_elem_of_In, wf in Hk.
  by apply String.eqb_eq in Hk.
Qed.

Lemma wf_item_ids :
  map sc_item_id (Count.Object_values counts) = (map_to_list counts).*1.
Proof.
  unfold Count.Object_values.
  assert (forall kc, kc ∈ map_to_list counts -> sc_item_id kc.2 = kc.1) as Hall.
  { intros [k c] Hin. apply elem_of_map_to_list in Hin. by apply wf_lookup. }
  induction (map_to_list counts) as [|kc l IH]; [done|].
  simpl. rewrite Hall by left. f_equal. apply IH. intros ? ?. apply Hall. by right.
Qed.

Lemma countsArray_NoDup : NoDup (map sc_item_id (Count.countsArray counts)).
Proof.
  pose proof (NoDup_fst_map_to_list counts) as Hnd. rewrite <- wf_item_ids in Hnd.
  unfold Count.countsArray. induction (Count.Object_values counts) as [|c l IH]; [done|].
  simpl in *. apply NoDup_cons in Hnd as [Hc Hnd].
  destruct (Count.has_count c); [|by apply IH].
  simpl. apply NoDup_cons. split; [|by apply IH].
  intros Hin. apply Hc. apply list_elem_of_fmap in Hin as (c' & -> & Hin).
  apply list_elem_of_fmap. exists c'. split; [done|].
  apply list_elem_of_In. apply list_elem_of_In, filter_In in Hin. tauto.
Qed.

Lemma stored_rows_NoDup :
  NoDup (map (stored_row selectedSession selectedShop userId) (Count.countsArray counts)).*1.
Proof.
  pose proof countsArray_NoDup as Hnd.
  induction (Count.countsArray counts) as [|c l IH]; [constructor|].
  simpl in *. apply NoDup_cons in Hnd as [Hc Hnd]. apply NoDup_cons. split; [|by apply IH].
  intros Hin. apply Hc.
  apply list_elem_of_fmap in Hin as ([k r] & Hk & Hin).
  apply list_elem_of_fmap in Hin as (c' & Hc' & Hin).
  apply list_elem_of_fmap. exists c'. split; [|done].
  unfold stored_row in Hc'. simpl in Hk. congruence.
Qed.

(** What the upsert of [saveCounts] leaves in the table. *)
Lemma upsert_lookup_saved (t : gmap CountKey CountRow) (item : string) (c : StockCount) :
  counts !! item = Some c -> Count.has_count c = true ->
  Count.upsert_rows
    (map (stored_row selectedSession selectedShop userId) (Count.countsArray counts)) t
    !! (selectedSession, selectedShop, item)
  = Some {| row_boxes := quantity (boxes c); row_singles := quantity (singles c);
            counted_by := userId |}.
Proof.
  intros Hk Hc. apply insert_all_in; [apply stored_rows_NoDup|].
  apply list_elem_of_fmap. exists c. split.
  - unfold stored_row. by rewrite (wf_lookup _ _ Hk).
  - apply countsArray_elem. eauto.
Qed.

Lemma upsert_lookup_other (t : gmap CountKey CountRow) (k : CountKey) :
  (forall item c, counts !! item = Some c -> Count.has_count c = true ->
     k <> (selectedSession, selectedShop, item)) ->
  Count.upsert_rows
    (map (stored_row selectedSession selectedShop userId) (Count.countsArray counts)) t
    !! k = t !! k.
Proof.
  intros Hk. apply insert_all_notin. intros Hin.
  apply list_elem_of_fmap in Hin as ([k' r] & -> & Hin).
  apply list_elem_of_fmap in Hin as (c & Hc & Hin).
  apply countsArray_elem in Hin as [[item Hitem] Hhas].
  apply (Hk item c Hitem Hhas). unfold stored_row in Hc. simpl.
  rewrite (wf_lookup _ _ Hitem) in Hc. congruence.
Qed.

End SaveCounts.

(** Sending the same rows again changes nothing. *)
Lemma upsert_rows_idempotent (kvs : list (CountKey * CountRow))
    (t : gmap CountKey CountRow) :
  NoDup kvs.*1 ->
  Count.upsert_rows kvs (Count.upsert_rows kvs t) = Count.upsert_rows kvs t.
Proof.
  intros Hnd. apply map_eq. intros k. unfold Count.upsert_rows.
  destruct (decide (k ∈ kvs.*1)) as [Hin|Hnotin].
  - apply list_elem_of_fmap in Hin as ([k' v] & -> & Hin).
    by rewrite !(insert_all_in kvs _ k' v).
  - by rewrite !insert_all_notin.
Qed.

Lemma saveCounts_db_cases (selectedSession selectedShop : string) (user : option string)
    (role : string) (counts : gmap string StockCount)
    (sessionError assignmentError upsertError loadError : option PostgrestError)
    (w : World) :
  let w' := run (Count.saveCounts selectedSession selectedShop user role counts
                   sessionError assignmentError upsertError loadError) w in
  db w' = db w
  \/ exists userId s,
       user = Some userId
       /\ stock_count_sessions (db w) !! selectedSession = Some s
       /\ status s = "active"
       /\ db w' = set_counts
                    (Count.upsert_rows
                       (map (stored_row selectedSession selectedShop userId)
                            (Count.countsArray counts))) (db w).
Proof.
  count_unfold. 
  destruct (Str.truthy selectedSession), (Str.truthy selectedShop), user as [userId|];
    simpl; try (by left).
  destruct (Str.truthy userId); simpl; [|by left].
  destruct sessionError; [by left|].
  handler_unfold. simpl.
  destruct (stock_count_sessions (db w) !! selectedSession) as [s|] eqn:Hs; simpl; [|by left].
  destruct (String.eqb (status s) "active") eqn:Hact; simpl; [|by left].
  apply String.eqb_eq in Hact.
  rewrite to_row_countsToSave.
  destruct (String.eqb role "employee"); simpl.
  - destruct assignmentError as [e|]; simpl.
    + destruct (String.eqb (code e) "PGRST116"); simpl; by left.
    + destruct (filter _ _) as [|a [|a' l]]; simpl; try (by left).
      destruct (Nat.eqb _ 0); simpl; [by left|].
      destruct upsertError; simpl; [by left|].
      destruct loadError; simpl; right; eauto 10.
  - destruct (Nat.eqb _ 0); simpl; [by left|].
    destruct upsertError; simpl; [by left|].
    destruct loadError; simpl; right; eauto 10.
Qed.

Lemma writes_app (a b : list event) : writes (a ++ b) = (writes a ++ writes b)%list.
Proof. apply omap_app. Qed.

Lemma toasts_app (a b : list event) : toasts (a ++ b) = (toasts a ++ toasts b)%list.
Proof. apply List.filter_app. Qed.

Ltac trace_simpl :=
  rewrite ?writes_app, ?toasts_app; simpl; rewrite ?app_nil_r.

Lemma saveCounts_success (selectedSession selectedShop userId role : string)
    (counts : gmap string StockCount) (loadError : option PostgrestError)
    (w : World) (s : Session) :
  Str.truthy selectedSession = true -> Str.truthy selectedShop = true ->
  Str.truthy userId = true ->
  stock_count_sessions (db w) !! selectedSession = Some s -> status s = "active" ->
  authorised role userId selectedShop (db w) ->
  Count.countsArray counts <> [] ->
  let w' := run (Count.saveCounts selectedSession selectedShop (Some userId) role counts
                   None None None loadError) w in
  db w' = set_counts
            (Count.upsert_rows
               (map (stored_row selectedSession selectedShop userId)
                    (Count.countsArray counts))) (db w)
  /\ writes (trace w') =
       (writes (trace w)
          ++ [UpsertStockCounts
                (Count.countsToSave selectedSession selectedShop userId counts)])%list
  /\ toasts (trace w') =
       (toasts (trace w)
          ++ [ToastSuccess (Count.saved (length (Count.countsArray counts)))])%list.
Proof.
  intros Hsess Hshop Huser Hs Hact Hauth Hne.
  count_unfold. rewrite Hsess, Hshop, Huser. simpl.
  handler_unfold. simpl. rewrite Hs, Hact. simpl.
  rewrite to_row_countsToSave.
  assert (Nat.eqb (length (Count.countsArray counts)) 0 = false) as Hlen.
  { apply Nat.eqb_neq. by destruct (Count.countsArray counts). }
  destruct (String.eqb role "employee") eqn:Hrole; simpl.
  - apply String.eqb_eq in Hrole. destruct (Hauth Hrole) as [a ->]. simpl.
    rewrite Hlen. simpl.
    destruct loadError; simpl; repeat split; trace_simpl; done.
  - rewrite Hlen. simpl.
    destruct loadError; simpl; repeat split; trace_simpl; done.
Qed.

(** Whatever happens, a call sends no writing request, or the upsert of the
    surviving counts and nothing else; the tables change only by that upsert. *)
Lemma saveCounts_effect_cases (selectedSession selectedShop : string)
    (user : option string) (role : string) (counts : gmap string StockCount)
    (sessionError assignmentError upsertError loadError : option PostgrestError)
    (w : World) :
  let w' := run (Count.saveCounts selectedSession selectedShop user role counts
                   sessionError assignmentError upsertError loadError) w in
  (writes (trace w') = writes (trace w) /\ db w' = db w)
  \/ exists userId,
       user = Some userId
       /\ writes (trace w') =
            (writes (trace w)
               ++ [UpsertStockCounts
                     (Count.countsToSave selectedSession selectedShop userId counts)])%list
       /\ (db w' = db w
           \/ db w' = set_counts
                        (Count.upsert_rows
                           (map (stored_row selectedSession selectedShop userId)
                                (Count.countsArray counts))) (db w)).
Proof.
  count_unfold.
  destruct (Str.truthy selectedSession), (Str.truthy selectedShop), user as [userId|];
    simpl; try (left; handler_unfold; simpl; trace_simpl; done).
  destruct (Str.truthy userId); simpl;
    [|left; handler_unfold; simpl; trace_simpl; done].
  handler_unfold. destruct sessionError; simpl; [left; trace_simpl; done|].
  destruct (stock_count_sessions (db w) !! selectedSession) as [s|]; simpl;
    [|left; trace_simpl; done].
  destruct (String.eqb (status s) "active"); simpl; [|left; trace_simpl; done].
  rewrite to_row_countsToSave.
  destruct (String.eqb role "employee"); simpl.
  - destruct assignmentError as [e|]; simpl.
    + destruct (String.eqb (code e) "PGRST116"); simpl; left; trace_simpl; done.
    + destruct (filter _ _) as [|a [|a' l]]; simpl; try (left; trace_simpl; done).
      destruct (Nat.eqb _ 0); simpl; [left; trace_simpl; done|].
      destruct upsertError; simpl;
        [right; exists userId; trace_simpl; rewrite <- ?app_assoc; eauto|].
      destruct loadError; simpl; right; exists userId; trace_simpl;
        rewrite <- ?app_assoc; eauto.
  - destruct (Nat.eqb _ 0); simpl; [left; trace_simpl; done|].
    destruct upsertError; simpl;
      [right; exists userId; trace_simpl; rewrite <- ?app_assoc; eauto|].
    destruct loadError; simpl; right; exists userId; trace_simpl;
      rewrite <- ?app_assoc; eauto.
Qed.

(** C3 (amended): when the selected session exists and its status, in the
    tables the call's own status request reads, is not ['active'],
    [saveCounts] leaves the tables as they are, sends no writing request and
    ends with an error toast, whatever else fails; when the call gets as far
    as the status check and the check is answered, the toast is the one that
    names the completed session. *)
Theorem saveCounts_rejects_inactive (selectedSession selectedShop : string)
    (user : option string) (role : string) (counts : gmap string StockCount)
    (sessionError assignmentError upsertError loadError : option PostgrestError)
    (w : World) (s : Session) :
  stock_count_sessions (db w) !! selectedSession = Some s ->
  status s <> "active" ->
  let w' := run (Count.saveCounts selectedSession selectedShop user role counts
                   sessionError assignmentError upsertError loadError) w in
  db w' = db w
  /\ writes (trace w') = writes (trace w)
  /\ (exists m, toasts (trace w') = (toasts (trace w) ++ [ToastError m])%list)
  /\ (Str.truthy selectedSession = true -> Str.truthy selectedShop = true ->
      (exists userId, user = Some userId /\ Str.truthy userId = true) ->
      sessionError = None ->
      trace w' = (trace w ++ [Request (SelectSessionStatus selectedSession);
                              ToastError Count.not_active])%list).
Proof.
  intros Hs Hact. apply String.eqb_neq in Hact.
  count_unfold.
  destruct (Str.truthy selectedSession), (Str.truthy selectedShop); simpl;
    try (handler_unfold; simpl; trace_simpl;
         repeat split; eauto; intros; discriminate).
  destruct user as [userId|]; simpl.
  2: { handler_unfold; simpl; trace_simpl. repeat split; eauto.
       intros _ _ (? & ? & _); discriminate. }
  destruct (Str.truthy userId) eqn:Hu; simpl.
  2: { handler_unfold; simpl; trace_simpl. repeat split; eauto.
       intros _ _ (? & [= <-] & ?); congruence. }
  handler_unfold. destruct sessionError; simpl.
  - trace_simpl. repeat split; eauto. intros; discriminate.
  - rewrite Hs. simpl. rewrite Hact. simpl. trace_simpl. repeat split; eauto.
    intros. by rewrite <- app_assoc.
Qed.

Lemma saveCounts_rejects_inactive_witness :
  let w := world Sample.tables [] in
  let w' := run (Count.saveCounts "s0" "shop-1" (Some "emp-1") "employee"
                   Sample.counts_AB None None None None) w in
  db w' = db w
  /\ trace w' = [Request (SelectSessionStatus "s0"); ToastError Count.not_active].
Proof.
  intros w w'.
  destruct (saveCounts_rejects_inactive "s0" "shop-1" (Some "emp-1") "employee"
              Sample.counts_AB None None None None w Sample.february)
    as (Hdb & _ & _ & Htrace).
  - vm_compute. reflexivity.
  - discriminate.
  - split; [exact Hdb|].
    apply Htrace; try reflexivity. exists "emp-1". split; reflexivity.
Defined.

(** ** Saving while the session is completed by another client *)

(** With no request of another client in between, the checks followed by
    the write are [saveCounts]. *)
Lemma checks_then_write_is_saveCounts (selectedSession selectedShop userId role : string)
    (counts : gmap string StockCount)
    (sessionError assignmentError upsertError loadError : option PostgrestError)
    (w : World) :
  Str.truthy selectedSession = true -> Str.truthy selectedShop = true ->
  Str.truthy userId = true ->
  let w1 := run (Count.saveCounts selectedSession selectedShop (Some userId) role counts
                   sessionError assignmentError upsertError loadError) w in
  let w2 := run (SaveRace.saveCounts (ret tt) selectedSession selectedShop userId role
                   counts sessionError assignmentError upsertError loadError) w in
  db w2 = db w1 /\ st_counts w2 = st_counts w1 /\ trace w2 = trace w1.
Proof.
  intros Hsess Hshop Huser.
  unfold SaveRace.saveCounts, SaveRace.checks, SaveRace.write, SaveRace.catch,
    SaveRace.meanwhile.
  count_unfold. rewrite Hsess, Hshop, Huser. simpl. handler_unfold.
  destruct sessionError; simpl; [done|].
  destruct (stock_count_sessions (db w) !! selectedSession) as [s|]; simpl; [|done].
  destruct (String.eqb (status s) "active"); simpl; [|done].
  destruct (String.eqb role "employee"); simpl.
  - destruct assignmentError as [e|]; simpl.
    + destruct (String.eqb (code e) "PGRST116"); simpl; done.
    + destruct (filter _ _) as [|a [|a' l]]; simpl; try done.
      destruct (Nat.eqb _ 0); simpl; [done|].
      destruct upsertError; simpl; [done|].
      destruct (mapM Count.to_row _); simpl; [|done].
      destruct loadError; simpl; done.
  - destruct (Nat.eqb _ 0); simpl; [done|].
    destruct upsertError; simpl; [done|].
    destruct (mapM Count.to_row _); simpl; [|done].
    destruct loadError; simpl; done.
Qed.

(** Against C3 as stated: the employee of the sample saves A (3, 0) and
    B (0, 5) for the session s1 and the shop shop-1; the status request
    finds the session active, and before the upsert is sent a manager's
    [completeSession] completes it.  At write time the session is completed;
    the upsert is sent all the same, the rows are stored, and the call ends
    with the success toast. *)
Lemma saveCounts_writes_to_completed_session :
  let other := Sessions.completeSession "s1" 100 None None in
  let w := world Sample.tables [] in
  let w' := run (SaveRace.saveCounts other "s1" "shop-1" "emp-1" "employee"
                   Sample.counts_AB None None None None) w in
  status <$> stock_count_sessions
               (SaveRace.at_write_time other "s1" "shop-1" "emp-1" "employee"
                  Sample.counts_AB w) !! "s1"
  = Some "completed"
  /\ stock_counts Sample.tables !! ("s1", "shop-1", "A") = None
  /\ stock_counts (db w') !! ("s1", "shop-1", "A")
     = Some {| row_boxes := 3; row_singles := 0; counted_by := "emp-1" |}
  /\ stock_counts (db w') !! ("s1", "shop-1", "B")
     = Some {| row_boxes := 0; row_singles := 5; counted_by := "emp-1" |}
  /\ writes (trace w')
     = [UpsertStockCounts (Count.countsToSave "s1" "shop-1" "emp-1" Sample.counts_AB)]
  /\ toasts (trace w') = [ToastSuccess (Count.saved 2)].
Proof. vm_compute. repeat split. Qed.

(** C1: what a [saveCounts] call writes is a single upsert keyed on
    (session, shop, item).  Whatever happens in a call, it sends no writing
    request, or the upsert of the surviving counts and nothing else, and the
    tables change by that upsert only.  A call that passes its checks and
    whose requests are answered sends the upsert; afterwards the row of
    every surviving item holds the clamped boxes and singles of the page and
    the saving user, whatever the row held before, and every other row of
    the table is as it was. *)
Theorem saveCounts_upsert (selectedSession selectedShop : string)
    (user : option string) (role : string) (counts : gmap string StockCount)
    (sessionError assignmentError upsertError loadError : option PostgrestError)
    (w : World) :
  counts_wf counts = true ->
  let w' := run (Count.saveCounts selectedSession selectedShop user role counts
                   sessionError assignmentError upsertError loadError) w in
  ((writes (trace w') = writes (trace w) /\ db w' = db w)
   \/ exists userId,
        user = Some userId
        /\ writes (trace w') =
             (writes (trace w)
                ++ [UpsertStockCounts
                      (Count.countsToSave selectedSession selectedShop userId counts)])%list
        /\ (db w' = db w
            \/ db w' = set_counts
                         (Count.upsert_rows
                            (map (stored_row selectedSession selectedShop userId)
                                 (Count.countsArray counts))) (db w)))
  /\ (forall userId s,
        Str.truthy selectedSession = true -> Str.truthy selectedShop = true ->
        user = Some userId -> Str.truthy userId = true ->
        stock_count_sessions (db w) !! selectedSession = Some s -> status s = "active" ->
        authorised role userId selectedShop (db w) ->
        sessionError = None -> assignmentError = None -> upsertError = None ->
        Count.countsArray counts <> [] ->
        writes (trace w') =
          (writes (trace w)
             ++ [UpsertStockCounts
                   (Count.countsToSave selectedSession selectedShop userId counts)])%list
        /\ (forall item c, counts !! item = Some c -> Count.has_count c = true ->
              stock_counts (db w') !! (selectedSession, selectedShop, item)
              = Some {| row_boxes := quantity (boxes c);
                        row_singles := quantity (singles c);
                        counted_by := userId |})
        /\ (forall k,
              (forall item c, counts !! item = Some c -> Count.has_count c = true ->
                 k <> (selectedSession, selectedShop, item)) ->
              stock_counts (db w') !! k = stock_counts (db w) !! k)).
Proof.
  intros Hwf w'. split; [apply saveCounts_effect_cases|].
  intros userId s Hsess Hshop -> Huser Hs Hact Hauth -> -> -> Hne.
  destruct (saveCounts_success selectedSession selectedShop userId role counts
              loadError w s) as (Hdb & Hwr & _); try done.
  fold w' in Hdb, Hwr. split; [done|]. rewrite Hdb. simpl. split.
  - intros item c Hitem Hc. by apply upsert_lookup_saved.
  - intros k Hk. by apply upsert_lookup_other.
Qed.

Lemma saveCounts_upsert_witness :
  let w := world Sample.tables [] in
  let w' := run (Count.saveCounts "s1" "shop-1" (Some "emp-1") "employee"
                   Sample.counts_AB None None None None) w in
  stock_counts (db w) !! ("s1", "shop-1", "A") = None
  /\ stock_counts (db w) !! ("s1", "shop-1", "B")
     = Some {| row_boxes := 2; row_singles := 2; counted_by := "emp-2" |}
  /\ stock_counts (db w') !! ("s1", "shop-1", "A")
     = Some {| row_boxes := 3; row_singles := 0; counted_by := "emp-1" |}
  /\ stock_counts (db w') !! ("s1", "shop-1", "B")
     = Some {| row_boxes := 0; row_singles := 5; counted_by := "emp-1" |}.
Proof.
  intros w w'.
  destruct (saveCounts_upsert "s1" "shop-1" (Some "emp-1") "employee" Sample.counts_AB
              None None None None w) as (_ & Hsaved).
  - vm_compute. reflexivity.
  - destruct (Hsaved "emp-1" Sample.march) as (_ & Hin & _).
    + reflexivity.
    + reflexivity.
    + reflexivity.
    + reflexivity.
    + vm_compute. reflexivity.
    + reflexivity.
    + intros _. eexists. vm_compute. reflexivity.
    + reflexivity.
    + reflexivity.
    + reflexivity.
    + vm_compute. discriminate.
    + split; [vm_compute; reflexivity|]. split; [vm_compute; reflexivity|]. split.
      * exact (Hin "A" (Sample.count "A" 3 0) eq_refl eq_refl).
      * exact (Hin "B" (Sample.count "B" 0 5) eq_refl eq_refl).
Defined.

(** C4: every quantity [saveCounts] sends is the submitted value floored and
    clamped: an integer between 0 and 999999, equal to
    [Math.max(0, Math.min(999999, Math.floor(x || 0)))], which for a finite [x]
    is the floor of [x] cut to the range; and these integers are what a call
    that goes through stores for a surviving item. *)
Theorem saveCounts_clamps (selectedSession selectedShop userId : string)
    (counts : gmap string StockCount) :
  (forall row,
     row ∈ Count.countsToSave selectedSession selectedShop userId counts ->
     exists c,
       c ∈ Count.Object_values counts
       /\ in_item_id row = sc_item_id c
       /\ in_boxes row = Num.of_Z (quantity (boxes c))
       /\ in_singles row = Num.of_Z (quantity (singles c)))
  /\ (forall x, Num.clamp x = Num.of_Z (quantity x) /\ 0 <= quantity x <= 999999)
  /\ (forall q, quantity (Finite q) = Z.max 0 (Z.min 999999 (Qfloor q)))
  /\ (forall role loadError w s,
        Str.truthy selectedSession = true -> Str.truthy selectedShop = true ->
        Str.truthy userId = true ->
        stock_count_sessions (db w) !! selectedSession = Some s -> status s = "active" ->
        authorised role userId selectedShop (db w) ->
        counts_wf counts = true ->
        let w' := run (Count.saveCounts selectedSession selectedShop (Some userId) role
                         counts None None None loadError) w in
        forall item c, counts !! item = Some c -> Count.has_count c = true ->
          exists r,
            stock_counts (db w') !! (selectedSession, selectedShop, item) = Some r
            /\ row_boxes r = quantity (boxes c)
            /\ row_singles r = quantity (singles c)).
Proof.
  split; [|split; [|split]].
  - intros row Hrow. unfold Count.countsToSave in Hrow.
    apply list_elem_of_fmap in Hrow as (c & -> & Hc). exists c. simpl.
    rewrite !clamp_quantity. repeat split.
    unfold Count.countsArray in Hc. apply list_elem_of_In, filter_In in Hc as [Hc _].
    by apply list_elem_of_In.
  - intros x. split; [apply clamp_quantity|apply quantity_range].
  - apply quantity_Finite.
  - intros role loadError w s Hsess Hshop Huser Hs Hact Hauth Hwf w' item c Hitem Hc.
    assert (Count.countsArray counts <> []) as Hne.
    { intros Hnil. assert (c ∈ Count.countsArray counts) as Hin.
      { apply countsArray_elem. eauto. }
      rewrite Hnil in Hin. by apply elem_of_nil in Hin. }
    destruct (saveCounts_success selectedSession selectedShop userId role counts
                loadError w s) as (Hdb & _ & _); try done.
    fold w' in Hdb. eexists. split; [rewrite Hdb; simpl; by apply upsert_lookup_saved|].
    done.
Qed.

Lemma saveCounts_clamps_witness :
  let w' := run (Count.saveCounts "s1" "shop-1" (Some "manager-1") "manager"
                   Sample.counts_out_of_range None None None None)
                (world Sample.tables []) in
  (exists r, stock_counts (db w') !! ("s1", "shop-1", "A") = Some r
             /\ row_boxes r = 0 /\ row_singles r = 1)
  /\ (exists r, stock_counts (db w') !! ("s1", "shop-1", "B") = Some r
                /\ row_boxes r = 999999 /\ row_singles r = 0)
  /\ (exists r, stock_counts (db w') !! ("s1", "shop-1", "D") = Some r
                /\ row_boxes r = 2 /\ row_singles r = 0)
  /\ stock_counts (db w') !! ("s1", "shop-1", "C") = None.
Proof.
  intros w'.
  destruct (saveCounts_clamps "s1" "shop-1" "manager-1" Sample.counts_out_of_range)
    as (_ & _ & _ & H).
  assert (authorised "manager" "manager-1" "shop-1" (db (world Sample.tables []))) as Hauth
    by (intros [=]).
  specialize (H "manager" None (world Sample.tables []) Sample.march
                eq_refl eq_refl eq_refl ltac:(vm_compute; reflexivity) eq_refl Hauth
                ltac:(vm_compute; reflexivity)).
  fold w' in H. split; [|split; [|split]].
  - destruct (H "A" _ eq_refl eq_refl) as (r & Hr & Hb & Hs). by exists r.
  - destruct (H "B" _ eq_refl eq_refl) as (r & Hr & Hb & Hs). by exists r.
  - destruct (H "D" _ eq_refl eq_refl) as (r & Hr & Hb & Hs). by exists r.
  - vm_compute. reflexivity.
Defined.

(** C5: an item whose clamped boxes and singles are both zero is in no row
    [saveCounts] sends, and its row of the table, present or not, is after
    the call what it was before, however the call ends.  When every count of
    the page is such an item, the call changes no table, sends no writing
    request and ends with an error toast; when it passes the checks on the
    session and the shop, the toast is the one that says there is nothing to
    save. *)
Theorem saveCounts_skips_zero (selectedSession selectedShop : string)
    (user : option string) (role : string) (counts : gmap string StockCount)
    (sessionError assignmentError upsertError loadError : option PostgrestError)
    (w : World) :
  counts_wf counts = true ->
  let w' := run (Count.saveCounts selectedSession selectedShop user role counts
                   sessionError assignmentError upsertError loadError) w in
  (forall item c, counts !! item = Some c ->
     quantity (boxes c) = 0 -> quantity (singles c) = 0 ->
     (forall userId,
        item ∉ map in_item_id
                   (Count.countsToSave selectedSession selectedShop userId counts))
     /\ stock_counts (db w') !! (selectedSession, selectedShop, item)
        = stock_counts (db w) !! (selectedSession, selectedShop, item))
  /\ ((forall item c, counts !! item = Some c ->
         quantity (boxes c) = 0 /\ quantity (singles c) = 0) ->
      db w' = db w
      /\ writes (trace w') = writes (trace w)
      /\ (exists m, toasts (trace w') = (toasts (trace w) ++ [ToastError m])%list)
      /\ (forall userId s,
            Str.truthy selectedSession = true -> Str.truthy selectedShop = true ->
            user = Some userId -> Str.truthy userId = true ->
            stock_count_sessions (db w) !! selectedSession = Some s ->
            status s = "active" ->
            authorised role userId selectedShop (db w) ->
            sessionError = None -> assignmentError = None ->
            toasts (trace w') =
              (toasts (trace w) ++ [ToastError Count.nothing_to_save])%list)).
Proof.
  intros Hwf w'. split.
  - intros item c Hitem Hb Hs.
    assert (Count.has_count c = false) as Hc by by apply has_count_quantity.
    assert (forall item' c', counts !! item' = Some c' -> Count.has_count c' = true ->
              item <> item') as Hother.
    { intros item' c' Hitem' Hc' <-. congruence. }
    split.
    + intros userId Hin. unfold Count.countsToSave in Hin.
      rewrite map_map in Hin. simpl in Hin.
      apply list_elem_of_fmap in Hin as (c' & -> & Hin).
      apply countsArray_elem in Hin as [[item' Hitem'] Hc'].
      apply (Hother item' c' Hitem' Hc'). by apply wf_lookup with counts.
    + destruct (saveCounts_db_cases selectedSession selectedShop user role counts
                  sessionError assignmentError upsertError loadError w)
        as [Hdb|(userId & s & _ & _ & _ & Hdb)]; fold w' in Hdb; rewrite Hdb; [done|].
      simpl. apply upsert_lookup_other; [done|].
      intros item' c' Hitem' Hc' [= ?]. by eapply Hother.
  - intros Hall.
    assert (Count.countsArray counts = []) as Hnil.
    { destruct (Count.countsArray counts) as [|c l] eqn:E; [done|].
      assert (c ∈ Count.countsArray counts) as Hin by (rewrite E; left).
      apply countsArray_elem in Hin as [[item Hitem] Hc].
      apply Hall, has_count_quantity in Hitem. congruence. }
    subst w'. count_unfold. rewrite Hnil.
    destruct (Str.truthy selectedSession), (Str.truthy selectedShop); simpl;
      try (handler_unfold; simpl; trace_simpl;
           repeat split; eauto; intros; discriminate).
    destruct user as [userId|]; simpl.
    2: { handler_unfold; simpl; trace_simpl. repeat split; eauto. intros; discriminate. }
    destruct (Str.truthy userId) eqn:Hu; simpl.
    2: { handler_unfold; simpl; trace_simpl. repeat split; eauto.
         intros ? ? _ _ [= <-]. congruence. }
    handler_unfold. destruct sessionError; simpl.
    { trace_simpl. repeat split; eauto. intros; discriminate. }
    destruct (stock_count_sessions (db w) !! selectedSession) as [s|] eqn:Hs; simpl.
    2: { trace_simpl. repeat split; eauto. intros; discriminate. }
    destruct (String.eqb (status s) "active") eqn:Hact; simpl.
    2: { trace_simpl. repeat split; eauto. intros ? ? _ _ _ _ [= <-] Hact'.
         apply String.eqb_neq in Hact. congruence. }
    destruct (String.eqb role "employee") eqn:Hrole; simpl.
    2: { trace_simpl. repeat split; eauto. }
    apply String.eqb_eq in Hrole.
    destruct assignmentError as [e|]; simpl.
    { destruct (String.eqb (code e) "PGRST116"); simpl; trace_simpl;
        repeat split; eauto; intros; discriminate. }
    destruct (filter _ _) as [|a [|a' l]] eqn:Hf; simpl; trace_simpl;
      repeat split; eauto.
    + intros ? ? _ _ [= <-] _ _ _ Hauth. destruct (Hauth Hrole) as [a Ha].
      rewrite Hf in Ha. discriminate.
    + intros ? ? _ _ [= <-] _ _ _ Hauth. destruct (Hauth Hrole) as [a0 Ha].
      rewrite Hf in Ha. discriminate.
Qed.

Lemma saveCounts_skips_zero_witness :
  let w := world Sample.tables [] in
  let w' := run (Count.saveCounts "s1" "shop-1" (Some "emp-1") "employee"
                   Sample.counts_zero None None None None) w in
  stock_counts (db w') !! ("s1", "shop-1", "B") = Some Sample.prior_B
  /\ db w' = db w
  /\ toasts (trace w') = [ToastError Count.nothing_to_save].
Proof.
  intros w w'.
  destruct (saveCounts_skips_zero "s1" "shop-1" (Some "emp-1") "employee"
              Sample.counts_zero None None None None w) as [Hitem Hall].
  - vm_compute. reflexivity.
  - fold w' in Hitem, Hall.
    destruct (Hitem "B" (Sample.count "B" 0 0) eq_refl eq_refl eq_refl) as [_ HB].
    split; [rewrite HB; vm_compute; reflexivity|].
    destruct Hall as (Hdb & _ & _ & Htoast).
    + intros item c Hc. unfold Sample.counts_zero in Hc.
      apply lookup_insert_Some in Hc as [[<- <-]|[_ Hc]]; [by vm_compute|].
      by rewrite lookup_empty in Hc.
    + split; [done|].
      apply (Htoast "emp-1" Sample.march); try reflexivity.
      intros _. eexists. vm_compute. reflexivity.
Defined.

(** ** The counts of the page *)

Lemma counts_wf_iff (counts : gmap string StockCount) :
  counts_wf counts = true <-> forall k c, counts !! k = Some c -> sc_item_id c = k.
Proof.
  unfold counts_wf. rewrite forallb_forall. split.
  - intros Hall k c Hk. apply elem_of_map_to_list, list_elem_of_In, Hall in Hk.
    by apply String.eqb_eq in Hk.
  - intros Hall [k c] Hin. apply list_elem_of_In, elem_of_map_to_list, Hall in Hin.
    by apply String.eqb_eq.
Qed.

Lemma with_field_wf (prev : gmap string StockCount) (itemId : string)
    (f : Count.field) (v : number) :
  counts_wf prev = true -> counts_wf (Count.with_field prev itemId f v) = true.
Proof.
  rewrite !counts_wf_iff. intros Hprev k c. unfold Count.with_field.
  intros [[<- <-]|[_ Hk]]%lookup_insert_Some; [done|]. by apply Hprev.
Qed.

(** The three updaters of the page keep every count under its item id. *)
Lemma updaters_wf (prev : gmap string StockCount) (itemId : string) (f : Count.field)
    (value : number) :
  counts_wf prev = true ->
  counts_wf (Count.updateCount itemId f value prev) = true
  /\ counts_wf (Count.incrementCount itemId f prev) = true
  /\ counts_wf (Count.decrementCount itemId f prev) = true.
Proof.
  intros Hprev. unfold Count.updateCount, Count.incrementCount, Count.decrementCount.
  repeat split; try by apply with_field_wf.
  destruct (Num.gt0 _); [by apply with_field_wf|done].
Qed.

(** [updateCount] stores a value of the range. *)
Lemma updateCount_stores (prev : gmap string StockCount) (itemId : string) (value : number) :
  exists c, Count.updateCount itemId Count.Boxes value prev !! itemId = Some c
            /\ boxes c = Num.of_Z (quantity value).
Proof.
  unfold Count.updateCount, Count.with_field. eexists. rewrite lookup_insert_eq.
  split; [done|]. simpl. apply clamp_quantity.
Qed.

(** So does the reload from the table. *)
Lemma loadExistingCounts_wf (sessionId shopId : string) (error : option PostgrestError)
    (w : World) :
  counts_wf (st_counts (run (Count.loadExistingCounts sessionId shopId error) w)) = true.
Proof.
  unfold Count.loadExistingCounts. handler_unfold.
  destruct error; simpl; [done|].
  generalize (Count.shop_counts (db w) sessionId shopId). intros l.
  assert (counts_wf (∅ : gmap string StockCount) = true) as Hempty by done.
  revert Hempty. generalize (∅ : gmap string StockCount).
  induction l as [|r l IH]; intros m Hm; [done|].
  simpl. apply IH. rewrite counts_wf_iff in *. intros k c.
  intros [[<- <-]|[_ Hk]]%lookup_insert_Some; [done|]. by apply Hm.
Qed.

(** The page starts, and restarts after a failed reload, from no counts. *)
Lemma counts_wf_empty : counts_wf ∅ = true.
Proof. reflexivity. Qed.

(** ** The sessions table under the operations of the ledger *)

Lemma createSession_sessions (sessionName : string) (selectedUserIds : list string)
    (user : option string) (new_id : string)
    (sessionError assignError : option PostgrestError) (w : World) :
  let w' := run (Sessions.createSession sessionName selectedUserIds user new_id
                   sessionError assignError) w in
  stock_count_sessions (db w') = stock_count_sessions (db w)
  \/ (Str.truthy (Str.trim sessionName) = true
      /\ sessionError = None
      /\ stock_count_sessions (db w) !! new_id = None
      /\ stock_count_sessions (db w') =
           <[new_id := {| name := sessionName; status := "active"; created_by := user;
                          completed_at := None |}]> (stock_count_sessions (db w))).
Proof.
  sessions_unfold. destruct (Str.truthy (Str.trim sessionName)); simpl; [|by left].
  handler_unfold. destruct sessionError; simpl; [by left|].
  destruct (stock_count_sessions (db w) !! new_id) eqn:Hnew; simpl; [by left|].
  destruct (Nat.ltb 0 (length selectedUserIds)); simpl; [|by right].
  destruct assignError; simpl; by right.
Qed.

Lemma completeSession_sessions (sessionId : string) (now : Z)
    (checkError error : option PostgrestError) (w : World) :
  let w' := run (Sessions.completeSession sessionId now checkError error) w in
  stock_count_sessions (db w') = stock_count_sessions (db w)
  \/ exists s,
       checkError = None /\ error = None
       /\ stock_count_sessions (db w) !! sessionId = Some s
       /\ status s = "active"
       /\ stock_count_sessions (db w') =
            <[sessionId := Sessions.completed now s]> (stock_count_sessions (db w)).
Proof.
  sessions_unfold. handler_unfold. destruct checkError; simpl; [by left|].
  destruct (stock_count_sessions (db w) !! sessionId) as [s|] eqn:Hs; simpl; [|by left].
  destruct (String.eqb (status s) "active") eqn:Hact; simpl; [|by left].
  destruct error; simpl; [by left|].
  rewrite Hs, Hact. simpl. right. exists s. by apply String.eqb_eq in Hact.
Qed.

Lemma deleteSession_sessions (sessionToDelete : option string)
    (countsError assignError error : option PostgrestError) (w : World) :
  let w' := run (Sessions.deleteSession sessionToDelete countsError assignError error) w in
  stock_count_sessions (db w') = stock_count_sessions (db w)
  \/ exists id, stock_count_sessions (db w') = delete id (stock_count_sessions (db w)).
Proof.
  destruct sessionToDelete as [id|]; [|by left].
  sessions_unfold. destruct (Str.truthy id); simpl; [|by left].
  handler_unfold. destruct countsError, assignError, error; simpl; eauto.
Qed.

Lemma completed_iff_insert (d : Database) (id : string) (s : Session) :
  completed_iff d ->
  (is_Some (completed_at s) <-> status s = "completed") ->
  forall id' s', <[id := s]> (stock_count_sessions d) !! id' = Some s' ->
    is_Some (completed_at s') <-> status s' = "completed".
Proof.
  intros Hinv Hs id' s' [[<- <-]|[_ Hid']]%lookup_insert_Some; [done|].
  by apply (Hinv id').
Qed.

(** C6: every operation of the ledger, whatever fails in it, keeps
    [completed_at] set exactly for the sessions whose status is
    ['completed'].  A session [createSession] adds is ['active'] with no
    [completed_at]; the row [completeSession] writes has the status
    ['completed'] and the time of the call as [completed_at], both set by the
    one update; and both handlers do add and write such a row when nothing
    fails. *)
Theorem completed_at_iff_completed :
  (forall op w, completed_iff (db w) -> completed_iff (db (run (perform op) w)))
  /\ (forall sessionName selectedUserIds user new_id sessionError assignError w id s,
        let w' := run (Sessions.createSession sessionName selectedUserIds user new_id
                         sessionError assignError) w in
        stock_count_sessions (db w') !! id = Some s ->
        stock_count_sessions (db w) !! id = Some s
        \/ (id = new_id /\ status s = "active" /\ completed_at s = None))
  /\ (forall sessionName selectedUserIds user new_id assignError w,
        Str.truthy (Str.trim sessionName) = true ->
        stock_count_sessions (db w) !! new_id = None ->
        let w' := run (Sessions.createSession sessionName selectedUserIds user new_id
                         None assignError) w in
        stock_count_sessions (db w') !! new_id
        = Some {| name := sessionName; status := "active"; created_by := user;
                  completed_at := None |})
  /\ (forall sessionId now checkError error w id s',
        let w' := run (Sessions.completeSession sessionId now checkError error) w in
        stock_count_sessions (db w') !! id = Some s' ->
        stock_count_sessions (db w) !! id = Some s'
        \/ (id = sessionId /\ status s' = "completed" /\ completed_at s' = Some now))
  /\ (forall sessionId now w s,
        stock_count_sessions (db w) !! sessionId = Some s -> status s = "active" ->
        let w' := run (Sessions.completeSession sessionId now None None) w in
        stock_count_sessions (db w') !! sessionId
        = Some {| name := name s; status := "completed"; created_by := created_by s;
                  completed_at := Some now |}).
Proof.
  split; [|split; [|split; [|split]]].
  - intros op w Hinv. destruct op; simpl.
    + destruct (createSession_sessions sessionName selectedUserIds user new_id
                  sessionError assignError w) as [Heq|(_ & _ & _ & Heq)];
        intros id s; rewrite Heq; [apply Hinv|].
      apply completed_iff_insert; [done|]. simpl. split; [by intros [? ?]|done].
    + destruct (completeSession_sessions sessionId now checkError error w)
        as [Heq|(s0 & _ & _ & _ & _ & Heq)];
        intros id s; rewrite Heq; [apply Hinv|].
      apply completed_iff_insert; [done|]. simpl. split; eauto.
    + destruct (deleteSession_sessions sessionToDelete countsError assignError error w)
        as [Heq|(id0 & Heq)]; intros id s; rewrite Heq; [apply Hinv|].
      intros [_ Hid]%lookup_delete_Some. by apply (Hinv id).
    + destruct (saveCounts_db_cases selectedSession selectedShop user role counts
                  sessionError assignmentError upsertError loadError w)
        as [Heq|(u & s0 & _ & _ & _ & Heq)]; intros id s; rewrite Heq; apply Hinv.
  - intros sessionName selectedUserIds user new_id sessionError assignError w id s w'.
    destruct (createSession_sessions sessionName selectedUserIds user new_id
                sessionError assignError w) as [Heq|(_ & _ & _ & Heq)];
      fold w' in Heq; rewrite Heq; [by left|].
    intros [[<- <-]|[_ Hid]]%lookup_insert_Some; [by right|by left].
  - intros sessionName selectedUserIds user new_id assignError w Hname Hnew.
    sessions_unfold. rewrite Hname. simpl. handler_unfold. simpl. rewrite Hnew. simpl.
    destruct (Nat.ltb 0 (length selectedUserIds)); simpl;
      [destruct assignError; simpl|]; apply lookup_insert_eq.
  - intros sessionId now checkError error w id s' w'.
    destruct (completeSession_sessions sessionId now checkError error w)
      as [Heq|(s0 & _ & _ & _ & _ & Heq)]; fold w' in Heq; rewrite Heq; [by left|].
    intros [[<- <-]|[_ Hid]]%lookup_insert_Some; [by right|by left].
  - intros sessionId now w s Hs Hact.
    destruct (completeSession_sessions sessionId now None None w)
      as [Heq|(s0 & _ & _ & Hs0 & _ & Heq)].
    + exfalso. revert Heq. sessions_unfold. handler_unfold. simpl.
      rewrite Hs. simpl. rewrite Hact. simpl. rewrite Hs. simpl. rewrite Hact. simpl.
      intros Heq. assert (Some (Sessions.completed now s) = Some s) as [= Hc].
      { rewrite <- Hs, <- Heq. symmetry. apply lookup_insert_eq. }
      apply (f_equal status) in Hc. simpl in Hc. congruence.
    + simpl. rewrite Heq, lookup_insert_eq. rewrite Hs in Hs0. by injection Hs0 as <-.
Qed.

Lemma sample_completed_iff : completed_iff Sample.tables.
Proof.
  intros id s. unfold Sample.tables. simpl.
  intros [[<- <-]|[_ [[<- <-]|[_ H]]%lookup_insert_Some]]%lookup_insert_Some.
  - simpl. split; [by intros [? ?]|done].
  - simpl. split; eauto.
  - by rewrite lookup_empty in H.
Defined.

Lemma completed_at_iff_completed_witness :
  let w := world Sample.tables [] in
  let w' := run (perform (CompleteSession "s1" 200 None None)) w in
  completed_iff (db w')
  /\ stock_count_sessions (db w') !! "s1"
     = Some {| name := "March"; status := "completed"; created_by := Some "manager-1";
               completed_at := Some 200 |}.
Proof.
  intros w w'. destruct completed_at_iff_completed as (Hinv & _ & _ & _ & Hdone).
  split.
  - apply (Hinv (CompleteSession "s1" 200 None None) w). exact sample_completed_iff.
  - apply (Hdone "s1" 200 w Sample.march); [vm_compute|]; reflexivity.
Defined.

(** ** Completing a session from two clients *)

(** Run alone, the two steps of a client are the handler. *)
Lemma step_twice_is_completeSession (sessionId : string) (t now : Z) (d : Database) :
  let r1 := Race.step sessionId t Race.fresh d in
  let r2 := Race.step sessionId now r1.1 r1.2 in
  let w' := run (Sessions.completeSession sessionId now None None) (world d []) in
  Race.seen r2.1 = trace w' /\ r2.2 = db w' /\ Race.at_ r2.1 = Race.Finished.
Proof.
  unfold Race.step, Race.phase, Race.fresh. sessions_unfold. handler_unfold. simpl.
  destruct (stock_count_sessions d !! sessionId) as [s|] eqn:Hs; simpl; [|done].
  destruct (String.eqb (status s) "active") eqn:Hact; simpl; [|done].
  rewrite Hs. simpl. rewrite Hact. done.
Qed.

(** A step of any client leaves a session that is not ['active'] as it is:
    the conditional update matches no row. *)
Lemma step_keeps_completed (sessionId : string) (now : Z) (c : Race.Client)
    (d : Database) (s : Session) :
  stock_count_sessions d !! sessionId = Some s -> status s <> "active" ->
  (Race.step sessionId now c d).2 = d.
Proof.
  intros Hs Hact. apply String.eqb_neq in Hact.
  unfold Race.step, Race.phase. sessions_unfold. handler_unfold.
  destruct (Race.at_ c); simpl; rewrite ?Hs; simpl; rewrite ?Hact; done.
Qed.

(** Whatever the schedule, a session that is completed keeps its row: it is
    completed once. *)
Lemma run_schedule_keeps_completed (sessionId : string) (sched : list nat)
    (sys : Race.System) (s : Session) :
  stock_count_sessions (Race.shared sys) !! sessionId = Some s ->
  status s <> "active" ->
  Race.shared (Race.run_schedule sessionId sched sys) = Race.shared sys.
Proof.
  intros Hs Hact. revert sys Hs. induction sched as [|i sched IH]; intros sys Hs; [done|].
  unfold Race.run_schedule in *. simpl.
  assert (Race.shared (Race.sched_step sessionId sys i) = Race.shared sys) as Hstep.
  { unfold Race.sched_step. destruct (Race.clients sys !! i); [|done]. simpl.
    by eapply step_keeps_completed. }
  rewrite IH; rewrite Hstep; done.
Qed.

(** A step of a client keeps [completed_at] set exactly for the completed
    sessions. *)
Lemma step_preserves_completed_iff (sessionId : string) (now : Z) (c : Race.Client)
    (d : Database) :
  completed_iff d -> completed_iff (Race.step sessionId now c d).2.
Proof.
  intros Hinv. unfold Race.step, Race.phase. sessions_unfold. handler_unfold.
  destruct (Race.at_ c); simpl; [| |done].
  - destruct (stock_count_sessions d !! sessionId) as [s|]; simpl; [|done].
    by destruct (String.eqb (status s) "active").
  - destruct (stock_count_sessions d !! sessionId) as [s|] eqn:Hs; simpl; [|done].
    destruct (String.eqb (status s) "active"); simpl; [|done].
    intros id s'. simpl. apply completed_iff_insert; [done|]. simpl. split; eauto.
Qed.

(** One after the other, the second caller is told the session is already
    completed. *)
Lemma complete_twice_in_turn :
  let sys := Race.run_schedule "s1" [0; 0; 1; 1]%nat
               {| Race.clock := 200; Race.shared := Sample.tables;
                  Race.clients := [Race.fresh; Race.fresh] |} in
  map Race.observes_success (Race.clients sys) = [true; false]
  /\ map Race.observes_already_completed (Race.clients sys) = [false; true]
  /\ stock_count_sessions (Race.shared sys) !! "s1"
     = Some (Sessions.completed 201 Sample.march).
Proof. vm_compute. done. Qed.

(** C2: two [completeSession] calls for the active session [s1] whose status
    checks both reach the database before either update.  The first update
    completes the session; the second matches no row and changes nothing, so
    the session is completed once, at the time of the first update.  Yet both
    callers are shown the success toast and neither is shown the toast of an
    already completed session. *)
Theorem completeSession_race_both_succeed :
  let sys := Race.run_schedule "s1" [0; 1; 0; 1]%nat
               {| Race.clock := 200; Race.shared := Sample.tables;
                  Race.clients := [Race.fresh; Race.fresh] |} in
  map Race.at_ (Race.clients sys) = [Race.Finished; Race.Finished]
  /\ map Race.observes_success (Race.clients sys) = [true; true]
  /\ map Race.observes_already_completed (Race.clients sys) = [false; false]
  /\ map Race.seen (Race.clients sys)
     = [[Request (SelectSessionStatus "s1"); Request (UpdateSessionCompleted "s1" 202);
         ToastSuccess Sessions.completed_successfully];
        [Request (SelectSessionStatus "s1"); Request (UpdateSessionCompleted "s1" 203);
         ToastSuccess Sessions.completed_successfully]]
  /\ stock_count_sessions (Race.shared sys) !! "s1"
     = Some (Sessions.completed 202 Sample.march).
Proof. vm_compute. done. Qed.

(** ** The bulk import *)

Lemma category_of_normal (unique_names : bool) (categories : list Category)
    (row : Products.ImportRow) (env : Products.RowEnv) (w : World) :
  exists categoryId w',
    Products.category_of unique_names categories row env w = (Normal categoryId, w').
Proof.
  unfold Products.category_of, Products.insert_category. handler_unfold.
  destruct (Str.truthy (Products.r_category row)); [|by eexists _, _].
  destruct (Products.find_category _ _); [by eexists _, _|].
  destruct (Products.catError env); simpl; [by eexists _, _|].
  destruct (_ || _); simpl; by eexists _, _.
Qed.

(** The loop visits every row and never throws: each row with a name is
    counted once, as a success or as an error. *)
Lemma import_loop_counts (unique_names : bool) (categories : list Category)
    (rows : list (Products.ImportRow * Products.RowEnv)) (successCount errorCount : nat)
    (w : World) :
  exists s e,
    (Products.import_loop unique_names categories rows successCount errorCount w).1
    = Normal (s, e)
    /\ (s + e = successCount + errorCount
                + length (List.filter ImportSample.has_name rows))%nat.
Proof.
  revert successCount errorCount w.
  induction rows as [|[row env] rows IH]; intros sc ec w.
  { exists sc, ec. simpl. split; [done|lia]. }
  simpl. unfold ImportSample.has_name at 1. simpl.
  destruct (Str.truthy (Str.trim (Products.r_name row))); simpl; [|apply IH].
  unfold bind at 1.
  destruct (category_of_normal unique_names categories row env w) as (cid & w1 & ->).
  unfold Products.insert_item. handler_unfold.
  destruct (Products.itemError env); simpl.
  - match goal with |- context [Products.import_loop _ _ _ sc (S ec) ?w'] =>
      destruct (IH sc (S ec) w') as (s & e & Hr & Hsum) end.
    exists s, e. split; [exact Hr|lia].
  - destruct (bool_decide _); simpl.
    + match goal with |- context [Products.import_loop _ _ _ sc (S ec) ?w'] =>
        destruct (IH sc (S ec) w') as (s & e & Hr & Hsum) end.
      exists s, e. split; [exact Hr|lia].
    + match goal with |- context [Products.import_loop _ _ _ (S sc) ec ?w'] =>
        destruct (IH (S sc) ec w') as (s & e & Hr & Hsum) end.
      exists s, e. split; [exact Hr|lia].
Qed.

(** C8: the import of two products of the new category "Snacks".  The
    second row looks the category up in the array the handler closed over,
    which the first row's [setCategories] did not change, does not find it
    and asks for it to be created again.  When the table accepts equal
    names, the category exists twice afterwards; when it refuses them, the
    second product is stored without a category. *)
Theorem import_new_category_not_reused :
  let run_import unique_names :=
    run (Products.handleFileImport unique_names (st_categories ImportSample.page)
           ImportSample.rows) ImportSample.page in
  writes (trace (run_import false))
  = [InsertCategory "Snacks"; InsertItem "Crisps" "12" (Some "c-1");
     InsertCategory "Snacks"; InsertItem "Nuts" "6" (Some "c-2")]
  /\ categories (db (run_import false))
     = [Sample.drinks; Sample.food;
        {| cat_id := "c-1"; cat_name := "Snacks" |};
        {| cat_id := "c-2"; cat_name := "Snacks" |}]
  /\ writes (trace (run_import true))
     = [InsertCategory "Snacks"; InsertItem "Crisps" "12" (Some "c-1");
        InsertCategory "Snacks"; InsertItem "Nuts" "6" None]
  /\ categories (db (run_import true))
     = [Sample.drinks; Sample.food; {| cat_id := "c-1"; cat_name := "Snacks" |}]
  /\ toasts (trace (run_import false)) = [ToastSuccess "Imported 2 product(s)"]
  /\ toasts (trace (run_import true)) = [ToastSuccess "Imported 2 product(s)"].
Proof. vm_compute. done. Qed.

(** ** The export *)

Lemma flat_map_ext_elem {A B} (f g : A -> list B) (l : list A) :
  (forall a, a ∈ l -> f a = g a) -> flat_map f l = flat_map g l.
Proof.
  induction l as [|a l IH]; intros Hfg; [done|].
  simpl. rewrite IH by (intros; apply Hfg; by right). f_equal. apply Hfg. by left.
Qed.

Lemma filter_flat_map {A B} (p : B -> bool) (f : A -> list B) (l : list A) :
  List.filter p (flat_map f l) = flat_map (fun a => List.filter p (f a)) l.
Proof.
  induction l as [|a l IH]; [done|]. simpl. by rewrite List.filter_app, IH.
Qed.

Section ExportFacts.

Lemma shopItemsMap_lookup (shopItems : list (string * string)) (shop item : string) :
  item ∈ default ∅ (Excel.build_shopItemsMap shopItems !! shop)
  <-> (shop, item) ∈ shopItems.
Proof.
  unfold Excel.build_shopItemsMap.
  assert (forall m : gmap string (gset string),
            item ∈ default ∅
              (foldl (fun m si => <[si.1 := default ∅ (m !! si.1) ∪ {[si.2]}]> m)
                     m shopItems !! shop)
            <-> item ∈ default ∅ (m !! shop) \/ (shop, item) ∈ shopItems) as Hgen.
  { induction shopItems as [|[sh it] l IH]; intros m; simpl.
    - rewrite elem_of_nil. tauto.
    - rewrite IH, elem_of_cons. destruct (decide (sh = shop)) as [->|Hne].
      + rewrite lookup_insert_eq. simpl. rewrite elem_of_union, elem_of_singleton.
        split; [intros [[?| ->]|?]|intros [?|[Heq|?]]]; eauto.
        injection Heq as ->. eauto.
      + rewrite lookup_insert_ne by done.
        split; [intros [?|?]|intros [?|[Heq|?]]]; eauto. congruence. }
  rewrite Hgen, lookup_empty. simpl. rewrite elem_of_empty. tauto.
Qed.

Lemma shopItemsMap_Permutation (shopItems shopItems' : list (string * string))
    (shop : string) :
  shopItems ≡ₚ shopItems' ->
  default ∅ (Excel.build_shopItemsMap shopItems !! shop)
  = default (∅ : gset string) (Excel.build_shopItemsMap shopItems' !! shop).
Proof.
  intros Hp. apply set_eq. intros item. rewrite !shopItemsMap_lookup. by rewrite Hp.
Qed.

Variables (categories : list Category) (items : list Item).
Variable countsMap : gmap string (Z * Z).
Variable shop : Shop.

Lemma itemsByCategory_lookup (filtered : list Item) (cat : Category) :
  cat ∈ categories ->
  exists cat',
    foldl (fun (m : gmap string (Category * list Item)) cat =>
             <[cat_id cat :=
                 (cat, filter (fun item => category_id item = Some (cat_id cat))
                              filtered)]> m)
          ∅ categories !! cat_id cat
    = Some (cat', filter (fun item => category_id item = Some (cat_id cat)) filtered).
Proof.
  intros Hin.
  assert (forall m : gmap string (Category * list Item),
    cat ∈ categories
    \/ (exists cat', m !! cat_id cat
          = Some (cat', filter (fun item => category_id item = Some (cat_id cat)) filtered)) ->
    exists cat',
      foldl (fun (m : gmap string (Category * list Item)) cat =>
               <[cat_id cat :=
                   (cat, filter (fun item => category_id item = Some (cat_id cat))
                                filtered)]> m)
            m categories !! cat_id cat
      = Some (cat', filter (fun item => category_id item = Some (cat_id cat)) filtered))
    as Hgen; [|by apply Hgen; left].
  clear Hin. induction categories as [|c l IH]; intros m [Hin|Hm]; simpl.
  - by apply elem_of_nil in Hin.
  - done.
  - apply IH. apply elem_of_cons in Hin as [->|Hin]; [right|by left].
    exists c. apply lookup_insert_eq.
  - apply IH. right. destruct (decide (cat_id c = cat_id cat)) as [Heq|Hne].
    + exists c. rewrite Heq. apply lookup_insert_eq.
    + by rewrite lookup_insert_ne.
Qed.

(** A sheet is the categories in order, each with its header, its items
    and an empty row, the categories without items of the shop left out. *)
Lemma sheetData_blocks (shopItemsMap : gmap string (gset string)) :
  Excel.sheetData categories shopItemsMap items countsMap shop
  = flat_map
      (fun cat =>
         let its := Excel.block_items (default ∅ (shopItemsMap !! shop_id shop)) items cat in
         if Nat.eqb (length its) 0 then []
         else ([[Text (cat_name cat)]; Excel.header_row]
                 ++ map (Excel.item_row countsMap shop) its ++ [[]])%list)
      categories.
Proof.
  unfold Excel.sheetData. cbv zeta. apply flat_map_ext_elem. intros cat Hcat.
  destruct (itemsByCategory_lookup
              (filter (fun item => item_id item ∈ default ∅ (shopItemsMap !! shop_id shop))
                      items) cat Hcat) as [cat' Hc].
  rewrite Hc. done.
Qed.

Lemma item_rows_block (its : list Item) (title : string) :
  Excel.item_rows ([[Text title]; Excel.header_row]
                     ++ map (Excel.item_row countsMap shop) its ++ [[]])%list
  = map (Excel.item_row countsMap shop) its.
Proof.
  unfold Excel.item_rows. simpl. rewrite List.filter_app. simpl. rewrite app_nil_r.
  induction its as [|it its IH]; [done|]. simpl. by rewrite IH.
Qed.

(** The item data rows of a sheet. *)
Lemma sheetData_item_rows (shopItemsMap : gmap string (gset string)) :
  Excel.item_rows (Excel.sheetData categories shopItemsMap items countsMap shop)
  = flat_map
      (fun cat => map (Excel.item_row countsMap shop)
                      (Excel.block_items (default ∅ (shopItemsMap !! shop_id shop)) items cat))
      categories.
Proof.
  rewrite sheetData_blocks. unfold Excel.item_rows at 1. rewrite filter_flat_map.
  apply flat_map_ext_elem. intros cat _. cbv zeta.
  destruct (Excel.block_items _ items cat) as [|it its] eqn:E; [done|].
  change (if Nat.eqb (length (it :: its)) 0 then _ else ?b) with b.
  apply item_rows_block.
Qed.

End ExportFacts.

Lemma flat_map_map {A B C} (r : B -> C) (g : A -> list B) (l : list A) :
  flat_map (fun a => map r (g a)) l = map r (flat_map g l).
Proof.
  induction l as [|a l IH]; [done|]. simpl. by rewrite IH, map_app.
Qed.

Lemma flat_map_Permutation {A B} (f g : A -> list B) (l l' : list A) :
  l ≡ₚ l' -> (forall a, f a ≡ₚ g a) -> flat_map f l ≡ₚ flat_map g l'.
Proof.
  intros Hp Hfg. etrans; [apply Permutation_flat_map, Hp|].
  clear Hp. induction l' as [|a l' IH]; [done|]. simpl. by rewrite IH, Hfg.
Qed.

Section CountByCategory.

Variable F : list Item.

Lemma filter_category_split (c : Category) (cats : list Category) :
  cat_id c ∉ map cat_id cats ->
  (length (filter (fun item => category_id item = Some (cat_id c)) F)
   + length (filter (fun item =>
                       category_id item ∈ map (fun c => Some (cat_id c)) cats) F)
   = length (filter (fun item =>
                       category_id item ∈ map (fun c => Some (cat_id c)) (c :: cats)) F))%nat.
Proof.
  intros Hc. induction F as [|item l IH]; [done|].
  rewrite !filter_cons.
  assert (category_id item = Some (cat_id c) ->
          category_id item ∈ map (fun c => Some (cat_id c)) cats -> False) as Hdisj.
  { intros Heq Hin. apply Hc. rewrite Heq in Hin.
    apply list_elem_of_fmap in Hin as (c' & [= Hc'] & Hin).
    apply list_elem_of_fmap. by exists c'. }
  assert (category_id item ∈ map (fun c => Some (cat_id c)) (c :: cats)
          <-> category_id item = Some (cat_id c)
              \/ category_id item ∈ map (fun c => Some (cat_id c)) cats) as Hcons
    by apply elem_of_cons.
  repeat case_decide; cbn [length]; first [lia | exfalso; tauto].
Qed.

Lemma count_by_category (cats : list Category) :
  NoDup (map cat_id cats) ->
  length (flat_map (fun cat => filter (fun item => category_id item = Some (cat_id cat)) F)
                   cats)
  = length (filter (fun item =>
                      category_id item ∈ map (fun c => Some (cat_id c)) cats) F).
Proof.
  induction cats as [|c cats IH]; intros Hnd.
  - simpl. clear. induction F as [|item l IH]; [done|].
    rewrite filter_cons. case_decide as H; [by apply elem_of_nil in H|done].
  - simpl in Hnd. apply NoDup_cons in Hnd as [Hc Hnd].
    simpl flat_map. rewrite length_app, IH by done. by apply filter_category_split.
Qed.

End CountByCategory.

(** [countsMap] at a key that only counts of one value carry. *)
Lemma countsMap_lookup_Some (counts : list CountRecord) (k : string) (v : Z * Z) :
  (forall c, c ∈ counts ->
     Excel.count_key (rec_shop_id c) (rec_item_id c) = k ->
     (rec_boxes c, rec_singles c) = v) ->
  (exists c, c ∈ counts /\ Excel.count_key (rec_shop_id c) (rec_item_id c) = k) ->
  Excel.build_countsMap counts !! k = Some v.
Proof.
  intros Hv Hex. unfold Excel.build_countsMap.
  assert (forall m : gmap string (Z * Z),
            m !! k = Some v
            \/ (exists c, c ∈ counts
                          /\ Excel.count_key (rec_shop_id c) (rec_item_id c) = k) ->
            foldl (fun m count =>
                     <[Excel.count_key (rec_shop_id count) (rec_item_id count)
                         := (rec_boxes count, rec_singles count)]> m) m counts !! k
            = Some v) as Hgen; [|by apply Hgen; right].
  clear Hex. induction counts as [|c l IH]; intros m Hm.
  { destruct Hm as [Hm|(c & Hc & _)]; [done|]. by apply elem_of_nil in Hc. }
  simpl. apply IH.
  { intros c' Hc'. apply Hv. by right. }
  destruct (decide (Excel.count_key (rec_shop_id c) (rec_item_id c) = k)) as [Hk|Hk].
  - left. rewrite <- (Hv c ltac:(by left) Hk), <- Hk. apply lookup_insert_eq.
  - rewrite lookup_insert_ne by done.
    destruct Hm as [Hm|(c' & [->|Hc']%elem_of_cons & Hk')]; [by left|done|].
    right. by exists c'.
Qed.

Lemma countsMap_lookup_None (counts : list CountRecord) (k : string) :
  (forall c, c ∈ counts -> Excel.count_key (rec_shop_id c) (rec_item_id c) <> k) ->
  Excel.build_countsMap counts !! k = None.
Proof.
  unfold Excel.build_countsMap.
  assert (forall m : gmap string (Z * Z),
            (forall c, c ∈ counts ->
               Excel.count_key (rec_shop_id c) (rec_item_id c) <> k) ->
            foldl (fun m count =>
                     <[Excel.count_key (rec_shop_id count) (rec_item_id count)
                         := (rec_boxes count, rec_singles count)]> m) m counts !! k
            = m !! k) as Hgen.
  { induction counts as [|c l IH]; intros m Hne; [done|]. simpl.
    rewrite IH by (intros; apply Hne; by right).
    apply lookup_insert_ne. apply Hne. by left. }
  intros Hne. by rewrite Hgen.
Qed.

Lemma count_key_inj (sh it sh' it' : string) :
  String.length sh = String.length sh' ->
  Excel.count_key sh it = Excel.count_key sh' it' -> sh = sh' /\ it = it'.
Proof.
  unfold Excel.count_key. revert sh'.
  induction sh as [|a sh IH]; intros [|a' sh'] Hlen Heq; try discriminate.
  - change (String "-" it = String "-" it') in Heq. by injection Heq as ->.
  - change (String a (sh +:+ "-" +:+ it) = String a' (sh' +:+ "-" +:+ it')) in Heq.
    injection Hlen as Hlen. injection Heq as -> Heq.
    by destruct (IH sh' Hlen Heq) as [-> ->].
Qed.

(** Shop ids of one length, as generated identifiers are, give unambiguous
    keys. *)
Lemma fixed_length_unambiguous (d : Database) (sessionId : string) (shop : Shop) :
  (forall sh it, is_Some (stock_counts d !! (sessionId, sh, it)) ->
     String.length sh = String.length (shop_id shop)) ->
  Excel.keys_unambiguous d sessionId shop.
Proof.
  intros Hlen sh it sh' it' Hin Hin'. apply count_key_inj.
  rewrite (Hlen sh it Hin). destruct Hin' as [->|Hin']; [done|].
  by rewrite (Hlen sh' it' Hin').
Qed.

Section Persisted.

Variables (d : Database) (sessionId : string).

Lemma elem_of_session_counts (c : CountRecord) :
  c ∈ Excel.session_counts d sessionId <->
  exists sh it r,
    stock_counts d !! (sessionId, sh, it) = Some r
    /\ c = Excel.to_record ((sessionId, sh, it), r).
Proof.
  unfold Excel.session_counts. rewrite list_elem_of_fmap. split.
  - intros ([[[s sh] it] r] & -> & Hin).
    apply list_elem_of_filter in Hin as [Hs Hin]. simpl in Hs. subst s.
    apply elem_of_map_to_list in Hin. by exists sh, it, r.
  - intros (sh & it & r & Hr & ->). exists ((sessionId, sh, it), r). split; [done|].
    apply list_elem_of_filter. split; [done|]. by apply elem_of_map_to_list.
Qed.

Variable shop : Shop.
Hypothesis unambiguous : Excel.keys_unambiguous d sessionId shop.

(** An item row of the export shows what the table holds for the item. *)
Lemma item_row_persisted (item : Item) :
  Excel.item_row (Excel.build_countsMap (Excel.session_counts d sessionId)) shop item
  = Excel.persisted_row d sessionId shop item.
Proof.
  unfold Excel.item_row, Excel.persisted_row, Excel.persisted_count.
  destruct (stock_counts d !! (sessionId, shop_id shop, item_id item)) as [r|] eqn:E.
  - rewrite (countsMap_lookup_Some _ _ (row_boxes r, row_singles r)); [done| |].
    + intros c (sh & it & r' & Hr' & ->)%elem_of_session_counts Hk. simpl in *.
      destruct (unambiguous sh it (shop_id shop) (item_id item)) as [-> ->];
        [by eexists|by left|done|]. congruence.
    + exists (Excel.to_record ((sessionId, shop_id shop, item_id item), r)).
      split; [|done]. apply elem_of_session_counts. by eexists _, _, _.
  - rewrite countsMap_lookup_None; [done|].
    intros c (sh & it & r' & Hr' & ->)%elem_of_session_counts Hk. simpl in *.
    destruct (unambiguous sh it (shop_id shop) (item_id item)) as [-> ->];
      [by eexists|by left|done|]. congruence.
Qed.

Lemma session_counts_keys_NoDup :
  NoDup (map (fun c => Excel.count_key (rec_shop_id c) (rec_item_id c))
             (Excel.session_counts d sessionId)).
Proof.
  unfold Excel.session_counts. rewrite map_map.
  apply NoDup_fmap_2_strong.
  2: { apply NoDup_filter, NoDup_map_to_list. }
  intros [[[s sh] it] r] [[[s' sh'] it'] r'] Hin Hin' Hk. simpl in Hk.
  apply list_elem_of_filter in Hin as [Hs Hin], Hin' as [Hs' Hin']. simpl in *.
  subst s s'. apply elem_of_map_to_list in Hin, Hin'.
  destruct (unambiguous sh it sh' it') as [-> ->]; [by eexists|right; by eexists|done|].
  congruence.
Qed.

End Persisted.

Lemma countsMap_Permutation (counts counts' : list CountRecord) :
  NoDup (map (fun c => Excel.count_key (rec_shop_id c) (rec_item_id c)) counts) ->
  counts ≡ₚ counts' ->
  Excel.build_countsMap counts = Excel.build_countsMap counts'.
Proof.
  intros Hnd Hp. unfold Excel.build_countsMap.
  pose (g := fun c => (Excel.count_key (rec_shop_id c) (rec_item_id c),
                       (rec_boxes c, rec_singles c))).
  rewrite <- !(foldl_fmap (fun (m : gmap string (Z * Z)) kv => <[kv.1 := kv.2]> m) ∅ _ g).
  apply insert_all_Permutation; [|by apply fmap_Permutation].
  by rewrite <- list_fmap_compose.
Qed.

(** The sheets of a workbook hold, in order, the rows handed to the
    library. *)
Lemma append_sheets_data (book_append_sheet : Excel.SheetNames)
    (todo sheets res : list (string * list (list cell))) :
  Excel.append_sheets book_append_sheet sheets todo = Data res ->
  map snd res = (map snd sheets ++ map snd todo)%list.
Proof.
  revert sheets. induction todo as [|[name data] todo IH]; intros sheets; simpl.
  - intros [= <-]. by rewrite app_nil_r.
  - destruct (book_append_sheet (map fst sheets) name) as [stored|e]; [|done].
    intros H%IH. rewrite H, map_app, <- app_assoc. done.
Qed.

Lemma workbook_data (book_append_sheet : Excel.SheetNames) (shops : list Shop)
    (categories : list Category) (shopItems : list (string * string)) (items : list Item)
    (counts : list CountRecord) (sheets : list (string * list (list cell))) :
  Excel.workbook book_append_sheet shops categories shopItems items counts = Data sheets ->
  map snd sheets = map (Excel.shop_sheet categories shopItems items counts) shops.
Proof.
  intros H%append_sheets_data. rewrite H. unfold Excel.shop_sheets. simpl.
  by rewrite map_map.
Qed.

(** The files a trace wrote, over two pieces of it. *)
Lemma files_app (a b : list event) :
  SessionsView.files (a ++ b) = (SessionsView.files a ++ SessionsView.files b)%list.
Proof. unfold SessionsView.files. apply omap_app. Qed.

(** With the selects answered and a shop in the table, [downloadExcel]
    writes the workbook of the tables when the library accepts every sheet
    name, and otherwise writes nothing and reports the library's error. *)
Lemma downloadExcel_writes (book_append_sheet : Excel.SheetNames)
    (sessionId sessionName : string) (w : World) :
  shops (db w) <> [] ->
  let w' := run (Excel.downloadExcel book_append_sheet sessionId sessionName
                   None None None None None) w in
  let selects :=
    [Request SelectShops; Request SelectCategories; Request (SelectShopItems None);
     Request (SelectItems None); Request (SelectStockCounts sessionId None)] in
  db w' = db w
  /\ trace w' =
       (trace w ++ selects
          ++ match Excel.workbook book_append_sheet (shops (db w)) (categories (db w))
                     (shop_items (db w)) (items (db w))
                     (Excel.session_counts (db w) sessionId) with
             | Data sheets =>
                 [WriteFile (sessionName ++ ".xlsx") sheets;
                  ToastSuccess "Excel file downloaded successfully!"]
             | Err e =>
                 [ConsoleError "Error generating Excel:" e;
                  ToastError ("Error generating Excel file: " ++ message_or_unknown e)]
             end)%list.
Proof.
  intros Hshops. unfold Excel.downloadExcel, Excel.select_table. handler_unfold. simpl.
  destruct (shops (db w)) as [|shop l] eqn:E; [done|]. simpl.
  destruct (Excel.workbook _ _ _ _ _ _) as [sheets|e]; simpl;
    rewrite <- !app_assoc; done.
Qed.

Section ExportRows.

Variables (d : Database) (sessionId : string) (shop : Shop).

Lemma assigned_filter (shopItems : list (string * string)) (items : list Item) :
  filter (fun item => item_id item
                      ∈ default ∅ (Excel.build_shopItemsMap shopItems !! shop_id shop))
         items
  = Excel.assigned_items shopItems items shop.
Proof.
  unfold Excel.assigned_items. apply list_filter_iff. intros item.
  apply shopItemsMap_lookup.
Qed.

(** C7 (amended): the file [downloadExcel] writes holds, shop by shop, the
    sheet of the shop.  The item data rows of that sheet are, category by
    category in the order of the categories, the rows of the items
    assigned to the shop that carry the category's id; with categories of
    distinct ids their number is the number of assigned items whose
    category is one of the categories: an assigned item without category
    has no row.  When the keys of the counts are unambiguous, each row
    has the boxes and singles the table holds for the session, shop and
    item, or 0 and 0, and fetching the categories, the assignments, the
    items and the counts in another order gives the same rows up to their
    order.  Fetching the shops in another order hands the same sheets to
    the library, up to their order. *)
Theorem export_rows_of_assigned_items :
  let counts := Excel.session_counts d sessionId in
  let rows := Excel.item_rows
                (Excel.shop_sheet (categories d) (shop_items d) (items d) counts shop) in
  (forall book_append_sheet sessionName w sheets,
     db w = d -> shops d <> [] ->
     Excel.workbook book_append_sheet (shops d) (categories d) (shop_items d) (items d)
       counts = Data sheets ->
     SessionsView.files
       (trace (run (Excel.downloadExcel book_append_sheet sessionId sessionName
                      None None None None None) w))
     = (SessionsView.files (trace w) ++ [((sessionName ++ ".xlsx")%string, sheets)])%list
     /\ map snd sheets
        = map (Excel.shop_sheet (categories d) (shop_items d) (items d) counts)
              (shops d))
  /\ rows = flat_map
              (fun cat =>
                 map (Excel.item_row (Excel.build_countsMap counts) shop)
                     (filter (fun item => category_id item = Some (cat_id cat))
                             (Excel.assigned_items (shop_items d) (items d) shop)))
              (categories d)
  /\ (NoDup (map cat_id (categories d)) ->
      length rows
      = length (filter (fun item =>
                          category_id item
                          ∈ map (fun c => Some (cat_id c)) (categories d))
                       (Excel.assigned_items (shop_items d) (items d) shop)))
  /\ (Excel.keys_unambiguous d sessionId shop ->
      (forall item,
         Excel.item_row (Excel.build_countsMap counts) shop item
         = Excel.persisted_row d sessionId shop item)
      /\ (forall categories' shopItems' items' counts',
            categories' ≡ₚ categories d -> shopItems' ≡ₚ shop_items d ->
            items' ≡ₚ items d -> counts' ≡ₚ counts ->
            Excel.item_rows (Excel.shop_sheet categories' shopItems' items' counts' shop)
            ≡ₚ rows))
  /\ (forall shops',
        shops' ≡ₚ shops d ->
        Excel.shop_sheets shops' (categories d) (shop_items d) (items d) counts
        ≡ₚ Excel.shop_sheets (shops d) (categories d) (shop_items d) (items d) counts).
Proof.
  intros counts rows.
  assert (rows = flat_map
           (fun cat =>
              map (Excel.item_row (Excel.build_countsMap counts) shop)
                  (filter (fun item => category_id item = Some (cat_id cat))
                          (Excel.assigned_items (shop_items d) (items d) shop)))
           (categories d)) as Hrows.
  { subst rows. unfold Excel.shop_sheet. rewrite sheetData_item_rows.
    unfold Excel.block_items. by rewrite assigned_filter. }
  split; [|split; [done|split; [|split]]].
  - intros book_append_sheet sessionName w sheets Hd Hshops Hbook.
    destruct (downloadExcel_writes book_append_sheet sessionId sessionName w)
      as [_ Htrace]; [by rewrite Hd|].
    rewrite Htrace, Hd. fold counts. rewrite Hbook. split.
    + by rewrite !files_app.
    + by apply workbook_data with book_append_sheet.
  - intros Hnd. rewrite Hrows, flat_map_map, length_map. by apply count_by_category.
  - intros Hkeys. split; [intros item; by apply item_row_persisted|].
    intros categories' shopItems' items' counts' Hc Hs Hi Hn.
    rewrite Hrows. unfold Excel.shop_sheet. rewrite sheetData_item_rows.
    unfold Excel.block_items. rewrite assigned_filter.
    assert (Excel.build_countsMap counts' = Excel.build_countsMap counts) as ->.
    { symmetry. apply countsMap_Permutation; [|done].
      by apply session_counts_keys_NoDup with shop. }
    apply flat_map_Permutation; [done|]. intros cat.
    assert (Excel.assigned_items shopItems' items' shop
            ≡ₚ Excel.assigned_items (shop_items d) (items d) shop) as ->.
    { unfold Excel.assigned_items. rewrite Hi.
      erewrite list_filter_iff; [reflexivity|]. intros item. simpl. by rewrite Hs. }
    done.
  - intros shops' Hshops. unfold Excel.shop_sheets. by apply fmap_Permutation.
Qed.

End ExportRows.

(** Against C7 as stated, on three points.  On the sheet of the shop North
    of the sample, Apples and Beans of the category Food are listed; Cola,
    assigned to the shop as they are but without category, is not: two rows
    for three assigned items.  In the tables of [Corner], the row of the
    Tea in packs of 20 on the sheet of the shop Left shows the count of
    Rice in the shop Right, whose key is written alike, where the table
    holds no count for that Tea in Left.  And the same tables with the two
    items of the name Tea fetched in the other order, which a select in the
    order of the names may as well return, give the rows of that sheet in
    another order. *)
Lemma export_rows_differ_from_the_claim :
  (let d := Sample.tables in
   let sheet := Excel.shop_sheet (categories d) (shop_items d) (items d)
                  (Excel.session_counts d "s1") Sample.north in
   sheet = [[Text "Food"]; Excel.header_row;
            [Text "Apples"; Text "12"; Number 0; Number 0];
            [Text "Beans"; Text "6"; Number 2; Number 2];
            []]
   /\ length (Excel.item_rows sheet) = 2%nat
   /\ length (Excel.assigned_items (shop_items d) (items d) Sample.north) = 3%nat)
  /\ (let d := Corner.tables in
      Excel.item_rows
        (Excel.shop_sheet (categories d) (shop_items d) (items d)
           (Excel.session_counts d "s1") Corner.left)
      = [[Text "Tea"; Text "20"; Number 1; Number 1];
         [Text "Tea"; Text "100"; Number 0; Number 0];
         [Text "Rice"; Text "5"; Number 0; Number 0]]
      /\ Excel.persisted_count d "s1" Corner.left Corner.tea = (0, 0)
      /\ Excel.item_rows
           (Excel.shop_sheet (categories d) (shop_items d)
              [Corner.rice; Corner.tea_bags; Corner.tea]
              (Excel.session_counts d "s1") Corner.left)
         = [[Text "Tea"; Text "100"; Number 0; Number 0];
            [Text "Tea"; Text "20"; Number 1; Number 1];
            [Text "Rice"; Text "5"; Number 0; Number 0]]).
Proof. vm_compute. repeat split. Qed.

Lemma sample_keys_unambiguous : Excel.keys_unambiguous Sample.tables "s1" Sample.north.
Proof.
  apply fixed_length_unambiguous. intros sh it [r Hr]. unfold Sample.tables in Hr.
  simpl in Hr. apply lookup_insert_Some in Hr as [[Hk _]|[_ Hr]]; [by simplify_eq|].
  by rewrite lookup_empty in Hr.
Defined.

Lemma export_rows_of_assigned_items_witness :
  let d := Sample.tables in
  Excel.item_rows
    (Excel.shop_sheet (categories d) (shop_items d) (items d)
       (Excel.session_counts d "s1") Sample.north)
  = [[Text "Apples"; Text "12"; Number 0; Number 0];
     [Text "Beans"; Text "6"; Number 2; Number 2]]
  /\ Excel.item_row (Excel.build_countsMap (Excel.session_counts d "s1")) Sample.north
       Sample.item_B
     = Excel.persisted_row d "s1" Sample.north Sample.item_B.
Proof.
  intros d.
  destruct (export_rows_of_assigned_items d "s1" Sample.north)
    as (_ & Hrows & _ & Hkeys & _).
  destruct (Hkeys sample_keys_unambiguous) as [Hrow _].
  split; [|apply Hrow]. etrans; [exact Hrows|]. vm_compute. reflexivity.
Defined.

(** ** A shop without assigned items *)

Lemma filter_none {A} (P : A -> Prop) `{forall x, Decision (P x)} (l : list A) :
  (forall x, x ∈ l -> ~ P x) -> filter P l = [].
Proof.
  induction l as [|x l IH]; intros Hl; [done|].
  rewrite filter_cons_False by (apply Hl; by left). apply IH. intros; apply Hl; by right.
Qed.

(** The sheet of a shop without a row in [shop_items] has no row at all. *)
Lemma unassigned_sheet_nil (categories : list Category)
    (shopItems : list (string * string)) (items : list Item) (counts : list CountRecord)
    (shop : Shop) :
  (forall si, si ∈ shopItems -> si.1 <> shop_id shop) ->
  Excel.shop_sheet categories shopItems items counts shop = [].
Proof.
  intros Hnone. unfold Excel.shop_sheet. rewrite sheetData_blocks. unfold Excel.block_items.
  assert (filter (fun item => item_id item
                    ∈ default ∅ (Excel.build_shopItemsMap shopItems !! shop_id shop))
                 items = []) as ->.
  { apply filter_none. intros item _ Hin. apply shopItemsMap_lookup in Hin.
    by apply (Hnone _ Hin). }
  transitivity (flat_map (fun _ : Category => @nil (list cell)) categories);
    [by apply flat_map_ext_elem|].
  by induction categories.
Qed.

(** C10 (amended): whenever [downloadExcel], with its selects answered,
    gets every sheet name accepted by the library, it writes a file, and
    in that file the sheet at the place of a shop without a row in
    [shop_items] has no row at all, so no item row; the count page, asked
    for the items of the same shop, shows every item of the catalogue. *)
Theorem unassigned_shop_sheet_is_empty (book_append_sheet : Excel.SheetNames)
    (sessionId sessionName : string) (w : World) (i : nat) (shop : Shop)
    (sheets : list (string * list (list cell))) :
  (forall si, si ∈ shop_items (db w) -> si.1 <> shop_id shop) ->
  shops (db w) !! i = Some shop ->
  Excel.workbook book_append_sheet (shops (db w)) (categories (db w)) (shop_items (db w))
    (items (db w)) (Excel.session_counts (db w) sessionId) = Data sheets ->
  SessionsView.files
    (trace (run (Excel.downloadExcel book_append_sheet sessionId sessionName
                   None None None None None) w))
  = (SessionsView.files (trace w) ++ [((sessionName ++ ".xlsx")%string, sheets)])%list
  /\ (exists name, sheets !! i = Some (name, []))
  /\ (forall selectedSession loadError,
        Str.truthy (shop_id shop) = true ->
        st_items (run (Count.fetchItemsForShop (shop_id shop) selectedSession
                         None None loadError) w)
        = items (db w)).
Proof.
  intros Hnone Hshop Hbook. split; [|split].
  - destruct (downloadExcel_writes book_append_sheet sessionId sessionName w)
      as [_ Htrace]; [by intros E; rewrite E in Hshop|].
    rewrite Htrace, Hbook. by rewrite !files_app.
  - pose proof (workbook_data _ _ _ _ _ _ _ Hbook) as Hdata.
    assert (map snd sheets !! i = Some []) as Hi.
    { rewrite Hdata, list_lookup_fmap, Hshop. simpl. f_equal.
      by apply unassigned_sheet_nil. }
    rewrite list_lookup_fmap in Hi. destruct (sheets !! i) as [[name data]|]; [|done].
    exists name. simpl in Hi. by injection Hi as ->.
  - intros selectedSession loadError Htruthy.
    unfold Count.fetchItemsForShop, Count.loadExistingCounts. rewrite Htruthy. simpl.
    handler_unfold. simpl.
    assert (filter (fun si : string * string => si.1 = shop_id shop) (shop_items (db w))
            = []) as ->.
    { apply filter_none. intros si Hsi. by apply Hnone. }
    simpl. destruct (Str.truthy selectedSession); [|done].
    destruct loadError; done.
Qed.

(** Against C10 as stated: in the tables of the sample with a third shop,
    without items, whose name has 40 characters, the library refuses the
    name, and the export writes no file, so no sheet for that shop; its
    one toast is the error. *)
Lemma export_writes_no_sheet_for_long_name :
  let w' := run (Excel.downloadExcel Excel.sheetjs "s1" "March" None None None None None)
                (world Corner.with_depot []) in
  (forall si, si ∈ shop_items Corner.with_depot -> si.1 <> shop_id Corner.depot)
  /\ SessionsView.files (trace w') = []
  /\ toasts (trace w')
     = [ToastError "Error generating Excel file: Sheet names cannot exceed 31 chars"].
Proof.
  split; [|vm_compute; done].
  intros si Hsi. simpl in Hsi.
  repeat (apply elem_of_cons in Hsi as [->|Hsi]; [discriminate|]).
  by apply elem_of_nil in Hsi.
Qed.

Lemma unassigned_shop_sheet_is_empty_witness :
  let d := Sample.tables in
  let sheets := [("North", Excel.shop_sheet (categories d) (shop_items d) (items d)
                             (Excel.session_counts d "s1") Sample.north);
                 ("South", [])] in
  SessionsView.files
    (trace (run (Excel.downloadExcel Excel.sheetjs "s1" "March" None None None None None)
                (world d [])))
  = [("March.xlsx", sheets)]
  /\ st_items (run (Count.fetchItemsForShop "shop-2" "s1" None None None) (world d []))
     = [Sample.item_A; Sample.item_B; Sample.item_C].
Proof.
  intros d sheets.
  destruct (unassigned_shop_sheet_is_empty Excel.sheetjs "s1" "March" (world d []) 1
              Sample.south sheets) as (Hfile & _ & Hitems).
  - intros si Hsi. unfold d, Sample.tables in Hsi. simpl in Hsi.
    repeat (apply elem_of_cons in Hsi as [->|Hsi]; [discriminate|]).
    by apply elem_of_nil in Hsi.
  - reflexivity.
  - vm_compute. reflexivity.
  - split; [exact Hfile|]. apply (Hitems "s1" None). reflexivity.
Defined.

(** * Further properties *)

(** ** The counts of the page under its three updaters *)

Section CountsNat.

Lemma Qred_inject_Z (z : Z) : Qred (inject_Z z) = inject_Z z.
Proof.
  unfold Qred, inject_Z.
  generalize (Z.ggcd_gcd z 1) (Z.ggcd_correct_divisors z 1).
  destruct (Z.ggcd z 1) as (g, (aa, bb)). simpl. rewrite Z.gcd_1_r.
  intros -> [H1 H2]. rewrite Z.mul_1_l in H1, H2. by subst.
Qed.

Lemma add_of_Z (n d : Z) : Num.add (Num.of_Z n) d = Num.of_Z (n + d).
Proof.
  unfold Num.add, Num.of_Z. f_equal.
  rewrite <- (Qred_inject_Z (n + d)). apply Qred_complete.
  rewrite inject_Z_plus. reflexivity.
Qed.

Lemma or_zero_of_Z (n : Z) : Num.or_zero (Num.of_Z n) = Num.of_Z n.
Proof.
  unfold Num.or_zero, Num.of_Z. destruct (Qeq_bool (inject_Z n) 0) eqn:E; [|done].
  apply Qeq_bool_iff in E. unfold Qeq in E. simpl in E. f_equal. f_equal. lia.
Qed.

Lemma of_Z_inj (a b : Z) : Num.of_Z a = Num.of_Z b -> a = b.
Proof. unfold Num.of_Z, inject_Z. by intros [= ->]. Qed.

Lemma quantity_of_Z (n : Z) : quantity (Num.of_Z n) = Z.max 0 (Z.min 999999 n).
Proof. unfold Num.of_Z. by rewrite quantity_Finite, Qfloor_Z. Qed.

Variables (prev : gmap string StockCount) (itemId : string) (f : Count.field).
Hypothesis Hnat : CountView.counts_nat prev.

(** The field of the item as the updaters read it. *)
Lemma prev_or_zero_nat (g : Count.field) :
  exists n, 0 <= n /\ Count.prev_or_zero prev itemId g = Num.of_Z n
            /\ (forall c, prev !! itemId = Some c -> CountView.get g c = Num.of_Z n)
            /\ (prev !! itemId = None -> n = 0).
Proof.
  unfold Count.prev_or_zero. destruct (prev !! itemId) as [c|] eqn:E.
  - destruct (Hnat _ _ E) as (b & s & Hb & Hs & Hcb & Hcs).
    destruct g; [exists b|exists s]; rewrite ?Hcb, ?Hcs, or_zero_of_Z;
      repeat split; try done; intros c' [= <-]; done.
  - exists 0. repeat split; done.
Qed.

Lemma with_field_nat (n : Z) :
  0 <= n -> CountView.counts_nat (Count.with_field prev itemId f (Num.of_Z n)).
Proof.
  intros Hn k c. unfold Count.with_field.
  intros [[<- <-]|[_ Hk]]%lookup_insert_Some; [|by apply (Hnat k)].
  destruct (prev_or_zero_nat Count.Boxes) as (b & Hb & Hpb & _).
  destruct (prev_or_zero_nat Count.Singles) as (s & Hs & Hps & _).
  simpl. destruct f; [exists n, s|exists b, n]; by rewrite ?Hpb, ?Hps.
Qed.

(** X1: on a page whose counts are non-negative integers, typing any
    number into a field, and pressing plus or minus, leaves the counts
    non-negative integers: no updater stores a negative, fractional or
    non-finite count. *)
Theorem updaters_keep_counts_natural (value : number) :
  CountView.counts_nat (Count.updateCount itemId f value prev)
  /\ CountView.counts_nat (Count.incrementCount itemId f prev)
  /\ CountView.counts_nat (Count.decrementCount itemId f prev).
Proof.
  unfold Count.updateCount, Count.incrementCount, Count.decrementCount.
  destruct (prev_or_zero_nat f) as (n & Hn & -> & _).
  rewrite clamp_quantity, add_of_Z, gt0_of_Z, add_of_Z.
  pose proof (quantity_range value). repeat split.
  - apply with_field_nat. lia.
  - apply with_field_nat. lia.
  - destruct (Z.ltb_spec 0 n); [apply with_field_nat; lia|done].
Qed.

Lemma prev_or_zero_with_field (v : number) (k : string) (g : Count.field) :
  Count.prev_or_zero (Count.with_field prev itemId f v) k g
  = if decide (k = itemId)
    then (if decide (g = f) then Num.or_zero v else Count.prev_or_zero prev itemId g)
    else Count.prev_or_zero prev k g.
Proof.
  unfold Count.prev_or_zero at 1, Count.with_field.
  destruct (decide (k = itemId)) as [->|Hk].
  - rewrite lookup_insert_eq. simpl.
    destruct (prev_or_zero_nat Count.Boxes) as (b & _ & Hb & _).
    destruct (prev_or_zero_nat Count.Singles) as (s & _ & Hs & _).
    destruct g, f; simpl; rewrite ?Hb, ?Hs, ?or_zero_of_Z;
      repeat case_decide; done.
  - by rewrite lookup_insert_ne.
Qed.

End CountsNat.

(** Counts below 2^53 are non-negative integers. *)
Lemma counts_safe_nat (counts : gmap string StockCount) :
  CountView.counts_safe counts -> CountView.counts_nat counts.
Proof.
  intros Hsafe k c Hk. destruct (Hsafe k c Hk) as (b & s & Hb & Hs & Hcb & Hcs).
  exists b, s. repeat split; try done; lia.
Qed.

Section CountsSafe.

Variables (prev : gmap string StockCount) (itemId : string) (f : Count.field).
Hypothesis Hsafe : CountView.counts_safe prev.

(** The field of the item as the updaters read it, with its bound. *)
Lemma prev_or_zero_safe (g : Count.field) :
  exists n, 0 <= n < 2 ^ 53 /\ Count.prev_or_zero prev itemId g = Num.of_Z n.
Proof.
  unfold Count.prev_or_zero. destruct (prev !! itemId) as [c|] eqn:E.
  - destruct (Hsafe _ _ E) as (b & s & Hb & Hs & Hcb & Hcs).
    destruct g; [exists b|exists s]; rewrite ?Hcb, ?Hcs, or_zero_of_Z; done.
  - exists 0. split; [lia|done].
Qed.

(** X2: on counts below 2^53, where the subtraction is exact, pressing
    minus never takes a count below zero: a field at [n] goes to [n - 1]
    when [n] is positive, and at zero, or for an item the page has no
    entry for, the counts stay exactly as they are. *)
Theorem decrementCount_stops_at_zero :
  exists n,
    0 <= n < 2 ^ 53
    /\ Count.prev_or_zero prev itemId f = Num.of_Z n
    /\ Count.prev_or_zero (Count.decrementCount itemId f prev) itemId f
       = Num.of_Z (Z.max 0 (n - 1))
    /\ (n = 0 -> Count.decrementCount itemId f prev = prev).
Proof.
  pose proof (counts_safe_nat _ Hsafe) as Hnat.
  destruct (prev_or_zero_safe f) as (n & Hn & Hp). exists n.
  split; [done|]. split; [done|]. unfold Count.decrementCount.
  rewrite Hp, gt0_of_Z, add_of_Z. destruct (Z.ltb_spec 0 n).
  - split; [|lia]. rewrite (prev_or_zero_with_field _ _ _ Hnat), !decide_True by done.
    rewrite or_zero_of_Z. f_equal. lia.
  - split; [|done]. rewrite Hp. f_equal. lia.
Qed.

(** X3: on counts below 2^53, where the two additions are exact, pressing
    plus and then minus on a field gives back what every field of every
    item read before; the entry of the item itself is as before too when
    the page had one, under the item's id. *)
Theorem minus_undoes_plus :
  (forall k g,
     Count.prev_or_zero
       (Count.decrementCount itemId f (Count.incrementCount itemId f prev)) k g
     = Count.prev_or_zero prev k g)
  /\ (forall c, prev !! itemId = Some c -> sc_item_id c = itemId ->
        Count.decrementCount itemId f (Count.incrementCount itemId f prev) = prev).
Proof.
  pose proof (counts_safe_nat _ Hsafe) as Hnat.
  destruct (prev_or_zero_nat prev itemId Hnat f) as (n & Hn & Hp & Hget & _).
  assert (CountView.counts_nat (Count.incrementCount itemId f prev)) as Hnat'.
  { unfold Count.incrementCount. rewrite Hp, add_of_Z.
    apply with_field_nat; [done|lia]. }
  assert (Count.prev_or_zero (Count.incrementCount itemId f prev) itemId f
          = Num.of_Z (n + 1)) as Hinc.
  { unfold Count.incrementCount. rewrite Hp, add_of_Z.
    rewrite prev_or_zero_with_field, !decide_True by done. apply or_zero_of_Z. }
  assert (forall k g,
     Count.prev_or_zero
       (Count.decrementCount itemId f (Count.incrementCount itemId f prev)) k g
     = Count.prev_or_zero prev k g) as Hread.
  { intros k g. unfold Count.decrementCount at 1.
    rewrite Hinc, gt0_of_Z, add_of_Z. destruct (Z.ltb_spec 0 (n + 1)); [|lia].
    rewrite prev_or_zero_with_field by done.
    unfold Count.incrementCount. rewrite Hp, add_of_Z.
    destruct (decide (k = itemId)) as [->|Hk].
    - destruct (decide (g = f)) as [->|Hg].
      + rewrite or_zero_of_Z, Hp. f_equal. lia.
      + rewrite prev_or_zero_with_field, decide_True, decide_False by done. done.
    - rewrite prev_or_zero_with_field, decide_False by done. done. }
  split; [done|]. intros c Hc Hid.
  destruct (Hnat _ _ Hc) as (b & s & Hb & Hs & Hcb & Hcs).
  destruct c as [i cb cs]. simpl in *. subst i cb cs.
  assert (Count.prev_or_zero prev itemId Count.Boxes = Num.of_Z b) as PB.
  { unfold Count.prev_or_zero. rewrite Hc. apply or_zero_of_Z. }
  assert (Count.prev_or_zero prev itemId Count.Singles = Num.of_Z s) as PS.
  { unfold Count.prev_or_zero. rewrite Hc. apply or_zero_of_Z. }
  unfold Count.decrementCount. rewrite Hinc, gt0_of_Z, add_of_Z.
  destruct (Z.ltb_spec 0 (n + 1)); [|lia].
  unfold Count.incrementCount. rewrite Hp, add_of_Z.
  unfold Count.with_field at 1.
  rewrite !(prev_or_zero_with_field _ _ _ Hnat).
  unfold Count.with_field. rewrite insert_insert_eq. apply insert_id.
  rewrite Hc. f_equal.
  destruct f; rewrite !decide_True by done; simpl.
  - rewrite PB in Hp. apply of_Z_inj in Hp as <-.
    rewrite PS. f_equal. f_equal. lia.
  - rewrite PS in Hp. apply of_Z_inj in Hp as <-.
    rewrite PB. f_equal. f_equal. lia.
Qed.

End CountsSafe.


(** X4: pressing plus is not capped: on counts below 2^53, where the
    addition is exact, a field at [n] goes to [n + 1] even from 999999 on;
    the cap is applied when saving, where the row sent for the item carries
    the smaller of [n + 1] and 999999. *)
Theorem incrementCount_is_capped_on_save (prev : gmap string StockCount)
    (itemId : string) (f : Count.field) (selectedSession selectedShop userId : string) :
  counts_wf prev = true -> CountView.counts_safe prev ->
  exists n,
    0 <= n < 2 ^ 53
    /\ Count.prev_or_zero prev itemId f = Num.of_Z n
    /\ Count.prev_or_zero (Count.incrementCount itemId f prev) itemId f = Num.of_Z (n + 1)
    /\ (exists row,
          row ∈ Count.countsToSave selectedSession selectedShop userId
                  (Count.incrementCount itemId f prev)
          /\ in_item_id row = itemId)
    /\ (forall row,
          row ∈ Count.countsToSave selectedSession selectedShop userId
                  (Count.incrementCount itemId f prev) ->
          in_item_id row = itemId ->
          CountView.sent f row = Num.of_Z (Z.min 999999 (n + 1))).
Proof.
  intros Hwf Hsafe. pose proof (counts_safe_nat _ Hsafe) as Hnat.
  destruct (prev_or_zero_safe prev itemId Hsafe f) as (n & Hn & Hp).
  exists n. split; [done|]. split; [done|].
  assert (Count.prev_or_zero (Count.incrementCount itemId f prev) itemId f
          = Num.of_Z (n + 1)) as Hinc.
  { unfold Count.incrementCount. rewrite Hp, add_of_Z.
    rewrite (prev_or_zero_with_field _ _ _ Hnat), !decide_True by done.
    apply or_zero_of_Z. }
  split; [done|].
  assert (counts_wf (Count.incrementCount itemId f prev) = true) as Hwf'.
  { by apply (updaters_wf prev itemId f (Num.of_Z 0)). }
  assert (exists c, Count.incrementCount itemId f prev !! itemId = Some c
                    /\ sc_item_id c = itemId
                    /\ CountView.get f c = Num.of_Z (n + 1)) as (c & Hc & Hid & Hget).
  { unfold Count.incrementCount, Count.with_field. rewrite Hp, add_of_Z.
    eexists. rewrite lookup_insert_eq. split; [done|]. split; [done|]. by destruct f. }
  assert (Num.clamp (CountView.get f c) = Num.of_Z (Z.min 999999 (n + 1))) as Hclamp.
  { rewrite Hget, clamp_quantity, quantity_of_Z. f_equal. lia. }
  split.
  - exists {| in_session_id := selectedSession; in_shop_id := selectedShop;
              in_item_id := sc_item_id c; in_boxes := Num.clamp (boxes c);
              in_singles := Num.clamp (singles c); in_counted_by := userId |}.
    split; [|exact Hid]. unfold Count.countsToSave.
    apply list_elem_of_fmap. exists c. split; [done|].
    apply countsArray_elem. split; [by exists itemId|].
    unfold Count.has_count. apply orb_true_iff.
    destruct f; simpl in Hclamp; [left|right]; rewrite Hclamp, gt0_of_Z;
      apply Z.ltb_lt; lia.
  - intros row Hrow Hitem. unfold Count.countsToSave in Hrow.
    apply list_elem_of_fmap in Hrow as (c' & -> & Hc').
    apply countsArray_elem in Hc' as [[k Hk] _]. simpl in Hitem.
    pose proof (wf_lookup _ Hwf' _ _ Hk) as Hk'. rewrite Hitem in Hk'. subst k.
    rewrite Hc in Hk. injection Hk as <-. by destruct f.
Qed.

Lemma counts_nat_empty : CountView.counts_nat ∅.
Proof. intros k c Hk. by rewrite lookup_empty in Hk. Defined.

Lemma counts_nat_insert (m : gmap string StockCount) (k item : string) (b s : Z) :
  0 <= b -> 0 <= s -> CountView.counts_nat m ->
  CountView.counts_nat (<[k := Sample.count item b s]> m).
Proof.
  intros Hb Hs Hm k' c [[<- <-]|[_ Hk]]%lookup_insert_Some; [by exists b, s|].
  by apply (Hm k').
Defined.

Lemma counts_safe_empty : CountView.counts_safe ∅.
Proof. intros k c Hk. by rewrite lookup_empty in Hk. Defined.

Lemma counts_safe_insert (m : gmap string StockCount) (k item : string) (b s : Z) :
  0 <= b < 2 ^ 53 -> 0 <= s < 2 ^ 53 -> CountView.counts_safe m ->
  CountView.counts_safe (<[k := Sample.count item b s]> m).
Proof.
  intros Hb Hs Hm k' c [[<- <-]|[_ Hk]]%lookup_insert_Some; [by exists b, s|].
  by apply (Hm k').
Defined.

Lemma sample_counts_safe : CountView.counts_safe Sample.counts_AB.
Proof.
  unfold Sample.counts_AB. repeat apply counts_safe_insert; try lia.
  apply counts_safe_empty.
Defined.

Lemma sample_counts_nat : CountView.counts_nat Sample.counts_AB.
Proof.
  unfold Sample.counts_AB. repeat apply counts_nat_insert; try lia.
  apply counts_nat_empty.
Defined.

Lemma updaters_keep_counts_natural_witness :
  CountView.counts_nat
    (Count.updateCount "A" Count.Boxes (Finite (-7 # 2)) Sample.counts_AB)
  /\ CountView.counts_nat (Count.incrementCount "B" Count.Singles Sample.counts_AB)
  /\ CountView.counts_nat (Count.decrementCount "B" Count.Boxes Sample.counts_AB).
Proof.
  split; [|split].
  - apply (updaters_keep_counts_natural Sample.counts_AB "A" Count.Boxes
             sample_counts_nat (Finite (-7 # 2))).
  - apply (updaters_keep_counts_natural Sample.counts_AB "B" Count.Singles
             sample_counts_nat NaN).
  - apply (updaters_keep_counts_natural Sample.counts_AB "B" Count.Boxes
             sample_counts_nat NaN).
Defined.

Lemma decrementCount_stops_at_zero_witness :
  Count.decrementCount "B" Count.Boxes Sample.counts_AB = Sample.counts_AB
  /\ Count.prev_or_zero (Count.decrementCount "B" Count.Singles Sample.counts_AB)
       "B" Count.Singles = Num.of_Z 4.
Proof.
  split.
  - destruct (decrementCount_stops_at_zero Sample.counts_AB "B" Count.Boxes
                sample_counts_safe) as (n & _ & Hp & _ & Hzero).
    apply Hzero. apply of_Z_inj. rewrite <- Hp. reflexivity.
  - destruct (decrementCount_stops_at_zero Sample.counts_AB "B" Count.Singles
                sample_counts_safe) as (n & _ & Hp & Hdec & _).
    rewrite Hdec. assert (n = 5) as -> by (apply of_Z_inj; rewrite <- Hp; reflexivity).
    reflexivity.
Defined.

Lemma minus_undoes_plus_witness :
  Count.decrementCount "A" Count.Singles
    (Count.incrementCount "A" Count.Singles Sample.counts_AB)
  = Sample.counts_AB.
Proof.
  destruct (minus_undoes_plus Sample.counts_AB "A" Count.Singles sample_counts_safe)
    as [_ Hmap].
  apply (Hmap (Sample.count "A" 3 0)); reflexivity.
Defined.

Lemma incrementCount_is_capped_on_save_witness :
  Count.prev_or_zero (Count.incrementCount "A" Count.Boxes Sample2.counts_full)
    "A" Count.Boxes = Num.of_Z 1000000
  /\ (forall row,
        row ∈ Count.countsToSave "s1" "shop-1" "emp-1"
                (Count.incrementCount "A" Count.Boxes Sample2.counts_full) ->
        in_item_id row = "A" -> in_boxes row = Num.of_Z 999999).
Proof.
  destruct (incrementCount_is_capped_on_save Sample2.counts_full "A" Count.Boxes
              "s1" "shop-1" "emp-1") as (n & _ & Hp & Hinc & _ & Hsent).
  - vm_compute. reflexivity.
  - unfold Sample2.counts_full. apply counts_safe_insert; [lia..|apply counts_safe_empty].
  - assert (n = 999999) as -> by (apply of_Z_inj; rewrite <- Hp; reflexivity).
    split; [exact Hinc|]. intros row Hrow Hitem. exact (Hsent row Hrow Hitem).
Defined.

(** ** Reloading the counts of a session and shop *)

Section Reload.

Variables (d : Database) (sessionId shopId : string).

Lemma elem_of_shop_counts (c : CountRecord) :
  c ∈ Count.shop_counts d sessionId shopId <->
  exists it r,
    stock_counts d !! (sessionId, shopId, it) = Some r
    /\ c = Excel.to_record ((sessionId, shopId, it), r).
Proof.
  unfold Count.shop_counts. rewrite list_elem_of_fmap. split.
  - intros ([[[s sh] it] r] & -> & Hin).
    apply list_elem_of_filter in Hin as [[Hs Hsh] Hin]. simpl in Hs, Hsh. subst s sh.
    apply elem_of_map_to_list in Hin. by exists it, r.
  - intros (it & r & Hr & ->). exists ((sessionId, shopId, it), r). split; [done|].
    apply list_elem_of_filter. split; [done|]. by apply elem_of_map_to_list.
Qed.

Lemma shop_counts_items_NoDup :
  NoDup (map rec_item_id (Count.shop_counts d sessionId shopId)).
Proof.
  unfold Count.shop_counts. rewrite map_map. apply NoDup_fmap_2_strong.
  2: { apply NoDup_filter, NoDup_map_to_list. }
  intros [[[s sh] it] r] [[[s' sh'] it'] r'] Hin Hin' Hk. simpl in Hk. subst it'.
  apply list_elem_of_filter in Hin as [[Hs Hsh] Hin], Hin' as [[Hs' Hsh'] Hin'].
  simpl in *. subst. apply elem_of_map_to_list in Hin, Hin'. congruence.
Qed.

(** The map [loadExistingCounts] builds from the rows it is given. *)
Lemma countsMap_of_table (item : string) :
  foldl (fun m count =>
           <[rec_item_id count :=
               {| sc_item_id := rec_item_id count;
                  boxes := Count.stored (rec_boxes count);
                  singles := Count.stored (rec_singles count) |}]> m)
        (∅ : gmap string StockCount) (Count.shop_counts d sessionId shopId) !! item
  = CountView.page_entry item <$> stock_counts d !! (sessionId, shopId, item).
Proof.
  pose (g := fun count : CountRecord =>
               (rec_item_id count,
                {| sc_item_id := rec_item_id count;
                   boxes := Count.stored (rec_boxes count);
                   singles := Count.stored (rec_singles count) |})).
  rewrite <- (foldl_fmap (fun (m : gmap string StockCount) kv => <[kv.1 := kv.2]> m)
                ∅ _ g).
  assert (NoDup (g <$> Count.shop_counts d sessionId shopId).*1) as Hnd.
  { rewrite <- list_fmap_compose. apply shop_counts_items_NoDup. }
  destruct (stock_counts d !! (sessionId, shopId, item)) as [r|] eqn:E; simpl.
  - apply insert_all_in; [done|]. apply list_elem_of_fmap.
    exists (Excel.to_record ((sessionId, shopId, item), r)). split; [done|].
    apply elem_of_shop_counts. by exists item, r.
  - rewrite insert_all_notin; [done|]. rewrite <- list_fmap_compose.
    intros (c & Hc & (it & r & Hr & ->)%elem_of_shop_counts)%list_elem_of_fmap.
    simpl in Hc. subst it. congruence.
Qed.

End Reload.

(** The counts of the page after [loadExistingCounts]. *)
Lemma loadExistingCounts_st_counts (sessionId shopId : string)
    (error : option PostgrestError) (w : World) :
  let w' := run (Count.loadExistingCounts sessionId shopId error) w in
  match error with
  | None =>
      forall item,
        st_counts w' !! item
        = CountView.page_entry item <$> stock_counts (db w) !! (sessionId, shopId, item)
  | Some _ => st_counts w' = ∅
  end.
Proof.
  unfold Count.loadExistingCounts. handler_unfold. destruct error; simpl; [done|].
  intros item. apply countsMap_of_table.
Qed.

(** X5: [loadExistingCounts] never changes a table.  Answered, it sets the
    page's counts to exactly the rows the table holds for the session and
    shop, one entry per item under the item's id and nothing for an item
    without row; failing, it writes the error to the console and empties the
    page's counts. *)
Theorem loadExistingCounts_shows_the_table (sessionId shopId : string)
    (error : option PostgrestError) (w : World) :
  let w' := run (Count.loadExistingCounts sessionId shopId error) w in
  db w' = db w
  /\ match error with
     | None =>
         (forall item,
            st_counts w' !! item
            = CountView.page_entry item
                <$> stock_counts (db w) !! (sessionId, shopId, item))
         /\ trace w' = (trace w ++ [Request (SelectStockCounts sessionId (Some shopId))])%list
     | Some e =>
         st_counts w' = ∅
         /\ trace w' = (trace w ++ [Request (SelectStockCounts sessionId (Some shopId));
                                    ConsoleError "Error loading existing counts:" e])%list
     end.
Proof.
  unfold Count.loadExistingCounts. handler_unfold. destruct error; simpl.
  - by rewrite <- app_assoc.
  - split; [done|]. split; [|done]. intros item. apply countsMap_of_table.
Qed.

(** ** Saving and the reload that follows *)


Lemma saveCounts_then_reload (selectedSession selectedShop userId role : string)
    (counts : gmap string StockCount) (loadError : option PostgrestError)
    (w : World) (s : Session) :
  Str.truthy selectedSession = true -> Str.truthy selectedShop = true ->
  Str.truthy userId = true ->
  stock_count_sessions (db w) !! selectedSession = Some s -> status s = "active" ->
  authorised role userId selectedShop (db w) ->
  Count.countsArray counts <> [] ->
  st_counts (run (Count.saveCounts selectedSession selectedShop (Some userId) role counts
                    None None None loadError) w)
  = st_counts
      (run (Count.loadExistingCounts selectedSession selectedShop loadError)
           (world (set_counts
                     (Count.upsert_rows
                        (map (stored_row selectedSession selectedShop userId)
                             (Count.countsArray counts))) (db w)) [])).
Proof.
  intros Hsess Hshop Huser Hs Hact Hauth Hne.
  count_unfold. rewrite Hsess, Hshop, Huser. simpl.
  handler_unfold. simpl. rewrite Hs, Hact. simpl.
  rewrite to_row_countsToSave.
  assert (Nat.eqb (length (Count.countsArray counts)) 0 = false) as Hlen.
  { apply Nat.eqb_neq. by destruct (Count.countsArray counts). }
  destruct (String.eqb role "employee") eqn:Hrole; simpl.
  - apply String.eqb_eq in Hrole. destruct (Hauth Hrole) as [a ->]. simpl.
    rewrite Hlen. simpl. destruct loadError; done.
  - rewrite Hlen. simpl. destruct loadError; done.
Qed.

Section SaveReload.

Variables (selectedSession selectedShop userId role : string).
Variable counts : gmap string StockCount.
Variables (w : World) (s : Session).
Hypothesis Hsess : Str.truthy selectedSession = true.
Hypothesis Hshop : Str.truthy selectedShop = true.
Hypothesis Huser : Str.truthy userId = true.
Hypothesis Hs : stock_count_sessions (db w) !! selectedSession = Some s.
Hypothesis Hact : status s = "active".
Hypothesis Hauth : authorised role userId selectedShop (db w).
Hypothesis Hwf : counts_wf counts = true.
Hypothesis Hne : Count.countsArray counts <> [].


(** X7: when the save goes through but the reload that follows fails, the
    rows are stored, the success toast is shown and no error toast, and
    the page is left without any count. *)
Theorem saveCounts_failed_reload_empties_the_page (e : PostgrestError) :
  let w' := run (Count.saveCounts selectedSession selectedShop (Some userId) role counts
                   None None None (Some e)) w in
  st_counts w' = ∅
  /\ toasts (trace w')
     = (toasts (trace w)
          ++ [ToastSuccess (Count.saved (length (Count.countsArray counts)))])%list
  /\ (forall item c, counts !! item = Some c -> Count.has_count c = true ->
        stock_counts (db w') !! (selectedSession, selectedShop, item)
        = Some {| row_boxes := quantity (boxes c); row_singles := quantity (singles c);
                  counted_by := userId |}).
Proof.
  intros w'. split; [|split].
  - subst w'. rewrite (saveCounts_then_reload _ _ _ _ _ _ _ s) by done.
    exact (loadExistingCounts_st_counts selectedSession selectedShop (Some e)
             (world (set_counts
                       (Count.upsert_rows
                          (map (stored_row selectedSession selectedShop userId)
                               (Count.countsArray counts))) (db w)) [])).
  - by destruct (saveCounts_success selectedSession selectedShop userId role counts
                   (Some e) w s) as (_ & _ & Ht).
  - intros item c Hc Hhas.
    destruct (saveCounts_success selectedSession selectedShop userId role counts
                (Some e) w s) as (Hdb & _ & _); try done.
    fold w' in Hdb. rewrite Hdb. simpl. by apply upsert_lookup_saved.
Qed.

End SaveReload.


Lemma saveCounts_failed_reload_empties_the_page_witness :
  let w' := run (Count.saveCounts "s1" "shop-1" (Some "manager-1") "manager"
                   Sample.counts_AB None None None (Some Sample.timeout))
                (world Sample.tables []) in
  st_counts w' = ∅
  /\ stock_counts (db w') !! ("s1", "shop-1", "A")
     = Some {| row_boxes := 3; row_singles := 0; counted_by := "manager-1" |}.
Proof.
  intros w'.
  assert (authorised "manager" "manager-1" "shop-1" (db (world Sample.tables []))) as Hauth
    by (intros [=]).
  destruct (saveCounts_failed_reload_empties_the_page "s1" "shop-1" "manager-1" "manager"
              Sample.counts_AB (world Sample.tables []) Sample.march
              eq_refl eq_refl eq_refl ltac:(vm_compute; reflexivity) eq_refl Hauth
              ltac:(vm_compute; reflexivity) ltac:(vm_compute; discriminate)
              Sample.timeout) as (Hempty & _ & Hrows).
  split; [exact Hempty|].
  exact (Hrows "A" (Sample.count "A" 3 0) eq_refl eq_refl).
Defined.

(** ** The items of a shop on the count page *)



(** X8: [fetchItemsForShop] never changes a table.  Without a shop it sets
    the items to none and asks nothing; when one of its two selects fails it
    sets the items to none; when both are answered and the shop has an
    assignment, the items are exactly the items assigned to the shop, in the
    order of the items. *)
Theorem fetchItemsForShop_lists_assigned_items (shopId selectedSession : string)
    (shopItemsError itemsError loadError : option PostgrestError) (w : World) :
  let w' := run (Count.fetchItemsForShop shopId selectedSession
                   shopItemsError itemsError loadError) w in
  db w' = db w
  /\ (Str.truthy shopId = false -> st_items w' = [] /\ trace w' = trace w)
  /\ (Str.truthy shopId = true ->
      is_Some shopItemsError \/ is_Some itemsError -> st_items w' = [])
  /\ (Str.truthy shopId = true -> shopItemsError = None -> itemsError = None ->
      forall item, (shopId, item) ∈ shop_items (db w) ->
      st_items w' = filter (fun it => (shopId, item_id it) ∈ shop_items (db w))
                           (items (db w))).
Proof.
  unfold Count.fetchItemsForShop, Count.loadExistingCounts.
  destruct (Str.truthy shopId); simpl.
  2: { repeat split; done. }
  handler_unfold.
  destruct shopItemsError as [e1|]; simpl.
  { repeat split; done. }
  destruct (filter (fun si : string * string => si.1 = shopId) (shop_items (db w)))
    as [|si l] eqn:Hf; simpl.
  - destruct itemsError as [e2|]; simpl.
    + repeat split; done.
    + assert (forall item, (shopId, item) ∉ shop_items (db w)) as Hnone.
      { intros item Hin.
        assert ((shopId, item) ∈ filter (fun si : string * string => si.1 = shopId)
                                        (shop_items (db w))) as Hin'
          by by apply list_elem_of_filter.
        rewrite Hf in Hin'. by apply elem_of_nil in Hin'. }
      destruct (Str.truthy selectedSession); [destruct loadError|]; simpl;
        (split; [done|]; split; [done|]; split;
         [by intros _ [[? [=]]|[? [=]]]|intros _ _ _ item Hitem; by apply Hnone in Hitem]).
  - destruct itemsError as [e2|]; simpl.
    + repeat split; done.
    + assert (filter (fun it => item_id it ∈ map snd (si :: l)) (items (db w))
              = filter (fun it => (shopId, item_id it) ∈ shop_items (db w))
                       (items (db w))) as Heq.
      { apply list_filter_iff. intros it. rewrite <- Hf. rewrite list_elem_of_fmap. split.
        - intros ([sh i] & -> & [Hsh Hin]%list_elem_of_filter). simpl in Hsh. by subst sh.
        - intros Hin. exists (shopId, item_id it). split; [done|].
          by apply list_elem_of_filter. }
      destruct (Str.truthy selectedSession); [destruct loadError|]; simpl;
        (split; [done|]; split; [done|]; split;
         [by intros _ [[? [=]]|[? [=]]]|intros _ _ _ item Hitem; exact Heq]).
Qed.

Lemma fetchItemsForShop_lists_assigned_items_witness :
  st_items (run (Count.fetchItemsForShop "shop-1" "s1" None None None)
                (world Sample.tables []))
  = [Sample.item_A; Sample.item_B; Sample.item_C].
Proof.
  destruct (fetchItemsForShop_lists_assigned_items "shop-1" "s1" None None None
              (world Sample.tables [])) as (_ & _ & _ & Hitems).
  etrans; [apply (Hitems eq_refl eq_refl eq_refl "A"); by left|].
  vm_compute. reflexivity.
Defined.



(** ** What the count page offers *)

Section Offered.

Variables (role userId : string) (d : Database).
Variables (assignmentsError shopsError categoriesError : option PostgrestError).
Variable st : CountData.PageData.

Lemma elem_of_active_sessions (id : string) (s : Session) :
  (id, s) ∈ CountData.active_sessions d
  <-> stock_count_sessions d !! id = Some s /\ status s = "active".
Proof.
  unfold CountData.active_sessions, CountData.all_sessions.
  rewrite list_elem_of_filter, elem_of_map_to_list. simpl. tauto.
Qed.

Lemma fetchData_sessions (l : list (string * Session)) :
  CountData.offered_sessions role userId d None None None = Data l ->
  CountData.pd_sessions
    (CountData.fetchData role userId d None None None assignmentsError shopsError
       categoriesError st) = l.
Proof.
  intros Hl. unfold CountData.fetchData. rewrite Hl.
  destruct assignmentsError; simpl; [done|].
  destruct (String.eqb role "manager"); simpl.
  - destruct shopsError; simpl; [done|]. by destruct categoriesError.
  - by destruct categoriesError.
Qed.

(** X10: whoever is not a manager is offered, once the selects of the
    sessions are answered and whatever fails later, exactly the active
    sessions they are assigned to; only a user without any assignment row
    is offered every active session.  A completed session is never
    offered, and a user assigned to completed sessions only is offered
    none. *)
Theorem employee_is_offered_assigned_active_sessions (id : string) (s : Session) :
  role <> "manager" ->
  (id, s) ∈ CountData.pd_sessions
              (CountData.fetchData role userId d None None None assignmentsError
                 shopsError categoriesError st)
  <-> stock_count_sessions d !! id = Some s
      /\ status s = "active"
      /\ ((id, userId) ∈ session_user_assignments d
          \/ forall id', (id', userId) ∉ session_user_assignments d).
Proof.
  intros Hrole. apply String.eqb_neq in Hrole.
  set (assigned := filter (fun a : string * string => a.2 = userId)
                          (session_user_assignments d)).
  assert (forall id', id' ∈ map fst assigned <-> (id', userId) ∈ session_user_assignments d)
    as Hassigned.
  { intros id'. subst assigned. rewrite list_elem_of_fmap. split.
    - intros ([i u] & -> & [Hu Hin]%list_elem_of_filter). simpl in Hu. by subst u.
    - intros Hin. exists (id', userId). split; [done|]. by apply list_elem_of_filter. }
  destruct (map fst assigned) as [|i l] eqn:Hids.
  - rewrite (fetchData_sessions (CountData.active_sessions d)).
    2: { unfold CountData.offered_sessions. rewrite Hrole. simpl.
         fold assigned. by rewrite Hids. }
    rewrite elem_of_active_sessions. split; [|tauto].
    intros [? ?]. repeat split; try done. right. intros id' Hin.
    apply Hassigned in Hin. by apply elem_of_nil in Hin.
  - rewrite (fetchData_sessions
               (filter (fun p : string * Session => p.1 ∈ i :: l)
                       (CountData.active_sessions d))).
    2: { unfold CountData.offered_sessions. rewrite Hrole. simpl.
         fold assigned. by rewrite Hids. }
    rewrite list_elem_of_filter, elem_of_active_sessions. simpl.
    rewrite Hassigned. split; [tauto|].
    intros (? & ? & [?|Hnone]); [tauto|].
    exfalso. apply (Hnone i), Hassigned. by left.
Qed.

(** X11: a manager is offered the active sessions, and when no session is
    active every session there is.  A session offered that way is not
    active, and saving counts on it changes no table. *)
Theorem manager_is_offered_active_sessions_or_all (id : string) (s : Session) :
  role = "manager" ->
  ((id, s) ∈ CountData.pd_sessions
               (CountData.fetchData role userId d None None None assignmentsError
                  shopsError categoriesError st)
   <-> stock_count_sessions d !! id = Some s
       /\ (status s = "active"
           \/ forall id' s', stock_count_sessions d !! id' = Some s' ->
                             status s' <> "active"))
  /\ (stock_count_sessions d !! id = Some s -> status s <> "active" ->
      forall selectedShop user counts e1 e2 e3 e4 w,
        db w = d ->
        db (run (Count.saveCounts id selectedShop user role counts e1 e2 e3 e4) w) = d).
Proof.
  intros Hrole. split.
  - destruct (CountData.active_sessions d) as [|p l] eqn:Hactive.
    + rewrite (fetchData_sessions (CountData.all_sessions d)).
      2: { unfold CountData.offered_sessions. rewrite Hrole. simpl. by rewrite Hactive. }
      unfold CountData.all_sessions. rewrite elem_of_map_to_list. split; [|tauto].
      intros Hs. split; [done|]. right. intros id' s' Hs' Hact.
      assert ((id', s') ∈ CountData.active_sessions d) as Hin
        by by apply elem_of_active_sessions.
      rewrite Hactive in Hin. by apply elem_of_nil in Hin.
    + rewrite (fetchData_sessions (p :: l)).
      2: { unfold CountData.offered_sessions. rewrite Hrole. simpl. by rewrite Hactive. }
      rewrite <- Hactive, elem_of_active_sessions. split; [tauto|].
      intros [Hs [Hact|Hnone]]; [done|]. exfalso.
      assert (p ∈ CountData.active_sessions d) as Hp by (rewrite Hactive; left).
      destruct p as [id' s']. apply elem_of_active_sessions in Hp as [Hs' Hact'].
      by apply (Hnone id' s').
  - intros Hs Hact selectedShop user counts e1 e2 e3 e4 w <-.
    destruct (saveCounts_db_cases id selectedShop user role counts e1 e2 e3 e4 w)
      as [Hdb|(u & s0 & _ & Hs0 & Hact0 & _)]; [done|]. congruence.
Qed.

End Offered.

Lemma filter_pair_NoDup (l : list (string * string)) (u s : string) :
  NoDup l -> (u, s) ∈ l ->
  filter (fun a : string * string => a.1 = u /\ a.2 = s) l = [(u, s)].
Proof.
  induction l as [|[u' s'] l IH]; intros Hnd Hin; [by apply elem_of_nil in Hin|].
  apply NoDup_cons in Hnd as [Hnotin Hnd]. rewrite filter_cons. simpl.
  case_decide as Heq.
  - destruct Heq as [-> ->]. f_equal. apply filter_none.
    intros [u'' s''] Hin' [Hu Hs]. simpl in *. by subst.
  - apply elem_of_cons in Hin as [[= -> ->]|Hin]; [tauto|]. by apply IH.
Qed.

(** The shops [fetchData] offers to an employee are the shops of the
    employee's rows in [user_shop_assignments]. *)
Lemma employee_shops_offered (userId : string) (d : Database)
    (categoriesError : option PostgrestError) (st : CountData.PageData) (shop : string) :
  shop ∈ map fst (CountData.pd_shops
                    (CountData.fetchData "employee" userId d None None None None None
                       categoriesError st))
  <-> (userId, shop) ∈ user_shop_assignments d.
Proof.
  unfold CountData.fetchData.
  destruct (CountData.offered_sessions "employee" userId d None None None) as [l|e] eqn:E.
  2: { exfalso. revert E. unfold CountData.offered_sessions. simpl.
       by destruct (Nat.ltb _ _). }
  simpl.
  assert (shop ∈ map fst (CountData.userShops userId d)
          <-> (userId, shop) ∈ user_shop_assignments d) as Hshops.
  { unfold CountData.userShops. rewrite map_map. simpl. rewrite list_elem_of_fmap. split.
    - intros ([u s] & -> & [Hu Hin]%list_elem_of_filter). simpl in Hu. by subst u.
    - intros Hin. exists (userId, shop). split; [done|]. by apply list_elem_of_filter. }
  by destruct categoriesError.
Qed.

(** X12: for an employee the shops the page offers and the shops
    [saveCounts] lets them save for are the same.  With an assignment table
    without repeated rows, an active session and a count to save,
    [saveCounts] for a shop the page offers passes its access check and
    sends the upsert; for a shop the page does not offer it sends no
    writing request, changes no table, and its one toast says that the user
    has no access to the shop. *)
Theorem offered_shops_are_the_authorised_shops (userId : string)
    (categoriesError loadError : option PostgrestError) (st : CountData.PageData)
    (selectedSession shop : string) (s : Session) (counts : gmap string StockCount)
    (w : World) :
  NoDup (user_shop_assignments (db w)) ->
  Str.truthy selectedSession = true -> Str.truthy shop = true ->
  Str.truthy userId = true ->
  stock_count_sessions (db w) !! selectedSession = Some s -> status s = "active" ->
  Count.countsArray counts <> [] ->
  let offered :=
    shop ∈ map fst (CountData.pd_shops
                      (CountData.fetchData "employee" userId (db w) None None None None
                         None categoriesError st)) in
  let w' := run (Count.saveCounts selectedSession shop (Some userId) "employee" counts
                   None None None loadError) w in
  (offered ->
   writes (trace w')
   = (writes (trace w)
        ++ [UpsertStockCounts (Count.countsToSave selectedSession shop userId counts)])%list
   /\ toasts (trace w')
      = (toasts (trace w)
           ++ [ToastSuccess (Count.saved (length (Count.countsArray counts)))])%list)
  /\ (~ offered ->
      db w' = db w
      /\ writes (trace w') = writes (trace w)
      /\ toasts (trace w') = (toasts (trace w) ++ [ToastError Count.no_access])%list).
Proof.
  intros Hnd Hsess Hshop Huser Hs Hact Hne offered w'. subst offered w'.
  rewrite employee_shops_offered. split.
  - intros Hin.
    assert (authorised "employee" userId shop (db w)) as Hauth.
    { intros _. exists (userId, shop). by apply filter_pair_NoDup. }
    destruct (saveCounts_success selectedSession shop userId "employee" counts loadError
                w s Hsess Hshop Huser Hs Hact Hauth Hne) as (_ & Hw & Ht).
    done.
  - intros Hnot. count_unfold. rewrite Hsess, Hshop, Huser. simpl.
    handler_unfold. simpl. rewrite Hs, Hact. simpl.
    assert (filter (fun a : string * string => a.1 = userId /\ a.2 = shop)
                   (user_shop_assignments (db w)) = []) as ->.
    { apply filter_none. intros [u sh] Hin [Hu Hsh]. simpl in *. subst. by apply Hnot. }
    simpl. repeat split; trace_simpl; done.
Qed.

Lemma employee_is_offered_assigned_active_sessions_witness :
  ("s1", Sample.march)
    ∈ CountData.pd_sessions
        (CountData.fetchData "employee" "emp-1" Sample.tables None None None None None None
           CountData.initial)
  /\ ("s0", Sample.february)
       ∉ CountData.pd_sessions
           (CountData.fetchData "employee" "emp-1" Sample.tables None None None None None
              None CountData.initial).
Proof.
  split.
  - apply (employee_is_offered_assigned_active_sessions "employee" "emp-1" Sample.tables
             None None None CountData.initial "s1" Sample.march); [discriminate|].
    split; [vm_compute; reflexivity|]. split; [reflexivity|]. left. by left.
  - intros Hin.
    apply (employee_is_offered_assigned_active_sessions "employee" "emp-1" Sample.tables
             None None None CountData.initial "s0" Sample.february) in Hin
      as (_ & Hact & _); discriminate.
Defined.

Lemma manager_is_offered_active_sessions_or_all_witness :
  ("s1", Sample.march)
    ∈ CountData.pd_sessions
        (CountData.fetchData "manager" "manager-1" Sample.tables None None None None None
           None CountData.initial)
  /\ db (run (Count.saveCounts "s0" "shop-1" (Some "manager-1") "manager" Sample.counts_AB
                None None None None) (world Sample.tables []))
     = Sample.tables.
Proof.
  destruct (manager_is_offered_active_sessions_or_all "manager" "manager-1" Sample.tables
              None None None CountData.initial "s1" Sample.march eq_refl) as [Hoffer _].
  destruct (manager_is_offered_active_sessions_or_all "manager" "manager-1" Sample.tables
              None None None CountData.initial "s0" Sample.february eq_refl) as [_ Hsave].
  split.
  - apply Hoffer. split; [vm_compute; reflexivity|]. by left.
  - apply Hsave; [vm_compute; reflexivity|discriminate|reflexivity].
Defined.

Lemma offered_shops_are_the_authorised_shops_witness :
  let save shop :=
    run (Count.saveCounts "s1" shop (Some "emp-1") "employee" Sample.counts_AB
           None None None None) (world Sample.tables []) in
  writes (trace (save "shop-1"))
  = [UpsertStockCounts (Count.countsToSave "s1" "shop-1" "emp-1" Sample.counts_AB)]
  /\ toasts (trace (save "shop-2")) = [ToastError Count.no_access].
Proof.
  intros save.
  assert (NoDup (user_shop_assignments Sample.tables)) as Hnd.
  { apply NoDup_cons. split; [apply not_elem_of_nil|apply NoDup_nil_2]. }
  assert (stock_count_sessions Sample.tables !! "s1" = Some Sample.march) as Hs
    by (vm_compute; reflexivity).
  assert (Count.countsArray Sample.counts_AB <> []) as Hne by (vm_compute; discriminate).
  split.
  - pose proof (offered_shops_are_the_authorised_shops "emp-1" None None CountData.initial
                  "s1" "shop-1" Sample.march Sample.counts_AB (world Sample.tables [])
                  Hnd eq_refl eq_refl eq_refl Hs eq_refl Hne) as [Hoffered _].
    destruct Hoffered as [Hw _]; [|exact Hw].
    apply employee_shops_offered. by left.
  - pose proof (offered_shops_are_the_authorised_shops "emp-1" None None CountData.initial
                  "s1" "shop-2" Sample.march Sample.counts_AB (world Sample.tables [])
                  Hnd eq_refl eq_refl eq_refl Hs eq_refl Hne) as [_ Hnot].
    destruct Hnot as (_ & _ & Ht); [|exact Ht].
    intros Hin%employee_shops_offered. simpl in Hin.
    apply list_elem_of_singleton in Hin. discriminate.
Defined.

(** ** Names that are blank *)

Lemma trimStart_blank (s : string) :
  SessionsView.blank s = true -> Str.trimStart s = "".
Proof.
  induction s as [|a s IH]; [done|]. simpl.
  destruct (Str.is_ws a); simpl; [exact IH|discriminate].
Qed.

Lemma trimEnd_empty (s : string) :
  Str.trimEnd s = "" -> SessionsView.blank s = true.
Proof.
  induction s as [|a s IH]; [done|]. simpl.
  destruct (Str.trimEnd s) eqn:E; [|discriminate].
  destruct (Str.is_ws a); [|discriminate]. intros _. by apply IH.
Qed.

Lemma trimStart_not_blank (s : string) :
  Str.trimStart s = "" \/ exists a t, Str.trimStart s = String a t /\ Str.is_ws a = false.
Proof.
  induction s as [|a s IH]; [by left|]. simpl.
  destruct (Str.is_ws a) eqn:E; [exact IH|]. right. by exists a, s.
Qed.

Lemma trimStart_empty (s : string) :
  Str.trimStart s = "" -> SessionsView.blank s = true.
Proof.
  induction s as [|a s IH]; [done|]. simpl.
  destruct (Str.is_ws a); simpl; [exact IH|discriminate].
Qed.

(** A name is rejected as empty exactly when it consists of white space. *)
Lemma trim_blank (s : string) :
  Str.truthy (Str.trim s) = false <-> SessionsView.blank s = true.
Proof.
  unfold Str.trim. split.
  - intros Ht. assert (Str.trimEnd (Str.trimStart s) = "") as He
      by by destruct (Str.trimEnd (Str.trimStart s)).
    apply trimEnd_empty in He.
    destruct (trimStart_not_blank s) as [Hs|(a & t & Hs & Ha)].
    + by apply trimStart_empty.
    + rewrite Hs in He. simpl in He. by rewrite Ha in He.
  - intros Hb. by rewrite (trimStart_blank s Hb).
Qed.

(** ** Creating, completing and deleting sessions *)

(** X13: a session name made of white space only is refused before anything
    is asked of the database: one error toast, no request, no change. *)
Theorem createSession_refuses_blank_name (sessionName : string)
    (selectedUserIds : list string) (user : option string) (new_id : string)
    (sessionError assignError : option PostgrestError) (w : World) :
  SessionsView.blank sessionName = true ->
  let w' := run (Sessions.createSession sessionName selectedUserIds user new_id
                   sessionError assignError) w in
  db w' = db w
  /\ trace w' = (trace w ++ [ToastError "Please enter a session name"])%list.
Proof.
  intros Hblank%trim_blank. unfold Sessions.createSession. rewrite Hblank. done.
Qed.

Lemma createSession_refuses_blank_name_witness :
  let w' := run (Sessions.createSession "  " ["emp-1"] (Some "manager-1") "s2" None None)
                (world Sample.tables []) in
  db w' = Sample.tables /\ trace w' = [ToastError "Please enter a session name"].
Proof.
  apply (createSession_refuses_blank_name "  " ["emp-1"] (Some "manager-1") "s2" None None
           (world Sample.tables [])). reflexivity.
Defined.

Lemma not_blank_truthy (s : string) :
  SessionsView.blank s = false -> Str.truthy (Str.trim s) = true.
Proof.
  intros Hblank. destruct (Str.truthy (Str.trim s)) eqn:E; [done|].
  apply trim_blank in E. congruence.
Qed.

(** The tables after a creation whose first insert is answered. *)
Lemma createSession_db (sessionName : string) (selectedUserIds : list string)
    (user : option string) (new_id : string)
    (assignError : option PostgrestError) (w : World) :
  SessionsView.blank sessionName = false ->
  stock_count_sessions (db w) !! new_id = None ->
  db (run (Sessions.createSession sessionName selectedUserIds user new_id None assignError)
          w)
  = set_session_assignments
      (fun l => match assignError with
                | None => (l ++ map (fun userId => (new_id, userId)) selectedUserIds)%list
                | Some _ => l
                end)
      (set_sessions
         (insert new_id {| name := sessionName; status := "active"; created_by := user;
                           completed_at := None |}) (db w)).
Proof.
  intros Hname%not_blank_truthy Hnew.
  sessions_unfold. rewrite Hname. simpl. handler_unfold. simpl. rewrite Hnew. simpl.
  unfold set_session_assignments, set_sessions. simpl.
  destruct selectedUserIds as [|u l]; simpl.
  - rewrite app_nil_r. by destruct assignError.
  - by destruct assignError.
Qed.

(** The tables after a deletion in which no request fails. *)
Lemma deleteSession_db (id : string) (w : World) :
  Str.truthy id = true ->
  db (run (Sessions.deleteSession (Some id) None None None) w)
  = set_sessions (delete id)
      (set_session_assignments (filter (fun a : string * string => a.1 <> id))
         (set_counts (filter (fun kv : CountKey * CountRow => kv.1.1.1 <> id)) (db w))).
Proof.
  intros Hid. sessions_unfold. rewrite Hid. simpl. handler_unfold. done.
Qed.

(** X14: a session is created with one assignment row per selected user,
    appended in the order of the selection, and with no assignment request
    when no user is selected.  When the insert of the assignments fails the
    session stays created without any assignment, and the caller is still
    shown the success toast and no other. *)
Theorem createSession_assigns_best_effort (sessionName : string)
    (selectedUserIds : list string) (user : option string) (new_id : string)
    (assignError : option PostgrestError) (w : World) :
  SessionsView.blank sessionName = false ->
  stock_count_sessions (db w) !! new_id = None ->
  let w' := run (Sessions.createSession sessionName selectedUserIds user new_id
                   None assignError) w in
  let rows := map (fun userId => (new_id, userId)) selectedUserIds in
  stock_count_sessions (db w')
  = <[new_id := {| name := sessionName; status := "active"; created_by := user;
                   completed_at := None |}]> (stock_count_sessions (db w))
  /\ session_user_assignments (db w')
     = match assignError with
       | None => (session_user_assignments (db w) ++ rows)%list
       | Some _ => session_user_assignments (db w)
       end
  /\ writes (trace w')
     = (writes (trace w)
          ++ InsertSession sessionName "active" user
             :: match selectedUserIds with
                | [] => []
                | _ => [InsertSessionAssignments rows]
                end)%list
  /\ toasts (trace w')
     = (toasts (trace w) ++ [ToastSuccess "Session created successfully!"])%list
  /\ stock_counts (db w') = stock_counts (db w).
Proof.
  intros Hblank Hnew.
  assert (Str.truthy (Str.trim sessionName) = true) as Hname.
  { destruct (Str.truthy (Str.trim sessionName)) eqn:E; [done|].
    apply trim_blank in E. congruence. }
  sessions_unfold. rewrite Hname. simpl. handler_unfold. simpl. rewrite Hnew. simpl.
  destruct selectedUserIds as [|u l]; simpl.
  - rewrite app_nil_r. destruct assignError; repeat split; trace_simpl; done.
  - destruct assignError; simpl; repeat split; trace_simpl;
      rewrite <- ?app_assoc; done.
Qed.

Lemma createSession_assigns_best_effort_witness :
  let w' := run (Sessions.createSession "April" ["emp-1"; "emp-2"] (Some "manager-1") "s2"
                   None (Some Sample.timeout)) (world Sample.tables []) in
  session_user_assignments (db w') = [("s1", "emp-1")]
  /\ toasts (trace w') = [ToastSuccess "Session created successfully!"]
  /\ is_Some (stock_count_sessions (db w') !! "s2").
Proof.
  intros w'.
  destruct (createSession_assigns_best_effort "April" ["emp-1"; "emp-2"]
              (Some "manager-1") "s2" (Some Sample.timeout) (world Sample.tables []))
    as (Hs & Ha & _ & Ht & _); [reflexivity|vm_compute; reflexivity|].
  fold w' in Hs, Ha, Ht. split; [exact Ha|]. split; [exact Ht|].
  rewrite Hs, lookup_insert_eq. by eexists.
Defined.

(** X15: deleting a session right after creating it undoes the creation:
    when nothing fails and no row of the tables referred to the new id
    before, the tables are again what they were. *)
Theorem deleteSession_undoes_createSession (sessionName : string)
    (selectedUserIds : list string) (user : option string) (new_id : string) (w : World) :
  SessionsView.blank sessionName = false ->
  Str.truthy new_id = true ->
  stock_count_sessions (db w) !! new_id = None ->
  (forall a, a ∈ session_user_assignments (db w) -> a.1 <> new_id) ->
  (forall k r, stock_counts (db w) !! k = Some r -> k.1.1 <> new_id) ->
  db (run (Sessions.deleteSession (Some new_id) None None None)
          (run (Sessions.createSession sessionName selectedUserIds user new_id None None)
               w))
  = db w.
Proof.
  intros Hblank Hid Hnew Hassign Hcounts.
  rewrite (deleteSession_db _ _ Hid), (createSession_db _ _ _ _ _ _ Hblank Hnew).
  destruct (db w) as [ss sa sc us sh ca it si]. simpl in *.
  unfold set_sessions, set_session_assignments, set_counts. simpl.
  f_equal.
  - by apply delete_insert_id.
  - rewrite filter_app. rewrite (filter_none _ (map _ selectedUserIds)).
    2: { intros a (u & -> & _)%list_elem_of_fmap Hne. by apply Hne. }
    rewrite app_nil_r. clear -Hassign. induction sa as [|a l IH]; [done|].
    rewrite filter_cons_True by (apply Hassign; left). f_equal.
    apply IH. intros; apply Hassign; by right.
  - apply map_filter_id. intros k r Hk. simpl. by apply (Hcounts k r).
Qed.

Lemma deleteSession_undoes_createSession_witness :
  db (run (Sessions.deleteSession (Some "s2") None None None)
          (run (Sessions.createSession "April" ["emp-1"; "emp-2"] (Some "manager-1") "s2"
                  None None) (world Sample.tables [])))
  = Sample.tables.
Proof.
  apply (deleteSession_undoes_createSession "April" ["emp-1"; "emp-2"] (Some "manager-1")
           "s2" (world Sample.tables [])).
  - reflexivity.
  - reflexivity.
  - vm_compute. reflexivity.
  - intros a Ha. simpl in Ha. apply list_elem_of_singleton in Ha as ->. discriminate.
  - intros k r Hk. simpl in Hk.
    apply lookup_insert_Some in Hk as [[<- _]|[_ Hk]]; [discriminate|].
    by rewrite lookup_empty in Hk.
Defined.

(** X16: [completeSession] touches active sessions only.  For a session
    that is not active, or that is not in the table, it sends no writing
    request and changes no table, whatever fails; when the status is read,
    the one toast is the error that says so.  In particular a second
    completion of the same session keeps the time of the first. *)
Theorem completeSession_only_completes_active (sessionId : string) (now : Z)
    (checkError error : option PostgrestError) (w : World) :
  (forall s, stock_count_sessions (db w) !! sessionId = Some s -> status s <> "active") ->
  let w' := run (Sessions.completeSession sessionId now checkError error) w in
  db w' = db w
  /\ writes (trace w') = writes (trace w)
  /\ (checkError = None ->
      toasts (trace w')
      = (toasts (trace w)
           ++ [ToastError
                 match stock_count_sessions (db w) !! sessionId with
                 | Some _ => Sessions.already_completed
                 | None => ("Error: " ++ message_or_unknown PGRST116)%string
                 end])%list).
Proof.
  intros Hnot. sessions_unfold. handler_unfold.
  destruct checkError as [e|]; simpl.
  { repeat split; trace_simpl; done. }
  destruct (stock_count_sessions (db w) !! sessionId) as [s|] eqn:Hs; simpl.
  - destruct (String.eqb (status s) "active") eqn:Hact; simpl.
    { apply String.eqb_eq in Hact. by destruct (Hnot s). }
    repeat split; trace_simpl; done.
  - repeat split; trace_simpl; done.
Qed.

Lemma completeSession_only_completes_active_witness :
  let w1 := run (Sessions.completeSession "s1" 100 None None) (world Sample.tables []) in
  let w2 := run (Sessions.completeSession "s1" 200 None None) w1 in
  db w2 = db w1 /\ writes (trace w2) = writes (trace w1).
Proof.
  intros w1 w2.
  destruct (completeSession_only_completes_active "s1" 200 None None w1) as (Hd & Hw & _).
  - intros s Hs. vm_compute in Hs. injection Hs as <-. discriminate.
  - split; [exact Hd|exact Hw].
Defined.




(** X18: [downloadExcel] only reads: it changes no table and sends no
    writing request.  It writes its one file, followed by the success
    toast, exactly when all five selects are answered, there is a shop, and
    the library accepts the sheet name of every shop; otherwise it writes
    no file and the one toast is an error. *)
Theorem downloadExcel_file_or_error (book_append_sheet : Excel.SheetNames)
    (sessionId sessionName : string)
    (shopsError categoriesError shopItemsError itemsError countsError
       : option PostgrestError) (w : World) :
  let w' := run (Excel.downloadExcel book_append_sheet sessionId sessionName shopsError
                   categoriesError shopItemsError itemsError countsError) w in
  let book := Excel.workbook book_append_sheet (shops (db w)) (categories (db w))
                (shop_items (db w)) (items (db w))
                (Excel.session_counts (db w) sessionId) in
  db w' = db w
  /\ writes (trace w') = writes (trace w)
  /\ ((shopsError = None /\ categoriesError = None /\ shopItemsError = None
       /\ itemsError = None /\ countsError = None /\ shops (db w) <> []
       /\ exists sheets,
            book = Data sheets
            /\ SessionsView.files (trace w')
               = (SessionsView.files (trace w)
                    ++ [((sessionName ++ ".xlsx")%string, sheets)])%list
            /\ toasts (trace w')
               = (toasts (trace w)
                    ++ [ToastSuccess "Excel file downloaded successfully!"])%list)
      \/ ((shopsError <> None \/ categoriesError <> None \/ shopItemsError <> None
           \/ itemsError <> None \/ countsError <> None \/ shops (db w) = []
           \/ exists e, book = Err e)
          /\ SessionsView.files (trace w') = SessionsView.files (trace w)
          /\ exists msg, toasts (trace w') = (toasts (trace w) ++ [ToastError msg])%list)).
Proof.
  unfold Excel.downloadExcel, Excel.select_table. handler_unfold.
  destruct shopsError as [e|]; simpl.
  { repeat split; trace_simpl; try done. right.
    rewrite ?files_app, ?toasts_app; simpl; rewrite ?app_nil_r. split; [by left|]. eauto. }
  destruct (shops (db w)) as [|shop l] eqn:E; simpl.
  { repeat split; trace_simpl; try done. right.
    rewrite ?files_app, ?toasts_app; simpl; rewrite ?app_nil_r.
    split; [by do 5 right; left|]. eauto. }
  destruct categoriesError as [e|]; simpl.
  { repeat split; trace_simpl; try done. right.
    rewrite ?files_app, ?toasts_app; simpl; rewrite ?app_nil_r.
    split; [by right; left|]. eauto. }
  destruct shopItemsError as [e|]; simpl.
  { repeat split; trace_simpl; try done. right.
    rewrite ?files_app, ?toasts_app; simpl; rewrite ?app_nil_r.
    split; [by do 2 right; left|]. eauto. }
  destruct itemsError as [e|]; simpl.
  { repeat split; trace_simpl; try done. right.
    rewrite ?files_app, ?toasts_app; simpl; rewrite ?app_nil_r.
    split; [by do 3 right; left|]. eauto. }
  destruct countsError as [e|]; simpl.
  { repeat split; trace_simpl; try done. right.
    rewrite ?files_app, ?toasts_app; simpl; rewrite ?app_nil_r.
    split; [by do 4 right; left|]. eauto. }
  destruct (Excel.workbook _ _ _ _ _ _) as [sheets|e]; simpl.
  - split; [done|]. split; [by trace_simpl|]. left.
    do 6 (split; [done|]). exists sheets. split; [done|].
    rewrite ?files_app, ?toasts_app; simpl; rewrite ?app_nil_r. done.
  - split; [done|]. split; [by trace_simpl|]. right.
    rewrite ?files_app, ?toasts_app; simpl; rewrite ?app_nil_r.
    split; [do 6 right; by exists e|]. eauto.
Qed.

(** ** The import of products *)

Lemma extends_refl (d : Database) : ImportView.extends d d.
Proof.
  repeat split; try done; exists []; by rewrite app_nil_r.
Qed.

Lemma extends_trans (d1 d2 d3 : Database) :
  ImportView.extends d1 d2 -> ImportView.extends d2 d3 -> ImportView.extends d1 d3.
Proof.
  intros (H1 & H2 & H3 & H4 & H5 & H6 & [cs Hc] & [is_ Hi])
         (G1 & G2 & G3 & G4 & G5 & G6 & [cs' Hc'] & [is' Hi']).
  repeat split; try congruence.
  - exists (cs ++ cs')%list. by rewrite Hc', Hc, app_assoc.
  - exists (is_ ++ is')%list. by rewrite Hi', Hi, app_assoc.
Qed.

Lemma item_inserts_app (a b : list event) :
  ImportView.item_inserts (a ++ b)
  = (ImportView.item_inserts a ++ ImportView.item_inserts b)%list.
Proof. unfold ImportView.item_inserts. by rewrite writes_app, List.filter_app. Qed.

(** What looking up or creating the category of a row does. *)
Lemma category_of_effect (unique_names : bool) (categories : list Category)
    (row : Products.ImportRow) (env : Products.RowEnv) (w : World) :
  exists categoryId w',
    Products.category_of unique_names categories row env w = (Normal categoryId, w')
    /\ ImportView.extends (db w) (db w')
    /\ length (items (db w')) = length (items (db w))
    /\ toasts (trace w') = toasts (trace w)
    /\ ImportView.item_inserts (trace w') = ImportView.item_inserts (trace w).
Proof.
  unfold Products.category_of, Products.insert_category. handler_unfold.
  destruct (Str.truthy (Products.r_category row));
    [|eexists _, _; split; [done|]; split; [apply extends_refl|done]].
  destruct (Products.find_category _ _);
    [eexists _, _; split; [done|]; split; [apply extends_refl|done]|].
  destruct (Products.catError env); simpl.
  { eexists _, _. split; [done|]. split; [apply extends_refl|].
    simpl. rewrite toasts_app, item_inserts_app. simpl. by rewrite !app_nil_r. }
  destruct (_ || _); simpl.
  { eexists _, _. split; [done|]. split; [apply extends_refl|].
    simpl. rewrite toasts_app, item_inserts_app. simpl. by rewrite !app_nil_r. }
  eexists _, _. split; [done|]. split.
  { repeat split; simpl; try done; [by eexists|]. exists []; by rewrite app_nil_r. }
  simpl. rewrite !toasts_app, !item_inserts_app. simpl. by rewrite !app_nil_r.
Qed.

(** The loop, with everything the report depends on. *)
Lemma import_loop_effect (unique_names : bool) (categories : list Category)
    (rows : list (Products.ImportRow * Products.RowEnv)) (successCount errorCount : nat)
    (w : World) :
  exists s e w',
    Products.import_loop unique_names categories rows successCount errorCount w
    = (Normal (s, e), w')
    /\ (successCount <= s)%nat /\ (errorCount <= e)%nat
    /\ (s + e = successCount + errorCount
                + length (List.filter ImportSample.has_name rows))%nat
    /\ ImportView.extends (db w) (db w')
    /\ (length (items (db w')) + successCount = length (items (db w)) + s)%nat
    /\ toasts (trace w') = toasts (trace w)
    /\ (length (ImportView.item_inserts (trace w'))
        = length (ImportView.item_inserts (trace w))
          + length (List.filter ImportSample.has_name rows))%nat.
Proof.
  revert successCount errorCount w.
  induction rows as [|[row env] rows IH]; intros sc ec w.
  { exists sc, ec, w. simpl. split; [done|]. split; [done|]. split; [done|].
    split; [lia|]. split; [apply extends_refl|]. split; [done|]. split; [done|]. lia. }
  cbn [Products.import_loop List.filter].
  change (ImportSample.has_name (row, env))
    with (Str.truthy (Str.trim (Products.r_name row))).
  destruct (Str.truthy (Str.trim (Products.r_name row))); cbn [negb];
    [|apply IH].
  cbn [length].
  unfold bind at 1. cbv beta.
  destruct (category_of_effect unique_names categories row env w)
    as (cid & w1 & -> & Hext & Hlen & Ht & Hi).
  unfold Products.insert_item. handler_unfold.
  destruct (Products.itemError env); simpl.
  - match goal with |- context [Products.import_loop _ _ _ sc (S ec) ?w0] =>
      destruct (IH sc (S ec) w0)
        as (s & e & w' & -> & Hs & He & Hsum & Hext' & Hlen' & Ht' & Hi') end.
    simpl in Hext', Hlen', Ht', Hi'. exists s, e, w'. split; [done|].
    rewrite !toasts_app in Ht'. rewrite !item_inserts_app in Hi'. simpl in Ht', Hi'.
    rewrite !length_app in Hi'. simpl in Hi'. rewrite !app_nil_r in Ht'.
    split; [lia|]. split; [lia|]. split; [lia|].
    split; [by apply (extends_trans _ (db w1))|].
    split; [lia|]. split; [congruence|]. rewrite Hi', Hi. lia.
  - destruct (bool_decide _); simpl.
    + match goal with |- context [Products.import_loop _ _ _ sc (S ec) ?w0] =>
        destruct (IH sc (S ec) w0)
          as (s & e & w' & -> & Hs & He & Hsum & Hext' & Hlen' & Ht' & Hi') end.
      simpl in Hext', Hlen', Ht', Hi'. exists s, e, w'. split; [done|].
      rewrite !toasts_app in Ht'. rewrite !item_inserts_app in Hi'. simpl in Ht', Hi'.
      rewrite !length_app in Hi'. simpl in Hi'. rewrite !app_nil_r in Ht'.
      split; [lia|]. split; [lia|]. split; [lia|].
      split; [by apply (extends_trans _ (db w1))|].
      split; [lia|]. split; [congruence|]. rewrite Hi', Hi. lia.
    + match goal with |- context [Products.import_loop _ _ _ (S sc) ec ?w0] =>
        destruct (IH (S sc) ec w0)
          as (s & e & w' & -> & Hs & He & Hsum & Hext' & Hlen' & Ht' & Hi') end.
      simpl in Hext', Hlen', Ht', Hi'. exists s, e, w'. split; [done|].
      rewrite !toasts_app in Ht'. rewrite !item_inserts_app in Hi'. simpl in Ht', Hi'.
      rewrite !length_app in Hi'. rewrite !length_app in Hlen'. simpl in Hi', Hlen'. rewrite ?app_nil_r in Ht'.
      split; [lia|]. split; [lia|]. split; [lia|].
      split.
      { apply (extends_trans _ (db w1)); [done|].
        eapply extends_trans; [|exact Hext'].
        split; [done|]. split; [done|]. split; [done|]. split; [done|].
        split; [done|]. split; [done|]. simpl.
        split; [exists []; by rewrite app_nil_r|by eexists]. }
      split; [lia|]. split; [congruence|]. rewrite Hi', Hi. lia.
Qed.

(** The import from the end of its loop on. *)
Lemma handleFileImport_run (unique_names : bool) (categories : list Category)
    (rows : list (Products.ImportRow * Products.RowEnv)) (w w' : World) (s e : nat) :
  Products.import_loop unique_names categories rows 0 0 w = (Normal (s, e), w') ->
  db (run (Products.handleFileImport unique_names categories rows) w) = db w'
  /\ trace (run (Products.handleFileImport unique_names categories rows) w)
     = (trace w' ++ [ImportView.report s e])%list.
Proof.
  intros Hloop. unfold Products.handleFileImport, run, try_catch, bind.
  rewrite Hloop. unfold ImportView.report. simpl.
  destruct (Nat.ltb 0 s); handler_unfold; done.
Qed.

(** X19: the import asks for one item to be inserted per row with a name,
    and counts each of them once, as stored or as failed; the items table
    grows by the number it reports as stored; and it ends with exactly one
    toast, the success toast when at least one row was stored, an error
    otherwise - also for a file without any named row, which reports
    zero errors. *)
Theorem handleFileImport_accounts_for_named_rows (unique_names : bool)
    (categories : list Category) (rows : list (Products.ImportRow * Products.RowEnv))
    (w : World) :
  let w' := run (Products.handleFileImport unique_names categories rows) w in
  let named := length (List.filter ImportSample.has_name rows) in
  exists s e : nat,
    (s + e = named)%nat
    /\ length (items (db w')) = (length (items (db w)) + s)%nat
    /\ length (ImportView.item_inserts (trace w'))
       = (length (ImportView.item_inserts (trace w)) + named)%nat
    /\ toasts (trace w') = (toasts (trace w) ++ [ImportView.report s e])%list.
Proof.
  intros w0 named. subst w0 named.
  destruct (import_loop_effect unique_names categories rows 0 0 w)
    as (s & e & w' & Hloop & _ & _ & Hsum & _ & Hlen & Ht & Hi).
  destruct (handleFileImport_run _ _ _ _ _ _ _ Hloop) as [-> ->].
  exists s, e. rewrite toasts_app, item_inserts_app, length_app, Ht, Hi.
  split; [lia|]. split; [lia|]. split.
  - unfold ImportView.report. destruct (Nat.ltb 0 s); simpl; lia.
  - f_equal. unfold ImportView.report. by destruct (Nat.ltb 0 s).
Qed.

(** X20: the import only adds: whatever the file holds and whatever fails,
    the sessions, the counts, the assignments, the shops and their items
    stay as they are, and the categories and items that were in the tables
    stay where they were, new ones coming after them. *)
Theorem handleFileImport_only_adds (unique_names : bool)
    (categories : list Category) (rows : list (Products.ImportRow * Products.RowEnv))
    (w : World) :
  ImportView.extends (db w)
    (db (run (Products.handleFileImport unique_names categories rows) w)).
Proof.
  destruct (import_loop_effect unique_names categories rows 0 0 w)
    as (s & e & w' & Hloop & _ & _ & _ & Hext & _).
  destruct (handleFileImport_run _ _ _ _ _ _ _ Hloop) as [-> _]. exact Hext.
Qed.

(** ** The CSV file of the products page *)

Section CsvFacts.

Import Csv.

Lemma append_nil (s : string) : (EmptyString ++ s)%string = s.
Proof. reflexivity. Qed.

Lemma append_cons (a : ascii) (x y : string) :
  (String a x ++ y)%string = String a (x ++ y).
Proof. reflexivity. Qed.

Lemma append_assoc (x y z : string) : ((x ++ y) ++ z)%string = (x ++ (y ++ z))%string.
Proof.
  induction x as [|a x IH]; [done|]. rewrite !append_cons. by rewrite IH.
Qed.

Lemma free_app (sep : ascii) (x y : string) :
  free sep (x ++ y) = free sep x && free sep y.
Proof.
  induction x as [|a x IH]; [done|].
  rewrite append_cons. simpl. rewrite IH. by rewrite andb_assoc.
Qed.

Lemma free_escape (sep : ascii) (s : string) :
  Ascii.eqb quote sep = false -> free sep (escape s) = free sep s.
Proof.
  intros Hsep. induction s as [|a s IH]; [done|]. cbn [free escape].
  destruct (Ascii.eqb a quote) eqn:E; cbn [free]; rewrite ?IH; [|done].
  apply Ascii.eqb_eq in E as ->. by rewrite Hsep.
Qed.

Lemma escape_unquoted (s : string) : escape s = s <-> unquoted s = true.
Proof.
  unfold unquoted. split.
  - intros H. assert (String.length (escape s) = String.length s) as Hlen by by rewrite H.
    clear H. revert Hlen.
    assert (forall t, String.length t <= String.length (escape t))%nat as Hle.
    { induction t as [|b t IHt]; simpl; [lia|]. destruct (Ascii.eqb b quote); simpl; lia. }
    induction s as [|a s IH]; [done|]. simpl.
    destruct (Ascii.eqb a quote); simpl.
    + specialize (Hle s). lia.
    + intros [= H]. by apply IH.
  - induction s as [|a s IH]; [done|]. simpl.
    destruct (Ascii.eqb a quote); simpl; [done|]. intros H. by rewrite IH.
Qed.

Lemma split_nonempty (sep : ascii) (s : string) : split sep s <> [].
Proof.
  destruct s as [|a s]; simpl; [done|].
  destruct (Ascii.eqb a sep); [done|]. by destruct (split sep s).
Qed.

Lemma split_free (sep : ascii) (s : string) : free sep s = true -> split sep s = [s].
Proof.
  induction s as [|a s IH]; [done|]. simpl.
  destruct (Ascii.eqb a sep); simpl; [done|]. intros H. by rewrite IH.
Qed.

Lemma split_app (sep : ascii) (x y : string) :
  free sep x = true -> split sep (x ++ String sep y) = x :: split sep y.
Proof.
  induction x as [|a x IH].
  - intros _. rewrite append_nil. simpl. by rewrite Ascii.eqb_refl.
  - rewrite append_cons. simpl.
    destruct (Ascii.eqb a sep); simpl; [done|]. intros H. by rewrite IH.
Qed.

Lemma split_join (sep : ascii) (l : list string) :
  l <> [] -> Forall (fun s => free sep s = true) l -> split sep (join sep l) = l.
Proof.
  induction l as [|x l IH]; [done|]. intros _ Hfree.
  apply Forall_cons in Hfree as [Hx Hl].
  destruct l as [|y l]; [by apply split_free|].
  change (join sep (x :: y :: l)) with (x ++ String sep (join sep (y :: l)))%string.
  rewrite split_app by done. f_equal. by apply IH.
Qed.

Lemma trimEnd_quote (x : string) :
  Str.trimEnd (x ++ String quote EmptyString) = (x ++ String quote EmptyString)%string.
Proof.
  induction x as [|a x IH]; [done|].
  rewrite append_cons. simpl. rewrite IH.
  destruct x; [by rewrite append_nil|by rewrite append_cons].
Qed.

Lemma trim_quoted (s : string) : Str.trim (quoted s) = quoted s.
Proof.
  unfold Str.trim, quoted.
  change (Str.trimStart (String quote (escape s ++ String quote EmptyString)))
    with (String quote (escape s ++ String quote EmptyString)).
  rewrite <- append_cons. apply trimEnd_quote.
Qed.

Lemma strip_end_quote (x : string) : strip_end (x ++ String quote EmptyString) = x.
Proof.
  induction x as [|a x IH]; [done|].
  rewrite append_cons. simpl. rewrite IH.
  destruct x; [by rewrite append_nil|by rewrite append_cons].
Qed.

Lemma strip_quoted (s : string) : strip (Str.trim (quoted s)) = escape s.
Proof.
  rewrite trim_quoted. unfold quoted, strip.
  change (Ascii.eqb quote quote) with true. cbv iota. apply strip_end_quote.
Qed.

Lemma free_quoted (sep : ascii) (s : string) :
  Ascii.eqb quote sep = false -> free sep s = true -> free sep (quoted s) = true.
Proof.
  intros Hsep Hs. unfold quoted. cbn [free]. rewrite Hsep. cbn [negb andb].
  rewrite free_app, free_escape, Hs by done. cbn [free andb]. by rewrite Hsep.
Qed.

Lemma csvContent_lines (items : list PageItem) :
  csvContent items = join newline ("Name,Pack Size,Category" :: map line_of items).
Proof. unfold csvContent. by rewrite map_map. Qed.

Lemma uncut_free (s : string) :
  uncut s = true -> free comma s = true /\ free newline s = true.
Proof. unfold uncut. by intros [? ?]%andb_prop. Qed.

Lemma uncut_item_free (item : PageItem) :
  uncut_item item = true ->
  (free comma (item_name item.1) = true /\ free newline (item_name item.1) = true)
  /\ (free comma (pack_size item.1) = true /\ free newline (pack_size item.1) = true)
  /\ (free comma (category_cell item) = true /\ free newline (category_cell item) = true).
Proof.
  unfold uncut_item. intros [[H1 H2]%andb_prop H3]%andb_prop.
  by repeat split; apply uncut_free.
Qed.

Lemma line_of_cells (item : PageItem) :
  uncut_item item = true ->
  cells (line_of item)
  = [escape (item_name item.1); escape (pack_size item.1); escape (category_cell item)].
Proof.
  intros ((Hn & _) & (Hp & _) & (Hc & _))%uncut_item_free.
  unfold cells, line_of. rewrite split_join; [|done|].
  - cbn [map]. by rewrite !strip_quoted.
  - repeat constructor; by apply free_quoted.
Qed.

Lemma line_of_free (item : PageItem) :
  uncut_item item = true -> free newline (line_of item) = true.
Proof.
  intros ((_ & Hn) & (_ & Hp) & (_ & Hc))%uncut_item_free.
  unfold line_of. cbn [map join]. rewrite free_app. cbn [free]. rewrite free_app.
  cbn [free]. rewrite !free_quoted by done. done.
Qed.

Lemma line_of_not_blank (item : PageItem) :
  Str.truthy (Str.trim (line_of item)) = true.
Proof.
  destruct (Str.truthy (Str.trim (line_of item))) eqn:E; [done|].
  apply trim_blank in E. unfold line_of in E. cbn [map join] in E.
  unfold quoted at 1 in E. rewrite append_cons in E. discriminate E.
Qed.

Lemma lines_csvContent (items : list PageItem) :
  Forall (fun item => uncut_item item = true) items ->
  lines (csvContent items) = "Name,Pack Size,Category" :: map line_of items.
Proof.
  intros Huncut. rewrite csvContent_lines. unfold lines. rewrite split_join; [|done|].
  - cbn [List.filter]. change (Str.truthy (Str.trim "Name,Pack Size,Category")) with true.
    cbv iota. f_equal. induction items as [|item items IH]; [done|].
    apply Forall_cons in Huncut as [_ Hrest].
    cbn [map List.filter]. rewrite line_of_not_blank. f_equal. by apply IH.
  - constructor; [done|]. induction Huncut as [|item items H _ IH]; constructor; [|done].
    by apply line_of_free.
Qed.

(** What the import reads in a file the export wrote. *)
Lemma parse_csvContent (items : list PageItem) :
  Forall (fun item => uncut_item item = true) items ->
  parse (csvContent items)
  = match items with
    | [] => inl too_short
    | _ => inr (map escaped_row_of items)
    end.
Proof.
  intros Huncut. unfold parse. rewrite lines_csvContent by done.
  destruct items as [|item items]; [done|].
  set (data := map line_of (item :: items)).
  change (cells "Name,Pack Size,Category") with ["Name"; "Pack Size"; "Category"].
  change (findIndex _ ["Name"; "Pack Size"; "Category"]) with (Some 0%nat) at 1.
  assert (data = line_of item :: map line_of items) as Hdata by done.
  rewrite Hdata at 1. cbv iota. f_equal. subst data.
  remember (item :: items) as l eqn:Hl. clear Hl Hdata.
  induction Huncut as [|i l Hi _ IH]; [done|].
  cbn [map]. rewrite IH. f_equal. by rewrite line_of_cells.
Qed.

Lemma escaped_row_of_iff (item : PageItem) :
  escaped_row_of item = row_of item <-> unquoted_item item = true.
Proof.
  unfold escaped_row_of, row_of, unquoted_item. rewrite !andb_true_iff.
  rewrite <- !escape_unquoted. split.
  - by intros [= -> -> ->].
  - by intros [[-> ->] ->].
Qed.

Lemma trimEnd_cons (a : ascii) (s : string) :
  Str.is_ws a = false -> Str.trimEnd (String a s) = String a (Str.trimEnd s).
Proof. intros Ha. simpl. rewrite Ha. by destruct (Str.trimEnd s). Qed.

Lemma trimStart_quote (x : string) :
  Str.trimStart (x ++ String quote EmptyString)
  = (Str.trimStart x ++ String quote EmptyString)%string.
Proof.
  induction x as [|a x IH]; [done|].
  rewrite append_cons. simpl. destruct (Str.is_ws a); [exact IH|done].
Qed.

Lemma strip_end_unquoted (s : string) : unquoted s = true -> strip_end s = s.
Proof.
  unfold unquoted. induction s as [|a s IH]; [done|]. cbn [free strip_end].
  intros [Ha Hs]%andb_prop. rewrite IH by done.
  destruct s; [|done]. by destruct (Ascii.eqb a quote).
Qed.

Lemma strip_unquoted (s : string) : unquoted s = true -> strip s = s.
Proof.
  intros Hs. destruct s as [|a s]; [done|]. unfold strip.
  pose proof Hs as Hs'. unfold unquoted in Hs'. cbn [free] in Hs'.
  apply andb_prop in Hs' as [Ha _]. destruct (Ascii.eqb a quote); [done|].
  by apply strip_end_unquoted.
Qed.

Lemma unquoted_trimStart (s : string) :
  unquoted s = true -> unquoted (Str.trimStart s) = true.
Proof.
  unfold unquoted. induction s as [|a s IH]; [done|]. simpl.
  intros [Ha Hs]%andb_prop. destruct (Str.is_ws a); [by apply IH|].
  simpl. by rewrite Ha, Hs.
Qed.

Lemma unquoted_trimEnd (s : string) :
  unquoted s = true -> unquoted (Str.trimEnd s) = true.
Proof.
  unfold unquoted. induction s as [|a s IH]; [done|]. cbn [free Str.trimEnd].
  intros [Ha Hs]%andb_prop. specialize (IH Hs).
  destruct (Str.trimEnd s) eqn:E.
  - destruct (Str.is_ws a); [done|]. cbn [free]. by rewrite Ha.
  - cbn [free] in *. by rewrite Ha, IH.
Qed.

(** The first cell of a line whose first value was cut after [a]. *)
Lemma strip_trim_open (a : string) :
  unquoted a = true -> strip (Str.trim (String quote a)) = Str.trimEnd a.
Proof.
  intros Ha. unfold Str.trim.
  change (Str.trimStart (String quote a)) with (String quote a).
  rewrite trimEnd_cons by done. unfold strip.
  change (Ascii.eqb quote quote) with true. cbv iota.
  apply strip_end_unquoted. by apply unquoted_trimEnd.
Qed.

(** The cell that holds what follows the cut. *)
Lemma strip_trim_close (b : string) :
  unquoted b = true ->
  strip (Str.trim (b ++ String quote EmptyString)) = Str.trimStart b.
Proof.
  intros Hb. unfold Str.trim. rewrite trimStart_quote, trimEnd_quote.
  pose proof (unquoted_trimStart b Hb) as Ht.
  destruct (Str.trimStart b) as [|c t] eqn:E; [done|].
  rewrite append_cons. unfold strip.
  pose proof Ht as Hc. unfold unquoted in Hc. cbn [free] in Hc.
  apply andb_prop in Hc as [Hc _]. destruct (Ascii.eqb c quote); [done|].
  rewrite <- append_cons. apply strip_end_quote.
Qed.

End CsvFacts.

(** X21: what [handleFileImport] reads in a file [exportToCSV] wrote, for
    items whose cells hold no comma and no line break.  The export of an
    empty catalogue is refused as too short.  Otherwise every item comes
    back as one row, in order, with each double quote of its cells doubled:
    the export doubles the quotes and the import only removes the two
    around a cell.  So an item comes back as it was written exactly when
    its cells hold no double quote. *)
Theorem handleFileImport_reads_exportToCSV (items : list Csv.PageItem) :
  Forall (fun item => Csv.uncut_item item = true) items ->
  Csv.parse (Csv.csvContent items)
  = match items with
    | [] => inl Csv.too_short
    | _ => inr (map Csv.escaped_row_of items)
    end
  /\ (forall item, Csv.escaped_row_of item = Csv.row_of item
                   <-> Csv.unquoted_item item = true).
Proof.
  intros Huncut. split; [by apply parse_csvContent|apply escaped_row_of_iff].
Qed.

Lemma handleFileImport_reads_exportToCSV_witness :
  Csv.parse (Csv.csvContent (map (Csv.embed Sample.tables) (items Sample.tables)))
  = inr [{| Products.r_name := "Apples"; Products.r_pack_size := "12";
            Products.r_category := "Food" |};
         {| Products.r_name := "Beans"; Products.r_pack_size := "6";
            Products.r_category := "Food" |};
         {| Products.r_name := "Cola"; Products.r_pack_size := "24";
            Products.r_category := "Unknown" |}].
Proof.
  destruct (handleFileImport_reads_exportToCSV
              (map (Csv.embed Sample.tables) (items Sample.tables))) as [H _].
  - repeat constructor.
  - exact H.
Defined.

(** X22: the import cuts a line at every comma, also inside the quotes the
    export put around a cell.  An item whose name holds one comma comes
    back with the part before the comma as its name, the part after it as
    its pack size and its pack size as its category; its category is not
    read. *)
Theorem comma_in_name_shifts_the_cells (item : Csv.PageItem) (a b : string) :
  item_name item.1 = (a ++ String Csv.comma b)%string ->
  Csv.uncut a = true -> Csv.unquoted a = true ->
  Csv.uncut b = true -> Csv.unquoted b = true ->
  Csv.uncut (pack_size item.1) = true -> Csv.unquoted (pack_size item.1) = true ->
  Csv.uncut (Csv.category_cell item) = true ->
  Csv.parse (Csv.csvContent [item])
  = inr [{| Products.r_name := Str.trimEnd a;
            Products.r_pack_size := Str.trimStart b;
            Products.r_category := pack_size item.1 |}].
Proof.
  intros Hname [Hac Han]%uncut_free Haq [Hbc Hbn]%uncut_free Hbq
         [Hpc Hpn]%uncut_free Hpq [Hcc Hcn]%uncut_free.
  assert (Csv.escape a = a) as Hea by by apply escape_unquoted.
  assert (Csv.escape b = b) as Heb by by apply escape_unquoted.
  assert (Csv.escape (pack_size item.1) = pack_size item.1) as Hep
    by by apply escape_unquoted.
  assert (Csv.escape (item_name item.1) = item_name item.1) as Hen.
  { apply escape_unquoted. rewrite Hname. unfold Csv.unquoted in *.
    rewrite free_app. cbn [Csv.free]. by rewrite Haq, Hbq. }
  set (line := Csv.join Csv.comma
                 [String Csv.quote a; (b ++ String Csv.quote EmptyString)%string;
                  Csv.quoted (pack_size item.1); Csv.quoted (Csv.category_cell item)]).
  assert (Csv.line_of item = line) as Hline.
  { unfold Csv.line_of, line. cbn [map Csv.join]. unfold Csv.quoted at 1.
    rewrite Hen, Hname. rewrite append_cons. f_equal.
    rewrite !append_assoc. by rewrite !append_cons. }
  assert (Csv.free Csv.newline line = true) as Hfree.
  { unfold line. cbn [Csv.join]. rewrite append_cons. cbn [Csv.free].
    rewrite free_app. cbn [Csv.free]. rewrite free_app. cbn [Csv.free].
    rewrite !free_app. cbn [Csv.free].
    rewrite Han, Hbn, !free_quoted by done. done. }
  assert (Csv.cells line
          = [Str.trimEnd a; Str.trimStart b; pack_size item.1;
             Csv.escape (Csv.category_cell item)]) as Hcells.
  { unfold Csv.cells, line. rewrite split_join; [|done|].
    - cbn [map]. rewrite strip_trim_open, strip_trim_close, !strip_quoted by done.
      by rewrite Hep.
    - repeat constructor.
      + cbn [Csv.free]. by rewrite Hac.
      + rewrite free_app. cbn [Csv.free]. by rewrite Hbc.
      + by apply free_quoted.
      + by apply free_quoted. }
  unfold Csv.parse, Csv.lines. rewrite csvContent_lines.
  rewrite split_join; [|done|].
  - cbn [map List.filter].
    change (Str.truthy (Str.trim "Name,Pack Size,Category")) with true. cbv iota.
    rewrite line_of_not_blank. rewrite Hline.
    change (Csv.cells "Name,Pack Size,Category") with ["Name"; "Pack Size"; "Category"].
    change (Csv.findIndex _ ["Name"; "Pack Size"; "Category"]) with (Some 0%nat) at 1.
    cbv iota. cbn [map]. by rewrite Hcells.
  - repeat constructor. by rewrite Hline.
Qed.

Lemma comma_in_name_shifts_the_cells_witness :
  Csv.parse
    (Csv.csvContent
       [({| item_id := "D"; item_name := "Tea, green"; pack_size := "20";
            category_id := Some "c-drinks" |}, Some Sample.drinks)])
  = inr [{| Products.r_name := "Tea"; Products.r_pack_size := "green";
            Products.r_category := "20" |}].
Proof.
  apply (comma_in_name_shifts_the_cells
           ({| item_id := "D"; item_name := "Tea, green"; pack_size := "20";
               category_id := Some "c-drinks" |}, Some Sample.drinks) "Tea" " green");
    reflexivity.
Defined.

(** X23: an item without a category is exported under the category name
    Unknown, and the import takes that cell for a category like any
    other.  Importing the export of such an item on a page that knows no
    category of that name creates the category Unknown and stores a new
    item in it: the round trip through the file does not give the
    catalogue back. *)
Theorem reimport_files_uncategorised_items_under_Unknown (unique_names : bool)
    (cats : list Category) (item : Item) (envs : nat -> Products.RowEnv)
    (w : World) :
  Csv.uncut (item_name item) = true -> Csv.unquoted (item_name item) = true ->
  Csv.uncut (pack_size item) = true -> Csv.unquoted (pack_size item) = true ->
  Str.truthy (Str.trim (item_name item)) = true ->
  Products.find_category cats "Unknown" = None ->
  Products.catError (envs 0%nat) = None ->
  Products.itemError (envs 0%nat) = None ->
  Str.truthy (Products.new_category_id (envs 0%nat)) = true ->
  Products.new_category_id (envs 0%nat) ∉ map cat_id (categories (db w)) ->
  (unique_names = true -> "Unknown" ∉ map cat_name (categories (db w))) ->
  Products.new_item_id (envs 0%nat) ∉ map item_id (items (db w)) ->
  let w' := run (Csv.handleFileImport unique_names cats
                   (Csv.csvContent [(item, None)]) envs) w in
  categories (db w')
  = (categories (db w)
       ++ [{| cat_id := Products.new_category_id (envs 0%nat);
              cat_name := "Unknown" |}])%list
  /\ items (db w')
     = (items (db w)
          ++ [{| item_id := Products.new_item_id (envs 0%nat);
                 item_name := Str.trim (item_name item);
                 pack_size := Str.trim (pack_size item);
                 category_id := Some (Products.new_category_id (envs 0%nat)) |}])%list.
Proof.
  intros Hnc Hnq Hpc Hpq Hname Hfind HcatError HitemError Hid Hfresh Hunique Hitem.
  unfold Csv.handleFileImport.
  rewrite parse_csvContent.
  2: { repeat constructor. unfold Csv.uncut_item. simpl. by rewrite Hnc, Hpc. }
  cbn [map imap].
  assert (Csv.escaped_row_of (item, None) = Csv.row_of (item, None)) as ->.
  { apply escaped_row_of_iff. unfold Csv.unquoted_item. simpl.
    unfold Csv.unquoted in *. by rewrite Hnq, Hpq. }
  cbn [map imap]. unfold Csv.row_of. cbn [fst snd].
  change (Csv.category_cell (item, None)) with "Unknown".
  unfold Products.handleFileImport. cbn [Products.import_loop Products.r_name].
  rewrite Hname. cbn [negb]. unfold Products.category_of.
  cbn [Products.r_category Products.r_pack_size]. change (Str.truthy "Unknown") with true.
  cbv iota. rewrite Hfind. unfold Products.insert_category, Products.insert_item.
  rewrite HcatError, HitemError. handler_unfold. simpl.
  rewrite (bool_decide_eq_false_2 _ Hfresh). simpl.
  assert (unique_names && bool_decide ("Unknown" ∈ map cat_name (categories (db w)))
          = false) as ->.
  { destruct unique_names; [|done]. simpl. apply bool_decide_eq_false_2. by apply Hunique. }
  simpl. rewrite Hid. rewrite (bool_decide_eq_false_2 _ Hitem). simpl. done.
Qed.

Lemma reimport_files_uncategorised_items_under_Unknown_witness :
  let w' := run (Csv.handleFileImport true (categories Sample.tables)
                   (Csv.csvContent [(Sample.item_C, None)])
                   (fun _ => ImportSample.env "c-9" "i-9")) ImportSample.page in
  categories (db w')
  = [Sample.drinks; Sample.food; {| cat_id := "c-9"; cat_name := "Unknown" |}]
  /\ items (db w')
     = [Sample.item_A; Sample.item_B; Sample.item_C;
        {| item_id := "i-9"; item_name := "Cola"; pack_size := "24";
           category_id := Some "c-9" |}].
Proof.
  apply (reimport_files_uncategorised_items_under_Unknown true (categories Sample.tables)
           Sample.item_C (fun _ => ImportSample.env "c-9" "i-9") ImportSample.page);
    try reflexivity.
  - intros H. simpl in H.
    repeat (apply elem_of_cons in H as [H|H]; [discriminate|]). by apply elem_of_nil in H.
  - intros _ H. simpl in H.
    repeat (apply elem_of_cons in H as [H|H]; [discriminate|]). by apply elem_of_nil in H.
  - intros H. simpl in H.
    repeat (apply elem_of_cons in H as [H|H]; [discriminate|]). by apply elem_of_nil in H.
Defined.

(** ** The items of a shop on the products pages *)

Section ShopItemsFacts.

Import ProductsPage.

Lemma elem_of_delete_row (shop item : string) (t : list (string * string))
    (r : string * string) :
  r ∈ delete_row shop item t <-> r ∈ t /\ r <> (shop, item).
Proof.
  unfold delete_row. rewrite list_elem_of_filter. destruct r as [s i]. simpl.
  split; intros [H1 H2]; split; try done.
  - intros [= -> ->]. by apply H1.
  - intros [-> ->]. by apply H2.
Qed.

(** The table and the set after a toggle. *)
Lemma toggle_cases (removing adding removed added : string) (unique_rows : bool)
    (selectedShop itemId : string) (error : option PostgrestError) (p : ShopPage) :
  let p' := toggle removing adding removed added unique_rows selectedShop (shopItems p)
              itemId error p in
  (table p' = table p /\ shopItems p' = shopItems p)
  \/ (Str.truthy selectedShop = true /\ error = None /\ (itemId ∈ shopItems p)
      /\ table p' = delete_row selectedShop itemId (table p)
      /\ shopItems p' = shopItems p ∖ {[itemId]})
  \/ (Str.truthy selectedShop = true /\ error = None /\ (itemId ∉ shopItems p)
      /\ table p' = (table p ++ [(selectedShop, itemId)])%list
      /\ shopItems p' = shopItems p ∪ {[itemId]}).
Proof.
  unfold toggle. destruct (Str.truthy selectedShop); simpl; [|by left].
  destruct (bool_decide (itemId ∈ shopItems p)) eqn:Hin.
  - apply bool_decide_eq_true in Hin. destruct error; simpl; [by left|].
    right; left. done.
  - apply bool_decide_eq_false in Hin. unfold insert_row.
    destruct error; simpl; [by left|].
    destruct (unique_rows && _); simpl; [by left|]. right; right. done.
Qed.

Lemma toggle_mirrors (removing adding removed added : string) (unique_rows : bool)
    (selectedShop itemId : string) (error : option PostgrestError) (p : ShopPage) :
  mirrors selectedShop p ->
  mirrors selectedShop
    (toggle removing adding removed added unique_rows selectedShop (shopItems p)
       itemId error p).
Proof.
  intros Hm.
  destruct (toggle_cases removing adding removed added unique_rows selectedShop itemId
              error p) as [[Ht Hs]|[(_ & _ & Hin & Ht & Hs)|(_ & _ & Hin & Ht & Hs)]];
    intros item; rewrite Ht, Hs.
  - apply Hm.
  - rewrite elem_of_difference, elem_of_singleton, elem_of_delete_row, (Hm item).
    split; intros [H1 H2]; split; try done.
    + intros [= ->]. by apply H2.
    + intros ->. by apply H2.
  - rewrite elem_of_union, elem_of_singleton, elem_of_app, list_elem_of_singleton, (Hm item).
    split; (intros [H|H]; [by left|right]); [by rewrite H|by injection H].
Qed.

Lemma toggle_other_shops (removing adding removed added : string) (unique_rows : bool)
    (selectedShop itemId : string) (error : option PostgrestError) (p : ShopPage)
    (shop item : string) :
  shop <> selectedShop ->
  (shop, item) ∈ table (toggle removing adding removed added unique_rows selectedShop
                           (shopItems p) itemId error p)
  <-> (shop, item) ∈ table p.
Proof.
  intros Hne.
  destruct (toggle_cases removing adding removed added unique_rows selectedShop itemId
              error p) as [[Ht Hs]|[(_ & _ & Hin & Ht & Hs)|(_ & _ & Hin & Ht & Hs)]];
    rewrite Ht; [done| |].
  - rewrite elem_of_delete_row. split; [by intros [? _]|]. intros H. split; [done|].
    by intros [= -> _].
  - rewrite elem_of_app, list_elem_of_singleton. split; [|by left].
    intros [H|[= -> _]]; done.
Qed.

End ShopItemsFacts.

(** X24: the set of items the products page shows for the selected shop
    stays in step with the [shop_items] table without being fetched again.
    When the select of [fetchShopItems] is answered the set holds the items
    the table gives the shop; [toggleItemInShop] and [toggleItemAssignment]
    keep it so whether their request fails or not, and leave the rows of
    the other shops alone. *)
Theorem toggles_keep_page_in_step_with_table (unique_rows : bool)
    (selectedShop itemId : string) (error : option PostgrestError)
    (p : ProductsPage.ShopPage) :
  Str.truthy selectedShop = true ->
  let fetched := ProductsPage.fetchShopItems selectedShop None p in
  ProductsPage.table fetched = ProductsPage.table p
  /\ ProductsPage.mirrors selectedShop fetched
  /\ (ProductsPage.mirrors selectedShop p ->
      let p1 := ProductsPage.toggleItemInShop unique_rows selectedShop
                  (ProductsPage.shopItems p) itemId error p in
      let p2 := ProductsPage.toggleItemAssignment unique_rows selectedShop
                  (ProductsPage.shopItems p) itemId error p in
      ProductsPage.mirrors selectedShop p1 /\ ProductsPage.mirrors selectedShop p2
      /\ forall shop item, shop <> selectedShop ->
           ((shop, item) ∈ ProductsPage.table p1 <-> (shop, item) ∈ ProductsPage.table p)
           /\ ((shop, item) ∈ ProductsPage.table p2
               <-> (shop, item) ∈ ProductsPage.table p)).
Proof.
  intros Hshop fetched. subst fetched. unfold ProductsPage.fetchShopItems.
  rewrite Hshop. simpl. split; [done|]. split.
  - intros item. simpl. unfold ProductsPage.select_item_ids.
    rewrite elem_of_list_to_set, list_elem_of_fmap. split.
    + intros ([s i] & -> & [Hs Hin]%list_elem_of_filter). simpl in *. by subst.
    + intros Hin. exists (selectedShop, item). split; [done|].
      apply list_elem_of_filter. done.
  - intros Hm. split; [by apply toggle_mirrors|]. split; [by apply toggle_mirrors|].
    intros shop item Hne. split; by apply toggle_other_shops.
Qed.

Lemma toggles_keep_page_in_step_with_table_witness :
  let p := {| ProductsPage.table := shop_items Sample.tables;
              ProductsPage.shopItems := ∅; ProductsPage.shown := [] |} in
  ProductsPage.mirrors "shop-1" (ProductsPage.fetchShopItems "shop-1" None p).
Proof.
  intros p.
  destruct (toggles_keep_page_in_step_with_table false "shop-1" "A" None p)
    as (_ & H & _); [reflexivity|exact H].
Defined.

(** X25: without a failing request a second toggle of the same item undoes
    the first.  The set of the page is what it was, the table holds the
    rows it held, and when the item was not in the shop the table is the
    very list it was; the two toasts are one success each. *)
Theorem toggleItemInShop_twice (unique_rows : bool) (selectedShop itemId : string)
    (p : ProductsPage.ShopPage) :
  Str.truthy selectedShop = true ->
  ProductsPage.mirrors selectedShop p ->
  let p1 := ProductsPage.toggleItemInShop unique_rows selectedShop
              (ProductsPage.shopItems p) itemId None p in
  let p2 := ProductsPage.toggleItemInShop unique_rows selectedShop
              (ProductsPage.shopItems p1) itemId None p1 in
  ProductsPage.shopItems p2 = ProductsPage.shopItems p
  /\ (forall r, r ∈ ProductsPage.table p2 <-> r ∈ ProductsPage.table p)
  /\ (itemId ∉ ProductsPage.shopItems p -> ProductsPage.table p2 = ProductsPage.table p)
  /\ ProductsPage.shown p2
     = (ProductsPage.shown p
          ++ if bool_decide (itemId ∈ ProductsPage.shopItems p)
             then [ToastSuccess "Item removed from shop"; ToastSuccess "Item added to shop"]
             else [ToastSuccess "Item added to shop"; ToastSuccess "Item removed from shop"])%list.
Proof.
  intros Hshop Hm p1 p2. subst p1 p2.
  unfold ProductsPage.toggleItemInShop, ProductsPage.toggle. rewrite Hshop. simpl.
  destruct (bool_decide (itemId ∈ ProductsPage.shopItems p)) eqn:Hin.
  - apply bool_decide_eq_true in Hin. simpl.
    rewrite bool_decide_eq_false_2.
    2: { rewrite elem_of_difference, elem_of_singleton. by intros [_ ?]. }
    unfold ProductsPage.insert_row.
    assert (unique_rows
            && bool_decide ((selectedShop, itemId)
                            ∈ ProductsPage.delete_row selectedShop itemId
                                (ProductsPage.table p)) = false) as ->.
    { rewrite bool_decide_eq_false_2; [by destruct unique_rows|].
      rewrite elem_of_delete_row. by intros [_ ?]. }
    simpl. split; [|split; [|split]].
    + apply set_eq. intros x. rewrite elem_of_union, elem_of_difference, elem_of_singleton.
      destruct (decide (x = itemId)) as [->|]; intuition congruence.
    + intros r. rewrite elem_of_app, list_elem_of_singleton, elem_of_delete_row.
      destruct (decide (r = (selectedShop, itemId))) as [->|]; [|intuition congruence].
      split; [intros _; by apply Hm|by right].
    + done.
    + by rewrite <- app_assoc.
  - apply bool_decide_eq_false in Hin. unfold ProductsPage.insert_row.
    assert (unique_rows
            && bool_decide ((selectedShop, itemId) ∈ ProductsPage.table p) = false) as ->.
    { rewrite bool_decide_eq_false_2; [by destruct unique_rows|]. by rewrite <- (Hm itemId). }
    simpl. rewrite bool_decide_eq_true_2.
    2: { rewrite elem_of_union, elem_of_singleton. by right. }
    simpl.
    assert (ProductsPage.delete_row selectedShop itemId
              (ProductsPage.table p ++ [(selectedShop, itemId)])
            = ProductsPage.table p) as Htable.
    { unfold ProductsPage.delete_row. rewrite filter_app.
      rewrite (filter_none _ [(selectedShop, itemId)]).
      2: { intros r ->%list_elem_of_singleton Hr. by apply Hr. }
      rewrite app_nil_r.
      assert (forall r, r ∈ ProductsPage.table p -> r <> (selectedShop, itemId)) as Hall.
      { intros r Hr ->. by apply Hin, Hm. }
      induction (ProductsPage.table p) as [|r l IH]; [done|].
      rewrite filter_cons_True.
      2: { intros [H1 H2]. apply (Hall r); [left|]. by destruct r; simpl in *; subst. }
      f_equal. apply IH. intros; apply Hall; by right. }
    rewrite Htable. split; [|split; [|split]]; try done.
    + apply set_eq. intros x. rewrite elem_of_difference, elem_of_union, elem_of_singleton.
      destruct (decide (x = itemId)) as [->|]; intuition congruence.
    + by rewrite <- app_assoc.
Qed.

Lemma toggleItemInShop_twice_witness :
  let p := {| ProductsPage.table := shop_items Sample.tables;
              ProductsPage.shopItems := {["A"; "B"; "C"]}; ProductsPage.shown := [] |} in
  let p1 := ProductsPage.toggleItemInShop true "shop-1" (ProductsPage.shopItems p) "B"
              None p in
  let p2 := ProductsPage.toggleItemInShop true "shop-1" (ProductsPage.shopItems p1) "B"
              None p1 in
  ProductsPage.shopItems p2 = {["A"; "B"; "C"]}.
Proof.
  intros p p1 p2.
  destruct (toggleItemInShop_twice true "shop-1" "B" p) as (H & _); [reflexivity| |exact H].
  intros item. simpl. rewrite !elem_of_union, !elem_of_singleton, !elem_of_cons, elem_of_nil.
  split.
  - intros [[->| ->]| ->]; [by left|by right; left|by right; right; left].
  - intros [[= ->]|[[= ->]|[[= ->]|[]]]]; [by left; left|by left; right|by right].
Defined.

(** X26: [saveItem] stores filled-in items only.  Every item of the table
    after it was in the table before, or carries the name, the pack size and
    the category of the form as they were typed, each of them filled in; an
    edit keeps the identifiers of the table; and an error toast comes with
    an unchanged table.  So a table of items with a category keeps that
    property under [saveItem]. *)
Theorem saveItem_stores_filled_in_items (f : ProductsPage.ItemForm)
    (error : option PostgrestError) (new_id : string) (t : list Item) :
  let t' := (ProductsPage.saveItem f error new_id t).1 in
  let shown := (ProductsPage.saveItem f error new_id t).2 in
  (forall i, i ∈ t' ->
     i ∈ t
     \/ (ProductsPage.filled_in i
         /\ item_name i = ProductsPage.itemName f
         /\ pack_size i = ProductsPage.itemPackSize f
         /\ category_id i = Some (ProductsPage.itemCategoryId f)))
  /\ (Forall ProductsPage.filled_in t -> Forall ProductsPage.filled_in t')
  /\ (is_Some (ProductsPage.editingItem f) -> map item_id t' = map item_id t)
  /\ ((exists msg, shown = ToastError msg) -> t' = t).
Proof.
  intros t' shown.
  assert (forall i, i ∈ t' ->
            i ∈ t
            \/ (ProductsPage.filled_in i
                /\ item_name i = ProductsPage.itemName f
                /\ pack_size i = ProductsPage.itemPackSize f
                /\ category_id i = Some (ProductsPage.itemCategoryId f))) as Hitems.
  { subst t'. unfold ProductsPage.saveItem.
    destruct (Str.truthy (Str.trim (ProductsPage.itemName f))) eqn:Hn; simpl; [|by left].
    destruct (Str.truthy (Str.trim (ProductsPage.itemPackSize f))) eqn:Hp; simpl;
      [|by left].
    destruct (Str.truthy (ProductsPage.itemCategoryId f)) eqn:Hc; simpl; [|by left].
    assert (forall id, ProductsPage.filled_in (ProductsPage.of_form id f)) as Hfilled.
    { intros id. repeat split; try done. by eexists. }
    destruct (ProductsPage.editingItem f) as [item|]; destruct error; simpl;
      try (by left).
    - intros i (j & -> & Hj)%list_elem_of_fmap.
      destruct (String.eqb (item_id j) (item_id item)); [right|by left].
      split; [apply Hfilled|done].
    - destruct (bool_decide _); simpl; [by left|].
      intros i [Hi| ->%list_elem_of_singleton]%elem_of_app; [by left|right].
      split; [apply Hfilled|done]. }
  split; [exact Hitems|]. split; [|split].
  - rewrite !Forall_forall. intros Ht i Hi.
    destruct (Hitems i Hi) as [Hin|[Hf _]]; [by apply Ht|done].
  - intros [item Hedit]. subst t'. unfold ProductsPage.saveItem. rewrite Hedit.
    destruct (_ || _); simpl; [done|]. destruct error; simpl; [done|].
    unfold ProductsPage.update_item. rewrite map_map. apply map_ext_in.
    intros j _. destruct (String.eqb (item_id j) (item_id item)) eqn:E; [|done].
    simpl. by apply String.eqb_eq in E.
  - subst t' shown. unfold ProductsPage.saveItem. intros [msg Hmsg]. revert Hmsg.
    destruct (_ || _); simpl; [done|].
    destruct (ProductsPage.editingItem f); destruct error; simpl; try done.
    destruct (bool_decide _); simpl; done.
Qed.
